(** * Invoice calculation engine of the elevator invoice bot

    A shallow embedding of [src/logic/calculator.py] (class
    [InvoiceCalculator]), of the catalog query [get_products] of
    [src/db/database.py] and of the [floors] step of the conversation in
    [src/bot/handlers.py], together with the parts of the Python run time
    they rely on: numbers ([int] and binary64 [float]), truthiness,
    [int(..)], [str(..)] and [string.Template.safe_substitute]. *)

From Stdlib Require Import ZArith QArith Qround List Bool Lia.
From Stdlib Require Import Ascii String DecimalString.
From Stdlib Require Import SpecFloat.
Import ListNotations.

Local Open Scope Z_scope.

(** ** Python values and exceptions *)

Module Py.

(** The exceptions the modelled code can meet. *)
Inductive exn := OverflowError | ValueError | TypeError | KeyError.

(** A computation either returns or raises. *)
Inductive result (A : Type) :=
| Ok (a : A)
| Raise (e : exn).
Arguments Ok {A} a.
Arguments Raise {A} e.

Definition bind {A B} (r : result A) (k : A -> result B) : result B :=
  match r with
  | Ok a => k a
  | Raise e => Raise e
  end.

(** [try: r  except Exception: h] *)
Definition try_except {A} (r : result A) (h : result A) : result A :=
  match r with
  | Ok a => Ok a
  | Raise _ => h
  end.

Notation "x <- r ;; k" := (bind r (fun x => k))
  (at level 61, r at next level, right associativity).

(** Python floats are IEEE 754 binary64 numbers. *)
Definition prec := 53.
Definition emax := 1024.
Definition float := spec_float.

Definition fmul : float -> float -> float := SFmul prec emax.
Definition fadd : float -> float -> float := SFadd prec emax.
Definition fltb : float -> float -> bool := SFltb.
Definition feqb : float -> float -> bool := SFeqb.

Definition fzero : float := S754_zero false.
Definition fone : float := Eval cbv in binary_normalize prec emax 1 0 false.

(** A number is an [int] or a [float]. *)
Inductive num :=
| PyInt (n : Z)
| PyFloat (x : float).

(** [float(n)] for an int [n], as the arithmetic operators apply it to an
    int operand that meets a float: round to nearest even, and
    [OverflowError] when the int is too large. *)
Definition float_of_int (n : Z) : result float :=
  match binary_normalize prec emax n 0 false with
  | S754_infinity _ => Raise OverflowError
  | x => Ok x
  end.

Definition to_float (v : num) : result float :=
  match v with
  | PyInt n => float_of_int n
  | PyFloat x => Ok x
  end.

(** [a * b] *)
Definition mul (a b : num) : result num :=
  match a, b with
  | PyInt x, PyInt y => Ok (PyInt (x * y))
  | _, _ =>
      bind (to_float a) (fun x =>
      bind (to_float b) (fun y =>
      Ok (PyFloat (fmul x y))))
  end.

(** [a + b] *)
Definition add (a b : num) : result num :=
  match a, b with
  | PyInt x, PyInt y => Ok (PyInt (x + y))
  | _, _ =>
      bind (to_float a) (fun x =>
      bind (to_float b) (fun y =>
      Ok (PyFloat (fadd x y))))
  end.

(** [a > 0]: comparing with the int [0] is exact. *)
Definition gt0 (a : num) : bool :=
  match a with
  | PyInt x => 0 <? x
  | PyFloat x => fltb fzero x
  end.

(** Truthiness of a float: false for [0.0] and [-0.0] only. *)
Definition float_truthy (x : float) : bool := negb (feqb x fzero).

(** [x or 0] for a nullable REAL column [x]: [None] and zero give the
    int [0]. *)
Definition or0 (x : option float) : num :=
  match x with
  | None => PyInt 0
  | Some f => if float_truthy f then PyFloat f else PyInt 0
  end.

(** [x or 0] for a nullable INTEGER column. *)
Definition or0_int (x : option Z) : Z :=
  match x with
  | None => 0
  | Some n => n
  end.

(** The exact value of a finite float [(-1)^s * m * 2^e] as a fraction. *)
Definition frac (s : bool) (m : positive) (e : Z) : Q :=
  match e with
  | Zneg p => cond_Zopp s (Zpos m) # (2 ^ p)
  | _ => cond_Zopp s (Zpos m * 2 ^ e) # 1
  end.

(** Truncation toward zero and floor of a fraction. *)
Definition Qtrunc (q : Q) : Z := Z.quot (Qnum q) (Zpos (Qden q)).

(** [int(x)] for a float: truncation toward zero; [ValueError] on NaN and
    [OverflowError] on an infinity. *)
Definition int_of_float (x : float) : result Z :=
  match x with
  | S754_nan => Raise ValueError
  | S754_infinity _ => Raise OverflowError
  | S754_zero _ => Ok 0
  | S754_finite s m e => Ok (Qtrunc (frac s m e))
  end.

(** [math.floor(x)], for comparison with [int(x)]. *)
Definition floor_of_float (x : float) : result Z :=
  match x with
  | S754_nan => Raise ValueError
  | S754_infinity _ => Raise OverflowError
  | S754_zero _ => Ok 0
  | S754_finite s m e => Ok (Qfloor (frac s m e))
  end.

(** [int(v)] *)
Definition int (v : num) : result Z :=
  match v with
  | PyInt n => Ok n
  | PyFloat x => int_of_float x
  end.

Definition floor (v : num) : result Z :=
  match v with
  | PyInt n => Ok n
  | PyFloat x => floor_of_float x
  end.

(** [str(n)] for an int: its decimal digits, with a minus sign below zero.
    (The bound some interpreters put on the number of digits lies far
    beyond any int a floor count or an INTEGER column can hold.) *)
Definition str (n : Z) : string := NilZero.string_of_int (Z.to_int n).

(** The objects a caller may pass where an int is expected. *)
Inductive value :=
| VNone
| VBool (b : bool)
| VNum (n : num)
| VStr (s : string).

(** [isinstance(v, int)]; [bool] is a subclass of [int]. *)
Definition isinstance_int (v : value) : bool :=
  match v with
  | VBool _ | VNum (PyInt _) => true
  | _ => false
  end.

(** The int an instance of [int] stands for ([True] is [1]). *)
Definition as_int (v : value) : option Z :=
  match v with
  | VBool b => Some (if b then 1 else 0)
  | VNum (PyInt n) => Some n
  | _ => None
  end.

(** [v < k] and [v > k] for an int constant [k] of the code: [TypeError]
    for [None] and [str], exact for the small constants compared with. *)
Definition lt (v : value) (k : Z) : result bool :=
  match v with
  | VBool b => Ok ((if b then 1 else 0) <? k)
  | VNum (PyInt n) => Ok (n <? k)
  | VNum (PyFloat x) => y <- float_of_int k ;; Ok (fltb x y)
  | VNone | VStr _ => Raise TypeError
  end.

Definition gt (v : value) (k : Z) : result bool :=
  match v with
  | VBool b => Ok (k <? (if b then 1 else 0))
  | VNum (PyInt n) => Ok (k <? n)
  | VNum (PyFloat x) => y <- float_of_int k ;; Ok (fltb y x)
  | VNone | VStr _ => Raise TypeError
  end.

End Py.

Import Py.

(** ** [string.Template] *)

Module Template.

Local Open Scope string_scope.
Local Open Scope char_scope.

(** A Python [str] is represented by its UTF-8 bytes.  The pattern of
    [string.Template] inspects ASCII characters only (the delimiter, the
    braces and the characters of an identifier, which is matched under the
    ASCII flag), and an ASCII byte never occurs inside the encoding of
    another character. *)

Definition in_range (lo hi c : ascii) : bool :=
  (nat_of_ascii lo <=? nat_of_ascii c)%nat && (nat_of_ascii c <=? nat_of_ascii hi)%nat.

(** [[_a-z]] under [re.IGNORECASE] *)
Definition is_id_start (c : ascii) : bool :=
  Ascii.eqb c "_" || in_range "a" "z" c || in_range "A" "Z" c.

(** [[_a-z0-9]] under [re.IGNORECASE] *)
Definition is_id_char (c : ascii) : bool :=
  is_id_start c || in_range "0" "9" c.

(** The longest prefix of identifier characters, and what follows it:
    the greedy [[_a-z0-9]*]. *)
Fixpoint span_id (s : string) : string * string :=
  match s with
  | String c r =>
      if is_id_char c then
        let (i, t) := span_id r in (String c i, t)
      else (EmptyString, s)
  | EmptyString => (EmptyString, EmptyString)
  end.

(** A match object of [Template.pattern]: the whole match and its four
    named groups. *)
Record match_obj := {
  group : string;
  escaped : option string;
  named : option string;
  braced : option string;
  invalid : option string
}.

Definition dollar : string := String "$" EmptyString.

Definition mo_escaped : match_obj :=
  {| group := (dollar ++ dollar)%string; escaped := Some dollar;
     named := None; braced := None; invalid := None |}.
Definition mo_named (i : string) : match_obj :=
  {| group := (dollar ++ i)%string; escaped := None;
     named := Some i; braced := None; invalid := None |}.
Definition mo_braced (i : string) : match_obj :=
  {| group := (dollar ++ String "{" i ++ String "}" EmptyString)%string;
     escaped := None; named := None; braced := Some i; invalid := None |}.
Definition mo_invalid : match_obj :=
  {| group := dollar; escaped := None; named := None; braced := None;
     invalid := Some EmptyString |}.

(** The match of [Template.pattern] that starts at a delimiter, from the
    text [rest] that follows the delimiter.  The alternatives are tried in
    the order of the pattern: [escaped], [named], [braced], [invalid]. *)
Definition match_at (rest : string) : match_obj :=
  match rest with
  | String c r =>
      if Ascii.eqb c "$" then mo_escaped
      else if is_id_start c then mo_named (fst (span_id rest))
      else if Ascii.eqb c "{" then
        match r with
        | String c' _ =>
            if is_id_start c' then
              match span_id r with
              | (i, String c'' _) =>
                  if Ascii.eqb c'' "}" then mo_braced i else mo_invalid
              | _ => mo_invalid
              end
            else mo_invalid
        | EmptyString => mo_invalid
        end
      else mo_invalid
  | EmptyString => mo_invalid
  end.

(** [pattern.sub(convert, template)]: the text is scanned from the left;
    [skip] counts the characters that still belong to the match just
    replaced. *)
Fixpoint sub (convert : match_obj -> result string) (skip : nat)
    (s : string) : result string :=
  match s with
  | EmptyString => Ok EmptyString
  | String c rest =>
      match skip with
      | S k => sub convert k rest
      | O =>
          if Ascii.eqb c "$" then
            let mo := match_at rest in
            r <- convert mo ;;
            t <- sub convert (String.length (group mo) - 1) rest ;;
            Ok (r ++ t)%string
          else
            t <- sub convert 0 rest ;;
            Ok (String c t)
      end
  end.

(** The keyword arguments of a call, as a dict. *)
Definition mapping := list (string * Z).

(** [mapping[key]] *)
Fixpoint getitem (m : mapping) (key : string) : result Z :=
  match m with
  | [] => Raise KeyError
  | (k, v) :: m' => if String.eqb k key then Ok v else getitem m' key
  end.

(** [a or b] on two groups: a group that did not take part is [None], and
    an empty string is falsy as well. *)
Definition group_or (a b : option string) : option string :=
  match a with
  | Some EmptyString | None => b
  | Some _ => a
  end.

(** The helper [convert] of [safe_substitute]. *)
Definition convert (m : mapping) (mo : match_obj) : result string :=
  match group_or (named mo) (braced mo) with
  | Some key =>
      match getitem m key with
      | Ok v => Ok (Py.str v)
      | Raise KeyError => Ok (group mo)
      | Raise e => Raise e
      end
  | None =>
      match escaped mo with
      | Some _ => Ok dollar
      | None =>
          match invalid mo with
          | Some _ => Ok (group mo)
          | None => Raise ValueError
          end
      end
  end.

(** [Template(template).safe_substitute] with the keyword arguments [m] *)
Definition safe_substitute (template : string) (m : mapping) : result string :=
  sub (convert m) 0 template.

End Template.

Local Open Scope string_scope.

(** ** The catalog: [src/db/database.py] *)

Module Database.

(** A row of the table [products], with the columns of its
    [CREATE TABLE]; a column without [NOT NULL] may hold [NULL]. *)
Record product := {
  p_id : Z;
  p_code : option string;
  p_name : string;
  p_unit : string;
  p_price : Z;
  p_system : string;
  p_type : string;
  p_factor : option float;
  p_base_add : option float;
  p_name_pattern : option string;
  p_stops_offset : option Z;
  p_category : option string;
  p_is_active : option Z;
  p_min_floors : option Z;
  p_max_floors : option Z
}.

(** The database: the rows of [products] in the order in which a
    [SELECT] without [ORDER BY] returns them. *)
Record state := { products : list product }.

(** A method of [DatabaseManager] reads and may write the database, and
    may raise. *)
Definition M (A : Type) : Type := state -> result A * state.

(** A condition of the [WHERE] clause. *)
Definition cond := product -> bool.

(** [is_active = ?]: a [NULL] never compares equal. *)
Definition is_active_eq (v : Z) : cond :=
  fun r => match p_is_active r with Some a => Z.eqb a v | None => false end.

(** [(system = ? OR system = 'common')] *)
Definition system_in (system_type : string) : cond :=
  fun r => String.eqb (p_system r) system_type || String.eqb (p_system r) "common".

(** [(min_floors IS NULL OR min_floors <= ?)] *)
Definition min_floors_ok (floors : Z) : cond :=
  fun r => match p_min_floors r with None => true | Some m => Z.leb m floors end.

(** [(max_floors IS NULL OR max_floors >= ?)] *)
Definition max_floors_ok (floors : Z) : cond :=
  fun r => match p_max_floors r with None => true | Some m => Z.leb floors m end.

(** Truthiness of an optional [str] argument: [None] and [''] are falsy. *)
Definition str_truthy (s : option string) : bool :=
  match s with
  | None | Some EmptyString => false
  | Some _ => true
  end.

(** The conditions [get_products] joins with [AND], in the order in which
    it appends them to the query. *)
Definition where_clause (system_type : option string) (is_active : Z)
    (floors : option Z) : list cond :=
  [is_active_eq is_active]
  ++ match system_type with
     | Some st => if str_truthy system_type then [system_in st] else []
     | None => []
     end
  ++ match floors with
     | Some n => [min_floors_ok n; max_floors_ok n]
     | None => []
     end.

(** [cursor.execute(query, params)] and [fetchall]: the rows that satisfy
    every condition, in table order. *)
Definition select (conds : list cond) (rows : list product) : list product :=
  filter (fun r => forallb (fun c => c r) conds) rows.

(** The largest INTEGER of SQLite, [2 ** 63 - 1]. *)
Definition max_int64 : Z := 9223372036854775807.

(** An [int] among the parameters of [execute] is bound as a 64-bit
    INTEGER: outside that range [execute] raises [OverflowError]. *)
Definition int_param (n : Z) : result Z :=
  if Z.leb (- max_int64 - 1) n && Z.leb n max_int64 then Ok n
  else Raise OverflowError.

(** The two parameters [floors] when [floors is not None]. *)
Definition opt_int_param (n : option Z) : result (option Z) :=
  match n with
  | Some k => k' <- int_param k ;; Ok (Some k')
  | None => Ok None
  end.

Definition get_products (system_type : option string) (is_active : Z)
    (floors : option Z) : M (list product) :=
  fun db =>
    (is_active' <- int_param is_active ;;
     floors' <- opt_int_param floors ;;
     Ok (select (where_clause system_type is_active' floors') (products db)), db).

End Database.

Import Database.

(** ** The calculator: [src/logic/calculator.py] *)

Module InvoiceCalculator.

(** An invoice line item: the dict [item] of [calculate_invoice]. *)
Record item := {
  product_id : Z;
  name : string;
  unit : string;
  quantity : num;
  unit_price : Z;
  total_price : Z
}.

(** The dict [calculate_invoice] returns. *)
Record invoice := {
  items : list item;
  invoice_total_price : Z
}.

Definition _calculate_quantity (product : product) (floors : Z) : result num :=
  let product_type := p_type product in
  let factor := or0 (p_factor product) in
  let base_add := or0 (p_base_add product) in
  if String.eqb product_type "fixed" then
    Ok (if gt0 factor then factor else PyFloat fone)
  else if String.eqb product_type "linear" then
    x <- mul factor (PyInt floors) ;; add x base_add
  else if String.eqb product_type "dynamic_name" then
    if gt0 factor then
      x <- mul factor (PyInt floors) ;; add x base_add
    else Ok (PyFloat fone)
  else Ok (PyFloat fone).

Definition _get_final_name (product : product) (floors : Z) : result string :=
  if String.eqb (p_type product) "dynamic_name" && str_truthy (p_name_pattern product) then
    match p_name_pattern product with
    | Some name_pattern =>
        let stops_offset := or0_int (p_stops_offset product) in
        let actual_stops := floors + stops_offset in
        try_except
          (Template.safe_substitute name_pattern
             [("stops", actual_stops); ("floors", floors); ("N", floors)])
          (Ok (p_name product))
    | None => Ok (p_name product)
    end
  else Ok (p_name product).

(** The body of the loop of [calculate_invoice] up to the dict [item]. *)
Definition make_item (product : product) (floors : Z) : result item :=
  quantity <- _calculate_quantity product floors ;;
  final_name <- _get_final_name product floors ;;
  amount <- mul quantity (PyInt (p_price product)) ;;
  item_total <- int amount ;;
  Ok {| product_id := p_id product;
        name := final_name;
        unit := p_unit product;
        quantity := quantity;
        unit_price := p_price product;
        total_price := item_total |}.

(** The loop of [calculate_invoice], with its two accumulators. *)
Fixpoint loop (products : list product) (floors : Z) (items : list item)
    (total_price : Z) : result invoice :=
  match products with
  | [] => Ok {| items := items; invoice_total_price := total_price |}
  | product :: rest =>
      it <- make_item product floors ;;
      loop rest floors (items ++ [it]) (total_price + InvoiceCalculator.total_price it)
  end.

Definition calculate_invoice (floors : Z) (system_type : string) : M invoice :=
  fun db =>
    let (r, db') := get_products (Some system_type) 1 (Some floors) db in
    (products <- r ;; loop products floors [] 0, db').

(** [validate_floors] returns a pair [(is_valid, error_message)]. *)
Definition validate_floors (floors : value) : result (bool * string) :=
  if negb (isinstance_int floors) then
    Ok (false, "تعداد توقف باید یک عدد صحیح باشد")
  else
    below <- lt floors 1 ;;
    if below then Ok (false, "تعداد توقف باید حداقل ۱ باشد")
    else
      above <- gt floors 100 ;;
      if above then Ok (false, "تعداد توقف نمی‌تواند بیش از ۱۰۰ باشد")
      else Ok (true, "").

End InvoiceCalculator.

Import InvoiceCalculator.

(** ** The [floors] step of the conversation: [src/bot/handlers.py] *)

Module BotHandlers.

Inductive conv_state := CUSTOMER_NAME | PROJECT_NAME | SYSTEM_TYPE | FLOORS | CONFIRMATION.

(** The entries of [context.user_data] the step reads and writes. *)
Record user_data := {
  ud_customer_name : option string;
  ud_project_name : option string;
  ud_system_type : option string;
  ud_system_text : option string;
  ud_floors : option Z;
  ud_calculation_result : option invoice
}.

(** [context.user_data['floors'] = floors] *)
Definition set_floors (ud : user_data) (floors : Z) : user_data :=
  {| ud_customer_name := ud_customer_name ud;
     ud_project_name := ud_project_name ud;
     ud_system_type := ud_system_type ud;
     ud_system_text := ud_system_text ud;
     ud_floors := Some floors;
     ud_calculation_result := ud_calculation_result ud |}.

(** [context.user_data['calculation_result'] = result] *)
Definition set_calculation_result (ud : user_data) (result : invoice) : user_data :=
  {| ud_customer_name := ud_customer_name ud;
     ud_project_name := ud_project_name ud;
     ud_system_type := ud_system_type ud;
     ud_system_text := ud_system_text ud;
     ud_floors := ud_floors ud;
     ud_calculation_result := Some result |}.

(** The messages the step replies with; the text sent is rendered from
    the data kept here. *)
Inductive reply :=
| AskForNumber
| Rejected (error_msg : string)
| Confirmation (customer_name project_name system_text : string) (floors : Z)
    (result : invoice)
| CalculationError (e : exn).

(** What the step does to its collaborators, in order. *)
Inductive event :=
| EvReply (r : reply)
| EvCalculate (floors : Z) (system_type : string).

Section Floors.

(** [int(text)] on the text of a message: the int it denotes, or
    [ValueError]. *)
Variable int_of_str : string -> result Z.

Definition floors (text : string) (ud : user_data) (db : state)
    : result (conv_state * user_data * list event) :=
  match int_of_str text with
  | Raise ValueError => Ok (FLOORS, ud, [EvReply AskForNumber])
  | Raise e => Raise e
  | Ok floors =>
      v <- validate_floors (VNum (PyInt floors)) ;;
      let (is_valid, error_msg) := v in
      if negb is_valid then Ok (FLOORS, ud, [EvReply (Rejected error_msg)])
      else
        let ud1 := set_floors ud floors in
        match ud_system_type ud with
        | None => Ok (FLOORS, ud1, [EvReply (CalculationError KeyError)])
        | Some system_type =>
            match fst (calculate_invoice floors system_type db) with
            | Ok result =>
                let ud2 := set_calculation_result ud1 result in
                (* the confirmation text reads three more entries, in this
                   order, inside the same [try] *)
                match ud_customer_name ud, ud_project_name ud, ud_system_text ud with
                | Some customer_name, Some project_name, Some system_text =>
                    Ok (CONFIRMATION, ud2,
                        [EvCalculate floors system_type;
                         EvReply (Confirmation customer_name project_name
                                    system_text floors result)])
                | _, _, _ =>
                    Ok (FLOORS, ud2,
                        [EvCalculate floors system_type;
                         EvReply (CalculationError KeyError)])
                end
            | Raise e =>
                Ok (FLOORS, ud1,
                    [EvCalculate floors system_type;
                     EvReply (CalculationError e)])
            end
        end
  end.

End Floors.

End BotHandlers.

(** ** Notions the properties are stated with *)

Local Open Scope list_scope.
Local Open Scope Z_scope.

(** An int fits a 64-bit INTEGER of SQLite. *)
Definition fits_int64 (n : Z) : Prop := - max_int64 - 1 <= n <= max_int64.

(** The sum of the line totals of a list of items. *)
Definition sum_totals (its : list item) : Z :=
  fold_right (fun it acc => total_price it + acc) 0 its.

(** The amount of a line: [quantity * unit_price], as Python computes it. *)
Definition line_amount (it : item) : result num :=
  mul (quantity it) (PyInt (unit_price it)).

(** An amount is below zero. *)
Definition negative (a : num) : bool :=
  match a with
  | PyInt n => n <? 0
  | PyFloat x => fltb x fzero
  end.

(** A rule is applicable to a request, in the words of the catalog
    contract. *)
Definition applicable (system_type : string) (floors : Z) (r : product) : Prop :=
  p_is_active r = Some 1
  /\ (p_system r = system_type \/ p_system r = "common")
  /\ (forall m, p_min_floors r = Some m -> m <= floors)
  /\ (forall m, p_max_floors r = Some m -> floors <= m).

(** [l1] is [l2] with some elements left out: same order, nothing added,
    nothing repeated. *)
Inductive sublist {A : Type} : list A -> list A -> Prop :=
| sublist_nil : sublist [] []
| sublist_skip x l1 l2 : sublist l1 l2 -> sublist l1 (x :: l2)
| sublist_keep x l1 l2 : sublist l1 l2 -> sublist (x :: l1) (x :: l2).

(** Decision procedures for the conditions of [applicable]. *)
Definition floors_in_range (floors : Z) (r : product) : bool :=
  match p_min_floors r with None => true | Some m => m <=? floors end
  && match p_max_floors r with None => true | Some m => floors <=? m end.

Definition is_active_b (v : Z) (r : product) : bool :=
  match p_is_active r with Some a => a =? v | None => false end.

Definition applicable_b (system_type : string) (floors : Z) (r : product) : bool :=
  is_active_b 1 r
  && (String.eqb (p_system r) system_type || String.eqb (p_system r) "common")
  && floors_in_range floors r.

(** The line total of an item is the floor of its amount. *)
Definition total_is_floor (it : item) : Prop :=
  exists a, line_amount it = Ok a /\ floor a = Ok (total_price it).

(** The line total of an item is its amount cut off toward zero, which is
    the floor of the amount when the amount is not below zero. *)
Definition total_is_truncation (it : item) : Prop :=
  exists a, line_amount it = Ok a /\ int a = Ok (total_price it)
            /\ (negative a = false -> floor a = Ok (total_price it)).

(** A fraction is a whole number. *)
Definition integral (q : Q) : bool := Qnum q mod Zpos (Qden q) =? 0.

(** The float [m * 2^e]. *)
Definition dyadic (m e : Z) : float := binary_normalize prec emax m e false.

(** A rule for the examples: active, unbounded, without a name pattern. *)
Definition example_rule (id : Z) (system type : string) (factor base_add : option float)
    (price : Z) : product :=
  {| p_id := id; p_code := None; p_name := "Cabin"; p_unit := "pc";
     p_price := price; p_system := system; p_type := type;
     p_factor := factor; p_base_add := base_add;
     p_name_pattern := None; p_stops_offset := Some 0; p_category := None;
     p_is_active := Some 1; p_min_floors := None; p_max_floors := None |}.

(** A catalog with one linear rule of factor [-0.5] and price [7]. *)
Definition negative_catalog : state :=
  {| products := [example_rule 1 "common" "linear" (Some (dyadic (-1) (-1))) None 7] |}.

(** The value of a nullable REAL column, [0.0] when it is unset. *)
Definition or_zero (x : option float) : float :=
  match x with
  | Some f => f
  | None => fzero
  end.

(** [factor * floors + base_add] on floats, [n] being the floor count. *)
Definition linear_formula (factor base_add : option float) (n : float) : float :=
  fadd (fmul (or_zero factor) n) (or_zero base_add).

(** A number is zero: the int [0], [0.0] or [-0.0]. *)
Definition is_zero (a : num) : bool :=
  match a with
  | PyInt n => n =? 0
  | PyFloat (S754_zero _) => true
  | PyFloat _ => false
  end.

(** Two numbers are the same number: the same object, or both zero. *)
Definition same_number (a b : num) : Prop :=
  a = b \/ (is_zero a = true /\ is_zero b = true).

(** *** Patterns as sequences of tokens *)

(** The parts a name pattern is made of. *)
Inductive token :=
| TChar (c : ascii)      (* a character other than the delimiter *)
| TEscaped               (* two delimiters *)
| TNamed (i : string)    (* the delimiter and an identifier *)
| TBraced (i : string)   (* the delimiter and an identifier in braces *)
| TLone.                 (* a delimiter that starts none of the above *)

Definition render_token (t : token) : string :=
  match t with
  | TChar c => String c EmptyString
  | TEscaped => "$$"
  | TNamed i => String "$" i
  | TBraced i => String "$" (String "{" (i ++ "}"))
  | TLone => "$"
  end.

(** The pattern a sequence of tokens spells. *)
Fixpoint render (ts : list token) : string :=
  match ts with
  | [] => EmptyString
  | t :: rest => (render_token t ++ render rest)%string
  end.

Fixpoint all_id_chars (s : string) : bool :=
  match s with
  | EmptyString => true
  | String c r => Template.is_id_char c && all_id_chars r
  end.

Definition is_identifier (i : string) : bool :=
  match i with
  | EmptyString => false
  | String c r => Template.is_id_start c && all_id_chars r
  end.

Definition starts_with_id_char (s : string) : bool :=
  match s with
  | EmptyString => false
  | String c _ => Template.is_id_char c
  end.

(** The text [r] goes on as an identifier closed by a brace. *)
Definition closes_brace (r : string) : bool :=
  match r with
  | EmptyString => false
  | String c _ =>
      Template.is_id_start c
      && match snd (Template.span_id r) with
         | String c' _ => Ascii.eqb c' "}"
         | EmptyString => false
         end
  end.

(** A delimiter followed by [rest] starts no escape and no placeholder. *)
Definition lone_before (rest : string) : bool :=
  match rest with
  | EmptyString => true
  | String c r =>
      negb (Ascii.eqb c "$") && negb (Template.is_id_start c)
      && negb (Ascii.eqb c "{" && closes_brace r)
  end.

(** The tokens are the ones the pattern is read as: an identifier is a
    whole one, and is not continued by the text after it. *)
Fixpoint well_formed (ts : list token) : bool :=
  match ts with
  | [] => true
  | t :: rest =>
      match t with
      | TChar c => negb (Ascii.eqb c "$")
      | TEscaped => true
      | TNamed i => is_identifier i && negb (starts_with_id_char (render rest))
      | TBraced i => is_identifier i
      | TLone => lone_before (render rest)
      end && well_formed rest
  end.

(** The value of a placeholder of a name pattern, [None] for a key that is
    none of [stops], [floors] and [N]. *)
Definition placeholder (floors stops_offset : Z) (key : string) : option Z :=
  if String.eqb key "stops" then Some (floors + stops_offset)
  else if String.eqb key "floors" then Some floors
  else if String.eqb key "N" then Some floors
  else None.

(** What a token becomes under the values [lookup] gives. *)
Definition expand_token (lookup : string -> option Z) (t : token) : string :=
  match t with
  | TChar c => String c EmptyString
  | TEscaped => "$"
  | TNamed i | TBraced i =>
      match lookup i with
      | Some v => Py.str v
      | None => render_token t
      end
  | TLone => "$"
  end.

Fixpoint expand (lookup : string -> option Z) (ts : list token) : string :=
  match ts with
  | [] => EmptyString
  | t :: rest => (expand_token lookup t ++ expand lookup rest)%string
  end.

(** The token a match of the pattern stands for. *)
Definition token_of (mo : Template.match_obj) : token :=
  match Template.named mo, Template.braced mo, Template.escaped mo with
  | Some i, _, _ => TNamed i
  | None, Some i, _ => TBraced i
  | None, None, Some _ => TEscaped
  | None, None, None => TLone
  end.

(** The tokens of a pattern, read from the left as the substitution reads
    it; [skip] counts the characters that belong to the token just read. *)
Fixpoint tokens_from (skip : nat) (s : string) : list token :=
  match s with
  | EmptyString => []
  | String c rest =>
      match skip with
      | S k => tokens_from k rest
      | O =>
          if Ascii.eqb c "$" then
            let mo := Template.match_at rest in
            token_of mo :: tokens_from (String.length (Template.group mo) - 1) rest
          else TChar c :: tokens_from 0 rest
      end
  end.

Definition tokenize (s : string) : list token := tokens_from 0 s.

(** A string without its first [n] characters. *)
Fixpoint drop (n : nat) (s : string) : string :=
  match n, s with
  | S k, String _ r => drop k r
  | _, _ => s
  end.

(** A token that is left as it is when no key is defined for it. *)
Definition kept_literally (lookup : string -> option Z) (t : token) : bool :=
  match t with
  | TChar _ | TLone => true
  | TEscaped => false
  | TNamed i | TBraced i => match lookup i with None => true | Some _ => false end
  end.

(** The values of a dict, [None] for a missing key. *)
Definition lookup_in (m : Template.mapping) (key : string) : option Z :=
  match Template.getitem m key with
  | Ok v => Some v
  | Raise _ => None
  end.

(** The keyword arguments [_get_final_name] passes to the substitution. *)
Definition name_kwargs (p : product) (floors : Z) : Template.mapping :=
  [("stops", floors + or0_int (p_stops_offset p)); ("floors", floors); ("N", floors)].

(** A dynamic_name rule named Cabin with a given pattern and an offset
    of 1. *)
Definition pattern_rule (pattern : string) : product :=
  {| p_id := 7; p_code := None; p_name := "Cabin"; p_unit := "pc";
     p_price := 100; p_system := "common"; p_type := "dynamic_name";
     p_factor := None; p_base_add := None;
     p_name_pattern := Some pattern; p_stops_offset := Some 1; p_category := None;
     p_is_active := Some 1; p_min_floors := None; p_max_floors := None |}.

(** A catalog with rules of the three systems, an inactive rule, a rule
    for 10 floors and more, and one rule held twice. *)
Definition mixed_catalog : state :=
  let bounded :=
    {| p_id := 5; p_code := None; p_name := "Rail"; p_unit := "m";
       p_price := 3; p_system := "hydraulic"; p_type := "linear";
       p_factor := Some (dyadic 4 0); p_base_add := Some (dyadic 5 0);
       p_name_pattern := None; p_stops_offset := None; p_category := None;
       p_is_active := Some 1; p_min_floors := Some 10; p_max_floors := None |} in
  let inactive :=
    {| p_id := 6; p_code := None; p_name := "Old"; p_unit := "pc";
       p_price := 3; p_system := "common"; p_type := "fixed";
       p_factor := None; p_base_add := None;
       p_name_pattern := None; p_stops_offset := None; p_category := None;
       p_is_active := Some 0; p_min_floors := None; p_max_floors := None |} in
  {| products :=
       [example_rule 1 "hydraulic" "fixed" (Some (dyadic 80 0)) None 2;
        example_rule 2 "gearless" "fixed" None None 3;
        example_rule 3 "common" "linear" (Some (dyadic 4 0)) (Some (dyadic 5 0)) 10;
        example_rule 3 "common" "linear" (Some (dyadic 4 0)) (Some (dyadic 5 0)) 10;
        bounded; inactive] |}.

(** The user data after the system type has been chosen. *)
Definition chosen_hydraulic : BotHandlers.user_data :=
  {| BotHandlers.ud_customer_name := Some "Sara"%string;
     BotHandlers.ud_project_name := Some "Tower"%string;
     BotHandlers.ud_system_type := Some "hydraulic"%string;
     BotHandlers.ud_system_text := Some "هیدرولیک"%string;
     BotHandlers.ud_floors := None;
     BotHandlers.ud_calculation_result := None |}.

(** ** The rest of the calculator: [format_price], [validate_system_type] *)

Module Helpers.

(** The digits of an int with a comma before every group of three digits
    counted from the right: the [,] option of the format of an int. *)
Fixpoint commas (digits : string) : string :=
  match digits with
  | EmptyString => EmptyString
  | String c r =>
      String c (if (0 <? String.length r)%nat && (String.length r mod 3 =? 0)%nat
                then String "," (commas r)
                else commas r)
  end.

(** [f"{n:,}"] for an int [n]. *)
Definition format_int (n : Z) : string :=
  match Z.to_int n with
  | Decimal.Pos d => commas (NilZero.string_of_uint d)
  | Decimal.Neg d => String "-" (commas (NilZero.string_of_uint d))
  end.

Definition format_price (price : Z) : string := format_int price.

(** [s.replace(c, '')] for a character [c]. *)
Fixpoint remove (c : ascii) (s : string) : string :=
  match s with
  | EmptyString => EmptyString
  | String a r => if Ascii.eqb a c then remove c r else String a (remove c r)
  end.

(** [s.split(c)] for a character [c]. *)
Fixpoint split (c : ascii) (s : string) : list string :=
  match s with
  | EmptyString => [EmptyString]
  | String a r =>
      if Ascii.eqb a c then EmptyString :: split c r
      else match split c r with
           | g :: gs => String a g :: gs
           | [] => [String a EmptyString]
           end
  end.

(** [system_type not in valid_systems] decides by equality with the
    elements of the list. *)
Definition valid_systems : list string := ["hydraulic"; "gearless"].

Definition validate_system_type (system_type : string) : bool * string :=
  if negb (existsb (String.eqb system_type) valid_systems) then
    (false, "نوع سیستم باید یکی از ['hydraulic', 'gearless'] باشد")
  else (true, "").

End Helpers.

(** ** The rest of the database manager: [src/db/database.py] *)

Module DatabaseManager.

(** What a method can raise: an exception of Python, or one of the two
    errors of [sqlite3] met here. *)
Inductive error :=
| Builtin (e : exn)
| OperationalError        (* database or disk is full *)
| IntegrityError.         (* NOT NULL constraint failed *)

Inductive outcome (A : Type) :=
| Done (a : A)
| Failed (e : error).
Arguments Done {A} a.
Arguments Failed {A} e.

Definition and_then {A B} (r : outcome A) (k : A -> outcome B) : outcome B :=
  match r with
  | Done a => k a
  | Failed e => Failed e
  end.

Notation "x <-- r ;; k" := (and_then r (fun x => k))
  (at level 61, r at next level, right associativity).

(** A row of [invoices]. *)
Record invoice_row := {
  inv_id : Z;
  inv_customer_name : string;
  inv_project_name : string;
  inv_system : string;
  inv_floors : Z;
  inv_total_price : Z;
  inv_created_at : string
}.

(** A row of [invoice_items]. *)
Record invoice_item_row := {
  ii_id : Z;
  ii_invoice_id : Z;
  ii_product_id : option Z;
  ii_name : string;
  ii_unit : string;
  ii_quantity : float;
  ii_unit_price : Z;
  ii_total_price : Z
}.

(** A row of [settings]. *)
Record setting_row := {
  s_key : string;
  s_value : option string
}.

(** The database file: the four tables, each in the order of its rowids,
    which is the order in which a scan returns the rows, and for each table
    with an AUTOINCREMENT key the largest key it ever held (its row of
    [sqlite_sequence], [0] when there is none). *)
Record db := {
  catalog : Database.state;
  products_seq : Z;
  invoices : list invoice_row;
  invoices_seq : Z;
  invoice_items : list invoice_item_row;
  invoice_items_seq : Z;
  settings : list setting_row
}.

Definition with_catalog (d : db) (rows : list product) (seq : Z) : db :=
  {| catalog := {| products := rows |}; products_seq := seq;
     invoices := invoices d; invoices_seq := invoices_seq d;
     invoice_items := invoice_items d; invoice_items_seq := invoice_items_seq d;
     settings := settings d |}.

Definition with_invoices (d : db) (rows : list invoice_row) (seq : Z) : db :=
  {| catalog := catalog d; products_seq := products_seq d;
     invoices := rows; invoices_seq := seq;
     invoice_items := invoice_items d; invoice_items_seq := invoice_items_seq d;
     settings := settings d |}.

Definition with_invoice_items (d : db) (rows : list invoice_item_row) (seq : Z) : db :=
  {| catalog := catalog d; products_seq := products_seq d;
     invoices := invoices d; invoices_seq := invoices_seq d;
     invoice_items := rows; invoice_items_seq := seq;
     settings := settings d |}.

Definition with_settings (d : db) (rows : list setting_row) : db :=
  {| catalog := catalog d; products_seq := products_seq d;
     invoices := invoices d; invoices_seq := invoices_seq d;
     invoice_items := invoice_items d; invoice_items_seq := invoice_items_seq d;
     settings := rows |}.

(** A method reads and may write the database, and returns or raises; a
    method that raises has not committed. *)
Definition M (A : Type) : Type := db -> outcome A * db.

(** *** Binding parameters *)

Definition max_rowid : Z := 9223372036854775807.

(** An int is bound as a 64-bit INTEGER: [OverflowError] outside. *)
Definition bind_int (n : Z) : outcome Z :=
  if (- max_rowid - 1 <=? n) && (n <=? max_rowid) then Done n
  else Failed (Builtin OverflowError).

Definition bind_opt_int (n : option Z) : outcome (option Z) :=
  match n with
  | None => Done None
  | Some k => k' <-- bind_int k ;; Done (Some k')
  end.

(** The float a REAL column gives back for a float stored in it: a float
    with an integer value is kept as an INTEGER, so the sign of a zero is
    lost and [-0.0] is read back as [0.0]. *)
Definition real_column (x : float) : float :=
  match x with
  | S754_zero _ => S754_zero false
  | _ => x
  end.

(** A number stored in a REAL column, as it is read back: an int is bound
    as an INTEGER and turned into a float by the column, a NaN is stored
    as NULL, and a zero loses its sign. *)
Definition bind_real (v : num) : outcome (option float) :=
  match v with
  | PyInt n =>
      k <-- bind_int n ;;
      match float_of_int k with
      | Ok x => Done (Some (real_column x))
      | Raise e => Failed (Builtin e)
      end
  | PyFloat S754_nan => Done None
  | PyFloat x => Done (Some (real_column x))
  end.

(** *** Keys *)

(** The largest of the keys of a table, [0] for none. *)
Definition largest (ids : list Z) : Z :=
  match ids with
  | [] => 0
  | k :: ks => fold_right Z.max k ks
  end.

(** The key an INSERT gives a new row of a table with an AUTOINCREMENT
    key: one above the largest key the table holds and ever held; no row
    can be added once the largest possible key has been used. *)
Definition new_rowid (seq : Z) (ids : list Z) : outcome Z :=
  if (seq =? max_rowid) || (largest ids =? max_rowid) then Failed OperationalError
  else Done (Z.max (largest ids + 1) (seq + 1)).

(** *** Products *)

Definition add_product (code name unit : string) (price : Z)
    (system type : string) (factor base_add : num)
    (name_pattern : option string) (stops_offset : Z)
    (category : option string) (is_active : Z)
    (min_floors max_floors : option Z) : M Z :=
  fun d =>
    let r :=
      price' <-- bind_int price ;;
      factor' <-- bind_real factor ;;
      base_add' <-- bind_real base_add ;;
      stops_offset' <-- bind_int stops_offset ;;
      is_active' <-- bind_int is_active ;;
      min_floors' <-- bind_opt_int min_floors ;;
      max_floors' <-- bind_opt_int max_floors ;;
      product_id <-- new_rowid (products_seq d) (map p_id (products (catalog d))) ;;
      Done {| p_id := product_id; p_code := Some code; p_name := name;
              p_unit := unit; p_price := price'; p_system := system;
              p_type := type; p_factor := factor'; p_base_add := base_add';
              p_name_pattern := name_pattern; p_stops_offset := Some stops_offset';
              p_category := category; p_is_active := Some is_active';
              p_min_floors := min_floors'; p_max_floors := max_floors' |} in
    match r with
    | Done row =>
        (Done (p_id row),
         with_catalog d (products (catalog d) ++ [row]) (p_id row))
    | Failed e => (Failed e, d)
    end.

Definition get_product_by_id (product_id : Z) : M (option product) :=
  fun d =>
    match bind_int product_id with
    | Done k => (Done (find (fun r => p_id r =? k) (products (catalog d))), d)
    | Failed e => (Failed e, d)
    end.

(** [UPDATE products SET .. WHERE id = ?]: the rows after the update and
    the number of rows that matched. *)
Definition update_where_id (k : Z) (f : product -> product)
    (rows : list product) : list product * nat :=
  (map (fun r => if p_id r =? k then f r else r) rows,
   List.length (filter (fun r => p_id r =? k) rows)).

Definition set_price (price : Z) (r : product) : product :=
  {| p_id := p_id r; p_code := p_code r; p_name := p_name r; p_unit := p_unit r;
     p_price := price; p_system := p_system r; p_type := p_type r;
     p_factor := p_factor r; p_base_add := p_base_add r;
     p_name_pattern := p_name_pattern r; p_stops_offset := p_stops_offset r;
     p_category := p_category r; p_is_active := p_is_active r;
     p_min_floors := p_min_floors r; p_max_floors := p_max_floors r |}.

Definition set_is_active (a : Z) (r : product) : product :=
  {| p_id := p_id r; p_code := p_code r; p_name := p_name r; p_unit := p_unit r;
     p_price := p_price r; p_system := p_system r; p_type := p_type r;
     p_factor := p_factor r; p_base_add := p_base_add r;
     p_name_pattern := p_name_pattern r; p_stops_offset := p_stops_offset r;
     p_category := p_category r; p_is_active := Some a;
     p_min_floors := p_min_floors r; p_max_floors := p_max_floors r |}.

Definition update_product_price (product_id new_price : Z) : M bool :=
  fun d =>
    match (price <-- bind_int new_price ;; k <-- bind_int product_id ;; Done (price, k)) with
    | Done (price, k) =>
        let (rows, rowcount) := update_where_id k (set_price price) (products (catalog d)) in
        (Done (0 <? rowcount)%nat, with_catalog d rows (products_seq d))
    | Failed e => (Failed e, d)
    end.

Definition delete_product (product_id : Z) : M bool :=
  fun d =>
    match bind_int product_id with
    | Done k =>
        let (rows, rowcount) := update_where_id k (set_is_active 0) (products (catalog d)) in
        (Done (0 <? rowcount)%nat, with_catalog d rows (products_seq d))
    | Failed e => (Failed e, d)
    end.

(** *** Invoices *)

(** [created_at] is the reading of the clock, [datetime.now().isoformat()]. *)
Definition create_invoice (created_at : string)
    (customer_name project_name system : string) (floors total_price : Z) : M Z :=
  fun d =>
    let r :=
      floors' <-- bind_int floors ;;
      total_price' <-- bind_int total_price ;;
      invoice_id <-- new_rowid (invoices_seq d) (map inv_id (invoices d)) ;;
      Done {| inv_id := invoice_id; inv_customer_name := customer_name;
              inv_project_name := project_name; inv_system := system;
              inv_floors := floors'; inv_total_price := total_price';
              inv_created_at := created_at |} in
    match r with
    | Done row => (Done (inv_id row), with_invoices d (invoices d ++ [row]) (inv_id row))
    | Failed e => (Failed e, d)
    end.

Definition get_invoice (invoice_id : Z) : M (option invoice_row) :=
  fun d =>
    match bind_int invoice_id with
    | Done k => (Done (find (fun r => inv_id r =? k) (invoices d)), d)
    | Failed e => (Failed e, d)
    end.

(** The foreign keys of [invoice_items] are declared but, as the
    connection does not switch them on, not enforced. *)
Definition add_invoice_item (invoice_id product_id : Z) (name unit : string)
    (quantity : num) (unit_price total_price : Z) : M Z :=
  fun d =>
    let r :=
      invoice_id' <-- bind_int invoice_id ;;
      product_id' <-- bind_int product_id ;;
      quantity' <-- bind_real quantity ;;
      unit_price' <-- bind_int unit_price ;;
      total_price' <-- bind_int total_price ;;
      match quantity' with
      | None => Failed IntegrityError
      | Some q =>
          item_id <-- new_rowid (invoice_items_seq d) (map ii_id (invoice_items d)) ;;
          Done {| ii_id := item_id; ii_invoice_id := invoice_id';
                  ii_product_id := Some product_id'; ii_name := name;
                  ii_unit := unit; ii_quantity := q;
                  ii_unit_price := unit_price'; ii_total_price := total_price' |}
      end in
    match r with
    | Done row =>
        (Done (ii_id row), with_invoice_items d (invoice_items d ++ [row]) (ii_id row))
    | Failed e => (Failed e, d)
    end.

Definition get_invoice_items (invoice_id : Z) : M (list invoice_item_row) :=
  fun d =>
    match bind_int invoice_id with
    | Done k => (Done (filter (fun r => ii_invoice_id r =? k) (invoice_items d)), d)
    | Failed e => (Failed e, d)
    end.

(** *** Settings *)

(** [INSERT OR REPLACE]: a row with the key is deleted, and the new row is
    added after the rows that remain. *)
Definition set_setting (key value : string) : M Datatypes.unit :=
  fun d =>
    (Done tt,
     with_settings d
       (filter (fun r => negb (String.eqb (s_key r) key)) (settings d)
        ++ [{| s_key := key; s_value := Some value |}])).

(** [row['value'] if row else default] *)
Definition get_setting (key : string) (default : option string) : M (option string) :=
  fun d =>
    (Done match find (fun r => String.eqb (s_key r) key) (settings d) with
          | Some row => s_value row
          | None => default
          end, d).

(** A dict in the order of insertion: an assignment to a key the dict
    holds replaces the value in place. *)
Fixpoint dict_set {V} (m : list (string * V)) (k : string) (v : V) : list (string * V) :=
  match m with
  | [] => [(k, v)]
  | (k', v') :: m' =>
      if String.eqb k' k then (k, v) :: m' else (k', v') :: dict_set m' k v
  end.

Fixpoint dict_get {V} (m : list (string * V)) (k : string) : option V :=
  match m with
  | [] => None
  | (k', v') :: m' => if String.eqb k' k then Some v' else dict_get m' k
  end.

(** The dict comprehension of [get_all_settings]. *)
Definition get_all_settings : M (list (string * option string)) :=
  fun d =>
    (Done (fold_left (fun m r => dict_set m (s_key r) (s_value r)) (settings d) []), d).

(** *** The tables *)

(** The four tables, empty, with no key used yet. *)
Definition empty : db :=
  {| catalog := {| products := [] |}; products_seq := 0;
     invoices := []; invoices_seq := 0;
     invoice_items := []; invoice_items_seq := 0;
     settings := [] |}.

(** [init_database]: each [CREATE TABLE IF NOT EXISTS] creates an empty
    table where the file has none and leaves a table there is as it is;
    [None] stands for no file. *)
Definition init_database (file : option db) : db :=
  match file with
  | Some d => d
  | None => empty
  end.

End DatabaseManager.

(** ** Numbers and rows of the document: [src/pdf/generator.py] *)

Module PDFGenerator.

(** [x.is_integer()] *)
Definition is_integer (x : float) : bool :=
  match x with
  | S754_zero _ => true
  | S754_finite s m e => integral (frac s m e)
  | S754_infinity _ | S754_nan => false
  end.

(** A row of the table of the document. *)
Record formatted_item := {
  row : Z;
  fi_name : string;
  fi_unit : string;
  fi_quantity : string;
  fi_unit_price : string;
  fi_total_price : string
}.

Section Format.

(** [f"{x:,}"] for a float [x]: the formatting of floats of Python. *)
Variable format_float : float -> string.

Definition _format_number (number : num) : result string :=
  number' <- match number with
             | PyFloat x =>
                 if is_integer x then n <- int number ;; Ok (PyInt n)
                 else Ok number
             | PyInt _ => Ok number
             end ;;
  match number' with
  | PyInt n => Ok (Helpers.format_int n)
  | PyFloat x => Ok (format_float x)
  end.

(** The loop of [_format_items]; [idx] is the counter of [enumerate]. *)
Fixpoint format_loop (idx : Z) (items : list item)
    (formatted_items : list formatted_item) : result (list formatted_item) :=
  match items with
  | [] => Ok formatted_items
  | item :: rest =>
      q <- _format_number (quantity item) ;;
      u <- _format_number (PyInt (unit_price item)) ;;
      t <- _format_number (PyInt (total_price item)) ;;
      format_loop (idx + 1) rest
        (formatted_items ++ [{| row := idx; fi_name := name item;
                                fi_unit := unit item; fi_quantity := q;
                                fi_unit_price := u; fi_total_price := t |}])
  end.

Definition _format_items (items : list item) : result (list formatted_item) :=
  format_loop 1 items [].

End Format.

End PDFGenerator.

(** ** The other steps of the conversation: [src/bot/handlers.py] *)

Module Conversation.

Import DatabaseManager.

Inductive step :=
| CUSTOMER_NAME | PROJECT_NAME | SYSTEM_TYPE | FLOORS | CONFIRMATION | END.

(** The entries of [context.user_data]; [None] for a key the dict does not
    hold. *)
Record user_data := {
  customer_name : option string;
  project_name : option string;
  system_type : option string;
  system_text : option string;
  floors : option Z;
  calculation_result : option invoice
}.

(** [context.user_data.clear()] *)
Definition cleared : user_data :=
  {| customer_name := None; project_name := None; system_type := None;
     system_text := None; floors := None; calculation_result := None |}.

(** The replies of the steps; the text sent is rendered from the data kept
    here. *)
Inductive reply :=
| ChooseSystemAgain
| AskFloors (system_text : string)
| Cancelled
| AnswerOneOrZero
| Generating
| Issued (invoice_id : Z)
| StartAgain
| GenerationError (e : error).

(** [system_map] of the step [system_type]. *)
Definition system_map (system_text : string) : option string :=
  if String.eqb system_text "هیدرولیک" then Some "hydraulic"
  else if String.eqb system_text "کششی گیرلس" then Some "gearless"
  else None.

Definition system_type_step (system_text : string) (ud : user_data)
    : step * user_data * list reply :=
  match system_map system_text with
  | None => (SYSTEM_TYPE, ud, [ChooseSystemAgain])
  | Some system =>
      (FLOORS,
       {| customer_name := customer_name ud; project_name := project_name ud;
          system_type := Some system; system_text := Some system_text;
          floors := floors ud; calculation_result := calculation_result ud |},
       [AskFloors system_text])
  end.

(** [d[key]] on the user data. *)
Definition lookup {A} (entry : option A) : outcome A :=
  match entry with
  | Some a => Done a
  | None => Failed (Builtin KeyError)
  end.

(** The loop of [confirmation] that saves the items. *)
Fixpoint save_items (invoice_id : Z) (items : list item) : M Datatypes.unit :=
  fun d =>
    match items with
    | [] => (Done tt, d)
    | item :: rest =>
        match add_invoice_item invoice_id (product_id item) (name item) (unit item)
                (quantity item) (unit_price item) (total_price item) d with
        | (Done _, d') => save_items invoice_id rest d'
        | (Failed e, d') => (Failed e, d')
        end
    end.

Section Confirmation.

(** [text.strip()] *)
Variable strip : string -> string.

(** The reading of the clock when the invoice is created. *)
Variable now : string.

(** What follows the saving in the [try]: the document is generated from
    the invoice, the items and the three company settings, and sent. *)
Variable deliver :
  Z -> user_data -> invoice -> option string * option string * option string ->
  outcome Datatypes.unit.

(** The body of the [try] of [confirmation]. *)
Definition save_and_deliver (ud : user_data) : M Z :=
  fun d =>
    match (result <-- lookup (calculation_result ud) ;;
           customer <-- lookup (customer_name ud) ;;
           project <-- lookup (project_name ud) ;;
           system <-- lookup (system_type ud) ;;
           n <-- lookup (floors ud) ;;
           Done (result, customer, project, system, n)) with
    | Failed e => (Failed e, d)
    | Done (result, customer, project, system, n) =>
        match create_invoice now customer project system n
                (invoice_total_price result) d with
        | (Failed e, d1) => (Failed e, d1)
        | (Done invoice_id, d1) =>
            match save_items invoice_id (items result) d1 with
            | (Failed e, d2) => (Failed e, d2)
            | (Done _, d2) =>
                let name := fst (get_setting "COMPANY_NAME"
                                   (Some "شرکت آسانسور روان رو دماوند") d2) in
                let address := fst (get_setting "COMPANY_ADDRESS"
                                      (Some "تهران - دماوند") d2) in
                let phone := fst (get_setting "COMPANY_PHONE"
                                    (Some "021-12345678") d2) in
                match name, address, phone with
                | Done a, Done b, Done c =>
                    match deliver invoice_id ud result (a, b, c) with
                    | Done _ => (Done invoice_id, d2)
                    | Failed e => (Failed e, d2)
                    end
                | Failed e, _, _ | _, Failed e, _ | _, _, Failed e => (Failed e, d2)
                end
            end
        end
    end.

Definition confirmation (text : string) (ud : user_data) (d : db)
    : (step * user_data * list reply) * db :=
  let response := strip text in
  if String.eqb response "0" then ((END, cleared, [Cancelled]), d)
  else if negb (String.eqb response "1") then
    ((CONFIRMATION, ud, [AnswerOneOrZero]), d)
  else
    match save_and_deliver ud d with
    | (Done invoice_id, d') =>
        ((END, cleared, [Generating; Issued invoice_id; StartAgain]), d')
    | (Failed e, d') =>
        ((END, cleared, [Generating; GenerationError e]), d')
    end.

End Confirmation.

End Conversation.

(** ** The price editor of the admin panel: [src/bot/admin.py] *)

Module AdminHandlers.

Import DatabaseManager.

Inductive step := ADMIN_MENU | EDIT_PRICE_SELECT | EDIT_PRICE_VALUE | END.

(** The entry [edit_product] of [context.user_data]. *)
Definition user_data := option product.

Inductive reply :=
| NotANumber
| ProductNotFound (product_id : Z)
| AskNewPrice (product : product)
| PriceIsNegative
| PriceUpdated (product : product) (new_price : Z)
| UpdateFailed.

Section EditPrice.

(** [int(text)] on a text: the int it denotes, or [ValueError]. *)
Variable int_of_str : string -> result Z.

Definition edit_price_select (text : string) (ud : user_data) (d : db)
    : outcome (step * user_data * list reply) * db :=
  match int_of_str text with
  | Raise ValueError => (Done (EDIT_PRICE_SELECT, ud, [NotANumber]), d)
  | Raise e => (Failed (Builtin e), d)
  | Ok product_id =>
      match get_product_by_id product_id d with
      | (Failed e, d') => (Failed e, d')
      | (Done None, d') =>
          (Done (EDIT_PRICE_SELECT, ud, [ProductNotFound product_id]), d')
      | (Done (Some product), d') =>
          (Done (EDIT_PRICE_VALUE, Some product, [AskNewPrice product]), d')
      end
  end.

Definition edit_price_value (text : string) (ud : user_data) (d : db)
    : outcome (step * user_data * list reply) * db :=
  match int_of_str (Helpers.remove " " (Helpers.remove "," text)) with
  | Raise ValueError => (Done (EDIT_PRICE_VALUE, ud, [NotANumber]), d)
  | Raise e => (Failed (Builtin e), d)
  | Ok new_price =>
      if new_price <? 0 then (Done (EDIT_PRICE_VALUE, ud, [PriceIsNegative]), d)
      else
        match ud with
        | None => (Failed (Builtin KeyError), d)
        | Some product =>
            match update_product_price (p_id product) new_price d with
            | (Failed e, d') => (Failed e, d')
            | (Done success, d') =>
                (Done (END, None,
                       [if success then PriceUpdated product new_price
                        else UpdateFailed]), d')
            end
        end
  end.

End EditPrice.

End AdminHandlers.

(** ** Notions the further properties are stated with *)

(** Every character of a string is a decimal digit. *)
Fixpoint all_digits (s : string) : bool :=
  match s with
  | EmptyString => true
  | String c r => Template.in_range "0" "9" c && all_digits r
  end.

(** An int fits a 64-bit INTEGER. *)
Definition int64 (n : Z) : Prop :=
  - DatabaseManager.max_rowid - 1 <= n <= DatabaseManager.max_rowid.

(** The row of the catalog with a given key, if any. *)
Definition product_with_id (k : Z) (d : DatabaseManager.db) : option product :=
  find (fun r => p_id r =? k) (products (DatabaseManager.catalog d)).

(** A database for the examples: three active rules, one invoice with
    one item, and the name of the company. *)
Definition example_db : DatabaseManager.db :=
  {| DatabaseManager.catalog :=
       {| products :=
            [example_rule 1 "hydraulic" "fixed" (Some (dyadic 80 0)) None 2;
             example_rule 2 "gearless" "fixed" None None 3;
             example_rule 3 "common" "linear" (Some (dyadic 4 0)) (Some (dyadic 5 0)) 10] |};
     DatabaseManager.products_seq := 3;
     DatabaseManager.invoices :=
       [{| DatabaseManager.inv_id := 1;
           DatabaseManager.inv_customer_name := "A";
           DatabaseManager.inv_project_name := "P";
           DatabaseManager.inv_system := "hydraulic";
           DatabaseManager.inv_floors := 5;
           DatabaseManager.inv_total_price := 160;
           DatabaseManager.inv_created_at := "2024-01-01T00:00:00" |}];
     DatabaseManager.invoices_seq := 1;
     DatabaseManager.invoice_items :=
       [{| DatabaseManager.ii_id := 1;
           DatabaseManager.ii_invoice_id := 1;
           DatabaseManager.ii_product_id := Some 1;
           DatabaseManager.ii_name := "Cabin";
           DatabaseManager.ii_unit := "pc";
           DatabaseManager.ii_quantity := dyadic 80 0;
           DatabaseManager.ii_unit_price := 2;
           DatabaseManager.ii_total_price := 160 |}];
     DatabaseManager.invoice_items_seq := 1;
     DatabaseManager.settings :=
       [{| DatabaseManager.s_key := "COMPANY_NAME";
           DatabaseManager.s_value := Some "Lift Co" |}] |}.

(** A row of [invoice_items] holds an item of the invoice [invoice_id]:
    the columns are the entries of the item, the quantity as the float the
    REAL column gives back for it. *)
Definition holds (invoice_id : Z) (it : item) (row : DatabaseManager.invoice_item_row)
    : Prop :=
  DatabaseManager.ii_invoice_id row = invoice_id
  /\ DatabaseManager.ii_product_id row = Some (product_id it)
  /\ DatabaseManager.ii_name row = name it
  /\ DatabaseManager.ii_unit row = unit it
  /\ (exists q, to_float (quantity it) = Ok q
                /\ DatabaseManager.ii_quantity row = DatabaseManager.real_column q)
  /\ DatabaseManager.ii_unit_price row = unit_price it
  /\ DatabaseManager.ii_total_price row = total_price it.

(** An item can be stored: its ints fit 64 bits and its quantity is stored
    as a float. *)
Definition storable (it : item) : Prop :=
  int64 (product_id it) /\ int64 (unit_price it) /\ int64 (total_price it)
  /\ exists q, DatabaseManager.bind_real (quantity it) = DatabaseManager.Done (Some q).

(** The largest key a table holds or ever held. *)
Definition high_water (seq : Z) (ids : list Z) : Z :=
  Z.max seq (DatabaseManager.largest ids).

(** The invoice tables are consistent: the key sequence of [invoices] is
    not negative, and no row of [invoice_items] refers to an invoice that
    is yet to come, one with a key above every key [invoices] holds or
    ever held. *)
Definition consistent (d : DatabaseManager.db) : Prop :=
  0 <= DatabaseManager.invoices_seq d
  /\ forall r, In r (DatabaseManager.invoice_items d) ->
       DatabaseManager.ii_invoice_id r
       <= high_water (DatabaseManager.invoices_seq d)
            (map DatabaseManager.inv_id (DatabaseManager.invoices d)).

(** Two databases with the same invoice tables. *)
Definition same_invoices (d d' : DatabaseManager.db) : Prop :=
  DatabaseManager.invoices d' = DatabaseManager.invoices d
  /\ DatabaseManager.invoices_seq d' = DatabaseManager.invoices_seq d
  /\ DatabaseManager.invoice_items d' = DatabaseManager.invoice_items d.

(** A catalog whose first rule gives a credit: at one floor its lines are
    [-2 ** 62] and [2 ** 63], and the total is [2 ** 62]. *)
Definition oversized_catalog : state :=
  {| products :=
       [example_rule 1 "hydraulic" "linear" (Some (dyadic (-1) 0)) None (2 ^ 62);
        example_rule 3 "common" "fixed" (Some (dyadic 2 0)) None (2 ^ 62)] |}.

(** The user data at the confirmation of an invoice. *)
Definition example_user_data (result : invoice) : Conversation.user_data :=
  {| Conversation.customer_name := Some "A. Customer";
     Conversation.project_name := Some "Tower 2";
     Conversation.system_type := Some "hydraulic";
     Conversation.system_text := Some "هیدرولیک";
     Conversation.floors := Some 5;
     Conversation.calculation_result := Some result |}.

(** The invoice of [example_db] for 5 floors of a hydraulic elevator. *)
Definition example_invoice : invoice :=
  {| items :=
       [{| product_id := 1; name := "Cabin"; unit := "pc";
           quantity := PyFloat (dyadic 80 0); unit_price := 2; total_price := 160 |};
        {| product_id := 3; name := "Cabin"; unit := "pc";
           quantity := PyFloat (dyadic 25 0); unit_price := 10; total_price := 250 |}];
     invoice_total_price := 410 |}.

(** A float whose exponent, if it is finite, is not below the least
    exponent of the format. *)
Definition above_emin (x : float) : Prop :=
  match x with
  | S754_finite _ _ e => emin prec emax <= e
  | _ => True
  end.

(** A float is finite: a zero or a finite number. *)
Definition finite (x : float) : bool :=
  match x with
  | S754_zero _ | S754_finite _ _ _ => true
  | S754_infinity _ | S754_nan => false
  end.

(** Python's [int] on the decimal digits of an int, for the examples. *)
Definition decimal_int (s : string) : result Z :=
  match NilZero.int_of_string s with
  | Some n => Ok (Z.of_int n)
  | None => Raise ValueError
  end.

(** A catalog with a fixed rule of infinite factor after a sound rule. *)
Definition infinite_catalog : Database.state :=
  {| products :=
       [example_rule 1 "hydraulic" "fixed" (Some (dyadic 80 0)) None 2;
        example_rule 2 "common" "fixed" (Some (S754_infinity false)) None 3] |}.

(** ** The loop of [calculate_invoice] *)

Section Loop.

Variable floors : Z.

Lemma loop_inv (ps : list product) :
  forall acc tot inv,
    loop ps floors acc tot = Ok inv ->
    exists its,
      Forall2 (fun p it => make_item p floors = Ok it) ps its
      /\ items inv = acc ++ its
      /\ invoice_total_price inv = tot + sum_totals its.
Proof.
  induction ps as [|p ps IH]; intros acc tot inv H; simpl in H.
  - injection H as <-. exists []. simpl. rewrite app_nil_r.
    repeat split; [constructor | lia].
  - destruct (make_item p floors) as [it|e] eqn:Hit; simpl in H; [|discriminate].
    destruct (IH _ _ _ H) as (its & HF & Hi & Ht).
    exists (it :: its). repeat split.
    + constructor; assumption.
    + rewrite Hi, <- app_assoc. reflexivity.
    + rewrite Ht. simpl. lia.
Qed.

Lemma loop_complete (ps : list product) :
  forall its acc tot,
    Forall2 (fun p it => make_item p floors = Ok it) ps its ->
    loop ps floors acc tot =
      Ok {| items := acc ++ its; invoice_total_price := tot + sum_totals its |}.
Proof.
  induction ps as [|p ps IH]; intros its acc tot HF; inversion HF; subst; simpl.
  - rewrite app_nil_r, Z.add_0_r. reflexivity.
  - rewrite H1. simpl. rewrite (IH _ _ _ H3), <- app_assoc. simpl.
    do 2 f_equal. lia.
Qed.

End Loop.

(** Parameters of a query that fit 64 bits are bound as they are; any
    other raises [OverflowError]. *)
Lemma int_param_fits (n : Z) : fits_int64 n -> int_param n = Ok n.
Proof.
  unfold fits_int64, int_param. intros [H1 H2].
  apply Z.leb_le in H1, H2. rewrite H1, H2. reflexivity.
Qed.

Lemma int_param_overflows (n : Z) : ~ fits_int64 n -> int_param n = Raise OverflowError.
Proof.
  unfold fits_int64, int_param. intros H.
  destruct (Z.leb (- max_int64 - 1) n) eqn:H1; [|reflexivity].
  destruct (Z.leb n max_int64) eqn:H2; [|reflexivity].
  apply Z.leb_le in H1, H2. exfalso. apply H. split; assumption.
Qed.

Lemma int_param_ok (n k : Z) : int_param n = Ok k -> k = n /\ fits_int64 n.
Proof.
  unfold fits_int64, int_param.
  destruct (Z.leb (- max_int64 - 1) n) eqn:H1; [|discriminate].
  destruct (Z.leb n max_int64) eqn:H2; [|discriminate].
  apply Z.leb_le in H1, H2. intros [= <-]. repeat split; assumption.
Qed.

Lemma fits_int64_dec (n : Z) : fits_int64 n \/ ~ fits_int64 n.
Proof. unfold fits_int64. lia. Qed.

Lemma fits_int64_small (n : Z) : - 2 ^ 62 <= n <= 2 ^ 62 -> fits_int64 n.
Proof. unfold fits_int64, max_int64. lia. Qed.

(** The query with parameters that fit returns the selected rows. *)
Lemma get_products_fits (system_type : option string) (is_active : Z)
    (floors : option Z) (db : state) :
  fits_int64 is_active -> (forall n, floors = Some n -> fits_int64 n) ->
  get_products system_type is_active floors db
  = (Ok (select (where_clause system_type is_active floors) (products db)), db).
Proof.
  intros Ha Hf. unfold get_products. rewrite (int_param_fits _ Ha).
  destruct floors as [n|]; [|reflexivity].
  cbn [opt_int_param bind]. rewrite (int_param_fits _ (Hf n eq_refl)). reflexivity.
Qed.

(** The query with a parameter that does not fit raises. *)
Lemma get_products_overflows (system_type : option string) (is_active : Z)
    (floors : option Z) (db : state) :
  ~ fits_int64 is_active \/ (exists n, floors = Some n /\ ~ fits_int64 n) ->
  get_products system_type is_active floors db = (Raise OverflowError, db).
Proof.
  intros H. unfold get_products.
  destruct (fits_int64_dec is_active) as [Ha | Ha].
  - destruct H as [H | (n & -> & Hn)]; [contradiction|].
    rewrite (int_param_fits _ Ha). cbn [opt_int_param bind].
    rewrite (int_param_overflows _ Hn). reflexivity.
  - rewrite (int_param_overflows _ Ha). reflexivity.
Qed.

(** What the query returned, when it returned. *)
Lemma get_products_ok (system_type : option string) (is_active : Z)
    (floors : option Z) (db : state) (rows : list product) :
  fst (get_products system_type is_active floors db) = Ok rows ->
  rows = select (where_clause system_type is_active floors) (products db)
  /\ fits_int64 is_active /\ (forall n, floors = Some n -> fits_int64 n).
Proof.
  intros H.
  destruct (fits_int64_dec is_active) as [Ha | Ha];
    [|rewrite get_products_overflows in H by (left; exact Ha); discriminate].
  assert (Hf : forall n, floors = Some n -> fits_int64 n).
  { intros n ->. destruct (fits_int64_dec n) as [Hn | Hn]; [exact Hn|].
    rewrite get_products_overflows in H by (right; exists n; split; [reflexivity | exact Hn]).
    discriminate. }
  rewrite (get_products_fits _ _ _ _ Ha Hf) in H. injection H as <-.
  split; [reflexivity | split; assumption].
Qed.

(** The calculator asks for the active rules of the system and the floor
    count and runs the loop on them. *)
Lemma calculate_invoice_query (floors : Z) (system_type : string) (db : state) :
  calculate_invoice floors system_type db
  = (products <- fst (get_products (Some system_type) 1 (Some floors) db) ;;
     loop products floors [] 0, db).
Proof. reflexivity. Qed.

Lemma calculate_invoice_unfold (floors : Z) (system_type : string) (db : state) :
  fits_int64 floors ->
  calculate_invoice floors system_type db =
    (loop (select (where_clause (Some system_type) 1 (Some floors)) (products db))
          floors [] 0, db).
Proof.
  intros Hf. rewrite calculate_invoice_query.
  rewrite get_products_fits;
    [reflexivity | apply fits_int64_small; lia | intros n [= <-]; exact Hf].
Qed.

(** A floor count that does not fit 64 bits makes the query, and so the
    calculation, raise. *)
Lemma calculate_invoice_overflows (floors : Z) (system_type : string) (db : state) :
  ~ fits_int64 floors ->
  calculate_invoice floors system_type db = (Raise OverflowError, db).
Proof.
  intros Hf. rewrite calculate_invoice_query.
  rewrite get_products_overflows; [reflexivity|].
  right. exists floors. split; [reflexivity | exact Hf].
Qed.

(** What a successful call returns: one item per retrieved rule, in order,
    and the sum of their totals. *)
Lemma calculate_invoice_items (floors : Z) (system_type : string) (db : state) inv :
  fst (calculate_invoice floors system_type db) = Ok inv ->
  Forall2 (fun p it => make_item p floors = Ok it)
    (select (where_clause (Some system_type) 1 (Some floors)) (products db))
    (items inv)
  /\ invoice_total_price inv = sum_totals (items inv).
Proof.
  destruct (fits_int64_dec floors) as [Hf | Hf];
    [|rewrite (calculate_invoice_overflows _ _ _ Hf); discriminate].
  rewrite (calculate_invoice_unfold _ _ _ Hf). simpl. intros H.
  destruct (loop_inv _ _ _ _ _ H) as (its & HF & Hi & Ht).
  simpl in Hi. subst its. split; [assumption | lia].
Qed.

(** The fields of an item made from a rule. *)
Lemma make_item_fields (p : product) (floors : Z) (it : item) :
  make_item p floors = Ok it ->
  _calculate_quantity p floors = Ok (quantity it)
  /\ _get_final_name p floors = Ok (name it)
  /\ product_id it = p_id p /\ unit it = p_unit p /\ unit_price it = p_price p
  /\ exists a, line_amount it = Ok a /\ int a = Ok (total_price it).
Proof.
  unfold make_item, line_amount. intros H.
  destruct (_calculate_quantity p floors) as [q|] eqn:Hq; simpl in H; [|discriminate].
  destruct (_get_final_name p floors) as [n|] eqn:Hn; simpl in H; [|discriminate].
  destruct (mul q (PyInt (p_price p))) as [a|] eqn:Ha; simpl in H; [|discriminate].
  destruct (int a) as [t|] eqn:Ht; simpl in H; [|discriminate].
  injection H as <-. simpl. repeat split; try reflexivity.
  exists a. split; assumption.
Qed.

(** A rule whose item cannot be made makes the loop raise. *)
Lemma loop_raises (floors : Z) (ps : list product) :
  forall acc tot,
    (exists p e, In p ps /\ make_item p floors = Raise e) ->
    exists e, loop ps floors acc tot = Raise e.
Proof.
  induction ps as [|q ps IH]; intros acc tot (p & e & Hin & He); [destruct Hin|].
  cbn [loop]. destruct (make_item q floors) as [it|e'] eqn:Hq; cbn [bind].
  - apply IH. destruct Hin as [-> | Hin]; [congruence|]. exists p, e. split; assumption.
  - exists e'. reflexivity.
Qed.

(** ** [int] against [floor] *)

Lemma frac_num_pos (m : positive) (e : Z) : 0 < Qnum (frac false m e).
Proof.
  unfold frac. destruct e as [|p|p]; cbn [Qnum cond_Zopp];
    first [ lia
          | assert (0 < 2 ^ Z.pos p) by (apply Z.pow_pos_nonneg; lia); nia ].
Qed.

Lemma frac_num_neg (m : positive) (e : Z) : Qnum (frac true m e) < 0.
Proof.
  unfold frac. destruct e as [|p|p]; cbn [Qnum cond_Zopp];
    first [ lia
          | assert (0 < 2 ^ Z.pos p) by (apply Z.pow_pos_nonneg; lia); nia ].
Qed.

Lemma int_floor_nonnegative (a : num) :
  negative a = false -> floor a = int a.
Proof.
  destruct a as [n|x]; [reflexivity|]. simpl.
  destruct x as [s|s| |s m e]; try reflexivity.
  destruct s; [discriminate|]. intros _. simpl. f_equal.
  pose proof (frac_num_pos m e) as Hp.
  unfold Qtrunc, Qfloor. destruct (frac false m e) as [n d]. simpl in *.
  symmetry. apply Z.quot_div_nonneg; lia.
Qed.

Lemma int_floor_negative (m : positive) (e : Z) :
  integral (frac true m e) = false ->
  Qfloor (frac true m e) = Qtrunc (frac true m e) - 1
  /\ Qtrunc (frac true m e) <= 0.
Proof.
  pose proof (frac_num_neg m e) as Hn.
  unfold integral, Qtrunc, Qfloor.
  destruct (frac true m e) as [n d]. simpl Qnum in *. simpl Qden.
  intros Hm. apply Z.eqb_neq in Hm.
  replace n with (- (- n)) by lia.
  rewrite Z.quot_opp_l by lia.
  rewrite Z.quot_div_nonneg by lia.
  assert (Hm' : (- n) mod Z.pos d <> 0).
  { intros H0. apply Hm. apply Z.mod_divide in H0; [|lia].
    apply Z.mod_divide; [lia|]. destruct H0 as [k Hk]. exists (- k). lia. }
  rewrite (Z.div_opp_l_nz (- n) (Z.pos d)) by (try lia; assumption).
  split; [lia|].
  assert (0 <= - n / Z.pos d) by (apply Z.div_pos; lia). lia.
Qed.

Lemma total_truncation_of_make_item (p : product) (floors : Z) (it : item) :
  make_item p floors = Ok it -> total_is_truncation it.
Proof.
  intros H. destruct (make_item_fields _ _ _ H) as (_ & _ & _ & _ & _ & a & Ha & Hi).
  exists a. repeat split; try assumption.
  intros Hn. rewrite (int_floor_nonnegative _ Hn). assumption.
Qed.

Lemma Forall2_right {A B} (R : A -> B -> Prop) (P : B -> Prop) l1 l2 :
  (forall a b, R a b -> P b) -> Forall2 R l1 l2 -> Forall P l2.
Proof. intros HR H. induction H; constructor; eauto. Qed.

(** ** The catalog query *)

Lemma is_active_b_spec (v : Z) (r : product) :
  is_active_b v r = true <-> p_is_active r = Some v.
Proof.
  unfold is_active_b. destruct (p_is_active r) as [a|].
  - rewrite Z.eqb_eq. split; congruence.
  - split; discriminate.
Qed.

Lemma floors_in_range_spec (floors : Z) (r : product) :
  floors_in_range floors r = true <->
  (forall m, p_min_floors r = Some m -> m <= floors)
  /\ (forall m, p_max_floors r = Some m -> floors <= m).
Proof.
  unfold floors_in_range. rewrite andb_true_iff.
  destruct (p_min_floors r) as [lo|], (p_max_floors r) as [hi|];
    rewrite ?Z.leb_le; split; intros [H1 H2]; repeat split;
    try discriminate; try (intros ? [= <-]; assumption);
    try (apply H1; reflexivity); try (apply H2; reflexivity).
Qed.

Lemma applicable_b_spec (system_type : string) (floors : Z) (r : product) :
  applicable_b system_type floors r = true <-> applicable system_type floors r.
Proof.
  unfold applicable_b, applicable.
  rewrite !andb_true_iff, orb_true_iff, !String.eqb_eq,
    is_active_b_spec, floors_in_range_spec. tauto.
Qed.

Lemma select_truthy_system (system_type : string) (floors : Z) (rows : list product) :
  system_type <> "" ->
  select (where_clause (Some system_type) 1 (Some floors)) rows =
    filter (applicable_b system_type floors) rows.
Proof.
  intros Hne. unfold select, where_clause.
  assert (Ht : str_truthy (Some system_type) = true)
    by (destruct system_type; [congruence | reflexivity]).
  rewrite Ht. apply filter_ext. intros r. simpl.
  unfold applicable_b, is_active_b, floors_in_range, is_active_eq, system_in,
    min_floors_ok, max_floors_ok.
  rewrite andb_true_r, !andb_assoc. reflexivity.
Qed.

Lemma filter_sublist {A} (f : A -> bool) (l : list A) : sublist (filter f l) l.
Proof.
  induction l as [|x l IH]; simpl; [constructor|].
  destruct (f x); constructor; assumption.
Qed.

(** ** Floats *)

Lemma shr_1_nonneg (mrs : shr_record) : 0 <= shr_m mrs -> 0 <= shr_m (shr_1 mrs).
Proof.
  destruct mrs as [m r t]. simpl.
  destruct m as [|[q|q|]|[q|q|]]; simpl; lia.
Qed.

Lemma iter_pos_inv {A} (f : A -> A) (P : A -> Prop) :
  (forall x, P x -> P (f x)) -> forall n x, P x -> P (iter_pos f n x).
Proof.
  intros Hf. induction n as [n IH|n IH|]; intros x Hx; simpl; auto.
Qed.

Lemma shr_fexp_nonneg (m e : Z) (l : location) :
  0 <= m -> 0 <= shr_m (fst (shr_fexp prec emax m e l)).
Proof.
  intros Hm. unfold shr_fexp, shr.
  assert (H0 : 0 <= shr_m (shr_record_of_loc m l))
    by (destruct l as [|[]]; exact Hm).
  destruct (fexp prec emax (Zdigits2 m + e) - e) as [|q|q]; simpl; try exact H0.
  apply (iter_pos_inv shr_1 (fun x => 0 <= shr_m x)); [exact shr_1_nonneg | exact H0].
Qed.

Lemma round_nearest_even_nonneg (m : Z) (l : location) :
  0 <= m -> 0 <= round_nearest_even m l.
Proof.
  intros Hm. unfold round_nearest_even.
  destruct l as [|[]]; try destruct (Z.even m); lia.
Qed.

Lemma binary_round_aux_not_nan (sx : bool) (mx ex : Z) (lx : location) :
  0 <= mx -> binary_round_aux prec emax sx mx ex lx <> S754_nan.
Proof.
  intros Hm. unfold binary_round_aux.
  pose proof (shr_fexp_nonneg mx ex lx Hm) as H1.
  destruct (shr_fexp prec emax mx ex lx) as [mrs' e']. simpl in H1.
  pose proof (shr_fexp_nonneg _ e' loc_Exact
                (round_nearest_even_nonneg _ (loc_of_shr_record mrs') H1)) as H2.
  destruct (shr_fexp prec emax _ e' loc_Exact) as [mrs'' e'']. simpl in H2.
  destruct (shr_m mrs'') as [|q|q]; try discriminate; [|lia].
  destruct (e'' <=? emax - prec); discriminate.
Qed.

(** [float(n)] is a zero or a finite float whenever it returns. *)
Lemma float_of_int_finite (n : Z) (x : float) :
  float_of_int n = Ok x ->
  match x with S754_zero _ | S754_finite _ _ _ => True | _ => False end.
Proof.
  unfold float_of_int.
  assert (Hn : binary_normalize prec emax n 0 false <> S754_nan).
  { unfold binary_normalize, binary_round. destruct n as [|q|q]; try discriminate;
      destruct (shl_align _ _ _) as [mz ez]; apply binary_round_aux_not_nan; lia. }
  destruct (binary_normalize prec emax n 0 false); try discriminate;
    intros [= <-]; try exact I. congruence.
Qed.

Lemma fmul_zero_l (s : bool) (n : float) :
  match n with S754_zero _ | S754_finite _ _ _ => True | _ => False end ->
  exists s', fmul (S754_zero s) n = S754_zero s'.
Proof. destruct n; intros []; eexists; reflexivity. Qed.

Lemma fadd_zero_l (s : bool) (b : float) :
  (forall s', b <> S754_zero s') -> fadd (S754_zero s) b = b.
Proof. intros Hb. destruct b; try reflexivity. elim (Hb s0). reflexivity. Qed.

Lemma fadd_zero_zero (s s' : bool) : exists t, fadd (S754_zero s) (S754_zero s') = S754_zero t.
Proof. destruct s, s'; eexists; reflexivity. Qed.

(** [x or 0] against the value with default [0.0]. *)
Lemma or0_cases (x : option float) :
  (or0 x = PyInt 0 /\ exists s, or_zero x = S754_zero s)
  \/ (or0 x = PyFloat (or_zero x) /\ forall s, or_zero x <> S754_zero s).
Proof.
  destruct x as [f|]; simpl.
  - destruct f as [s|s| |s m e]; simpl.
    + left. split; [reflexivity | eexists; reflexivity].
    + right. destruct s; split; try reflexivity; discriminate.
    + right. split; [reflexivity | discriminate].
    + right. destruct s; split; try reflexivity; discriminate.
  - left. split; [reflexivity | exists false; reflexivity].
Qed.

Lemma gt0_or0 (x : option float) : gt0 (or0 x) = fltb fzero (or_zero x).
Proof.
  destruct (or0_cases x) as [[-> [s ->]] | [-> _]]; reflexivity.
Qed.

(** The linear branch of [_calculate_quantity]. *)
Lemma linear_branch (factor base_add : option float) (floors : Z) (n : float) :
  float_of_int floors = Ok n ->
  exists q,
    (x <- mul (or0 factor) (PyInt floors) ;; add x (or0 base_add)) = Ok q
    /\ same_number q (PyFloat (linear_formula factor base_add n)).
Proof.
  intros Hn. pose proof (float_of_int_finite _ _ Hn) as Hfin.
  unfold linear_formula.
  destruct (or0_cases factor) as [[-> [s Hf]] | [-> Hf]];
    destruct (or0_cases base_add) as [[-> [t Hb]] | [-> Hb]]; rewrite ?Hf, ?Hb.
  - exists (PyInt 0). split; [simpl; reflexivity|]. right. split; [reflexivity|].
    destruct (fmul_zero_l s n Hfin) as [s' ->].
    destruct (fadd_zero_zero s' t) as [u ->]. reflexivity.
  - exists (PyFloat (or_zero base_add)). split.
    + cbn [mul add to_float bind]. rewrite Z.mul_0_l.
      change (float_of_int 0) with (Ok (S754_zero false)). cbn [bind].
      rewrite fadd_zero_l by assumption. reflexivity.
    + left. destruct (fmul_zero_l s n Hfin) as [s' ->].
      rewrite fadd_zero_l by assumption. reflexivity.
  - exists (PyFloat (fadd (fmul (or_zero factor) n) (S754_zero false))). split.
    + cbn [mul add to_float bind]. rewrite Hn. cbn [bind].
      change (float_of_int 0) with (Ok (S754_zero false)). reflexivity.
    + destruct (fmul (or_zero factor) n) as [u| | |] eqn:Hx.
      * right. destruct (fadd_zero_zero u false) as [v ->].
        destruct (fadd_zero_zero u t) as [w ->]. split; reflexivity.
      * left. reflexivity.
      * left. reflexivity.
      * left. reflexivity.
  - exists (PyFloat (fadd (fmul (or_zero factor) n) (or_zero base_add))). split.
    + cbn [mul add to_float bind]. rewrite Hn. reflexivity.
    + left. reflexivity.
Qed.

(** ** Substitution *)

Section Substitution.

Import Template.

Lemma append_assoc (u v w : string) : ((u ++ v) ++ w = u ++ (v ++ w))%string.
Proof. induction u as [|c u IH]; simpl; [reflexivity | rewrite IH; reflexivity]. Qed.

Lemma id_start_not_dollar (c : ascii) :
  is_id_start c = true -> Ascii.eqb c "$" = false.
Proof.
  intros H. destruct (Ascii.eqb_spec c "$") as [->|]; [discriminate | reflexivity].
Qed.

Lemma id_start_is_id_char (c : ascii) : is_id_start c = true -> is_id_char c = true.
Proof. unfold is_id_char. intros ->. reflexivity. Qed.

Lemma span_id_app (i rest : string) :
  all_id_chars i = true -> starts_with_id_char rest = false ->
  span_id (i ++ rest) = (i, rest).
Proof.
  induction i as [|c i IH]; simpl; intros Hi Hr.
  - destruct rest as [|c r]; [reflexivity|]. simpl in *. rewrite Hr. reflexivity.
  - apply andb_true_iff in Hi as [Hc Hi]. rewrite Hc, (IH Hi Hr). reflexivity.
Qed.

Lemma sub_skip (cv : match_obj -> result string) (u v : string) :
  sub cv (String.length u) (u ++ v) = sub cv 0 v.
Proof. induction u as [|c u IH]; simpl; [reflexivity | exact IH]. Qed.

Lemma getitem_raises_KeyError (m : mapping) (key : string) (e : exn) :
  getitem m key = Raise e -> e = KeyError.
Proof.
  induction m as [|[k v] m IH]; simpl.
  - intros [= <-]. reflexivity.
  - destruct (String.eqb k key); [discriminate | exact IH].
Qed.

(** [convert] on a placeholder: the value of a defined key, the matched
    text for an undefined one. *)
Lemma convert_key (m : mapping) (mo : match_obj) (key : string) :
  group_or (named mo) (braced mo) = Some key ->
  convert m mo = Ok match lookup_in m key with
                    | Some v => Py.str v
                    | None => group mo
                    end.
Proof.
  intros Hk. unfold convert, lookup_in. rewrite Hk.
  destruct (getitem m key) as [v|e] eqn:Hg; [reflexivity|].
  rewrite (getitem_raises_KeyError _ _ _ Hg). reflexivity.
Qed.

Lemma match_at_named (c : ascii) (i rest : string) :
  is_identifier (String c i) = true -> starts_with_id_char rest = false ->
  match_at (String c i ++ rest) = mo_named (String c i).
Proof.
  intros Hi Hr. apply andb_true_iff in Hi as [Hc Hi].
  change (String c i ++ rest)%string with (String c (i ++ rest)).
  unfold match_at. rewrite (id_start_not_dollar _ Hc), Hc.
  change (String c (i ++ rest)) with (String c i ++ rest)%string.
  rewrite span_id_app; [reflexivity | | assumption].
  simpl. rewrite (id_start_is_id_char _ Hc), Hi. reflexivity.
Qed.

Lemma match_at_braced (c : ascii) (i rest : string) :
  is_identifier (String c i) = true ->
  match_at (String "{" (String c i ++ String "}" rest)) = mo_braced (String c i).
Proof.
  intros Hi. pose proof Hi as Hi'. apply andb_true_iff in Hi' as [Hc Hi'].
  unfold match_at.
  change (Ascii.eqb "{" "$") with false. change (is_id_start "{") with false.
  change (Ascii.eqb "{" "{") with true. cbv iota.
  change (String c i ++ String "}" rest)%string
    with (String c (i ++ String "}" rest)).
  cbv iota. rewrite Hc.
  change (String c (i ++ String "}" rest))
    with (String c i ++ String "}" rest)%string.
  rewrite span_id_app; [reflexivity | | reflexivity].
  simpl. rewrite (id_start_is_id_char _ Hc), Hi'. reflexivity.
Qed.

Lemma match_at_lone (rest : string) :
  lone_before rest = true -> match_at rest = mo_invalid.
Proof.
  destruct rest as [|c r]; [reflexivity|]. unfold lone_before, match_at.
  rewrite !andb_true_iff, !negb_true_iff. intros [[-> ->] Hb].
  destruct (Ascii.eqb c "{"); [|reflexivity]. cbn [andb] in Hb.
  destruct r as [|c' r']; [reflexivity|]. unfold closes_brace in Hb.
  destruct (is_id_start c'); [|reflexivity]. cbn [andb] in Hb.
  destruct (span_id (String c' r')) as [i [|c'' t]]; [reflexivity|].
  cbn [snd] in Hb. rewrite Hb. reflexivity.
Qed.

Lemma span_id_spec (s : string) :
  s = (fst (span_id s) ++ snd (span_id s))%string
  /\ all_id_chars (fst (span_id s)) = true
  /\ starts_with_id_char (snd (span_id s)) = false.
Proof.
  induction s as [|c s (IH1 & IH2 & IH3)]; [repeat split|].
  simpl. destruct (is_id_char c) eqn:Hc.
  - destruct (span_id s) as [i t]. simpl in *. rewrite Hc, IH2.
    repeat split; [f_equal; exact IH1 | exact IH3].
  - simpl. rewrite Hc. repeat split.
Qed.

Lemma drop_app (u v : string) : drop (String.length u) (u ++ v) = v.
Proof. induction u as [|c u IH]; simpl; [destruct v; reflexivity | exact IH]. Qed.

(** What a match at a delimiter covers, and the conditions its token
    meets with respect to the text [v] after the match. *)
Lemma match_at_spec (rest : string) :
  exists u v,
    rest = (u ++ v)%string
    /\ group (match_at rest) = String "$" u
    /\ render_token (token_of (match_at rest)) = String "$" u
    /\ match token_of (match_at rest) with
       | TChar _ => False
       | TEscaped => True
       | TNamed i => is_identifier i = true /\ starts_with_id_char v = false
       | TBraced i => is_identifier i = true
       | TLone => lone_before v = true
       end.
Proof.
  destruct rest as [|c r].
  { exists EmptyString, EmptyString. repeat split. }
  unfold match_at. destruct (Ascii.eqb c "$") eqn:Hd.
  { apply Ascii.eqb_eq in Hd as ->. exists "$"%string, r. repeat split. }
  destruct (is_id_start c) eqn:Hs.
  { destruct (span_id_spec (String c r)) as (H1 & H2 & H3).
    exists (fst (span_id (String c r))), (snd (span_id (String c r))).
    split; [exact H1|]. split; [reflexivity|]. split; [reflexivity|].
    cbn [token_of mo_named named]. split; [|exact H3].
    revert H2. simpl span_id. rewrite (id_start_is_id_char _ Hs).
    destruct (span_id r) as [i t]. cbn [fst is_identifier all_id_chars].
    rewrite Hs. intros H2. apply andb_true_iff in H2 as [_ ->]. reflexivity. }
  assert (Hlone : lone_before (String c r) = true ->
            exists u v, String c r = (u ++ v)%string
              /\ group mo_invalid = String "$" u
              /\ render_token (token_of mo_invalid) = String "$" u
              /\ lone_before v = true).
  { intros H. exists EmptyString, (String c r). repeat split. exact H. }
  destruct (Ascii.eqb c "{") eqn:Hb;
    [|apply Hlone; unfold lone_before; rewrite Hd, Hs, Hb; reflexivity].
  destruct r as [|c' r'];
    [apply Hlone; unfold lone_before; rewrite Hd, Hs, Hb; reflexivity|].
  destruct (is_id_start c') eqn:Hs';
    [|apply Hlone; unfold lone_before, closes_brace; rewrite Hd, Hs, Hb, Hs';
      reflexivity].
  destruct (span_id_spec (String c' r')) as (H1 & H2 & H3).
  destruct (span_id (String c' r')) as [i t] eqn:Hsp. cbn [fst snd] in H1, H2, H3.
  destruct t as [|c'' t];
    [apply Hlone; unfold lone_before, closes_brace;
     rewrite Hd, Hs, Hb, Hs', Hsp; reflexivity|].
  destruct (Ascii.eqb c'' "}") eqn:Hc;
    [|apply Hlone; unfold lone_before, closes_brace;
      rewrite Hd, Hs, Hb, Hs', Hsp; cbn [snd]; rewrite Hc; reflexivity].
  apply Ascii.eqb_eq in Hb as ->. apply Ascii.eqb_eq in Hc as ->.
  exists (String "{" (i ++ "}")), t.
  split; [rewrite H1; cbn [String.append]; rewrite append_assoc; reflexivity|].
  split; [reflexivity|]. split; [reflexivity|].
  cbn [token_of mo_braced named braced].
  revert Hsp H2. simpl span_id. rewrite (id_start_is_id_char _ Hs').
  destruct (span_id r') as [i' t']. intros [= <- _]. cbn [is_identifier all_id_chars].
  rewrite Hs'. intros H2. apply andb_true_iff in H2 as [_ ->]. reflexivity.
Qed.

(** The tokens read from a pattern spell the pattern. *)
Lemma render_tokens_from (s : string) :
  forall skip, render (tokens_from skip s) = drop skip s.
Proof.
  induction s as [|c s IH]; intros skip; [destruct skip; reflexivity|].
  cbn [tokens_from]. destruct skip as [|k]; [|rewrite IH; reflexivity].
  cbn [drop]. destruct (Ascii.eqb c "$") eqn:Hd.
  - apply Ascii.eqb_eq in Hd as ->. cbn [render]. rewrite IH.
    destruct (match_at_spec s) as (u & v & Hs & Hg & Hr & _).
    rewrite Hg, Hr. cbn [String.length Nat.sub]. rewrite Nat.sub_0_r.
    assert (Hdrop : drop (String.length u) s = v)
      by (rewrite Hs; apply drop_app).
    rewrite Hdrop, Hs. reflexivity.
  - cbn [render render_token String.append]. rewrite IH. reflexivity.
Qed.

(** The tokens read from a pattern are well formed. *)
Lemma well_formed_tokens_from (s : string) :
  forall skip, well_formed (tokens_from skip s) = true.
Proof.
  induction s as [|c s IH]; intros skip; [reflexivity|].
  cbn [tokens_from]. destruct skip as [|k]; [|apply IH].
  destruct (Ascii.eqb c "$") eqn:Hd.
  - cbn [well_formed]. rewrite IH, andb_true_r, render_tokens_from.
    destruct (match_at_spec s) as (u & v & Hs & Hg & _ & Hw).
    rewrite Hg. cbn [String.length Nat.sub]. rewrite Nat.sub_0_r.
    assert (Hdrop : drop (String.length u) s = v)
      by (rewrite Hs; apply drop_app).
    rewrite Hdrop.
    destruct (token_of (match_at s)) as [c'| |i|i|].
    + destruct Hw.
    + reflexivity.
    + destruct Hw as [-> ->]. reflexivity.
    + exact Hw.
    + exact Hw.
  - cbn [well_formed]. rewrite Hd, IH. reflexivity.
Qed.

Variable m : mapping.

(** Substitution token by token. *)
Lemma sub_render (ts : list token) :
  well_formed ts = true ->
  sub (convert m) 0 (render ts) = Ok (expand (lookup_in m) ts).
Proof.
  induction ts as [|t ts IH]; [reflexivity|].
  cbn [well_formed render expand]. rewrite andb_true_iff. intros [Ht Hts].
  specialize (IH Hts). destruct t as [c| |i|i|].
  - apply negb_true_iff in Ht. cbn [render_token expand_token String.append sub].
    rewrite Ht, IH. reflexivity.
  - cbn [render_token expand_token String.append sub].
    change (Ascii.eqb "$" "$") with true. cbv iota.
    change (match_at (String "$" (render ts))) with mo_escaped.
    cbn [convert group_or named braced escaped mo_escaped bind].
    change (String.length (group mo_escaped) - 1)%nat with 1%nat.
    cbn [sub]. rewrite IH. reflexivity.
  - apply andb_true_iff in Ht as [Hi Hr]. apply negb_true_iff in Hr.
    destruct i as [|c i]; [discriminate|].
    cbn [render_token expand_token].
    change (String "$" (String c i) ++ render ts)%string
      with (String "$" (String c i ++ render ts)).
    cbn [sub]. change (Ascii.eqb "$" "$") with true. cbv iota.
    rewrite (match_at_named _ _ _ Hi Hr).
    rewrite (convert_key m _ (String c i)) by reflexivity.
    cbn [bind mo_named group dollar String.append String.length Nat.sub].
    pose proof (sub_skip (convert m) (String c i) (render ts)) as Hs.
    cbn [String.length String.append] in Hs. rewrite Hs, IH. reflexivity.
  - destruct i as [|c i]; [discriminate|].
    cbn [render_token expand_token].
    change (String "$" (String "{" (String c i ++ "}")) ++ render ts)%string
      with (String "$" (String "{" ((String c i ++ "}") ++ render ts))).
    rewrite append_assoc.
    change ("}" ++ render ts)%string with (String "}" (render ts)).
    cbn [sub]. change (Ascii.eqb "$" "$") with true. cbv iota.
    rewrite (match_at_braced _ _ _ Ht).
    rewrite (convert_key m _ (String c i)) by reflexivity.
    cbn [bind mo_braced group dollar String.append String.length Nat.sub].
    pose proof (sub_skip (convert m) (String "{" (String c i ++ "}")) (render ts))
      as Hs.
    cbn [String.length String.append] in Hs. rewrite append_assoc in Hs.
    cbn [String.append sub] in Hs. cbn [sub]. rewrite Hs, IH. reflexivity.
  - cbn [render_token expand_token String.append sub].
    change (Ascii.eqb "$" "$") with true. cbv iota.
    rewrite (match_at_lone _ Ht).
    cbn [convert group_or named braced escaped invalid mo_invalid bind group
         dollar String.length Nat.sub].
    rewrite IH. reflexivity.
Qed.

(** Substitution never raises. *)
Lemma sub_returns (s : string) :
  forall skip, exists r, sub (convert m) skip s = Ok r.
Proof.
  induction s as [|c s IH]; intros skip; [eexists; reflexivity|].
  cbn [sub]. destruct skip as [|k]; [|apply IH].
  destruct (Ascii.eqb c "$").
  - assert (Hc : exists r, convert m (match_at s) = Ok r).
    { unfold match_at.
      destruct s as [|c1 r1]; [eexists; reflexivity|].
      destruct (Ascii.eqb c1 "$"); [eexists; reflexivity|].
      destruct (is_id_start c1) eqn:Hc1.
      - simpl span_id. rewrite (id_start_is_id_char _ Hc1).
        destruct (span_id r1) as [i t]. cbn [fst].
        rewrite (convert_key m _ (String c1 i)) by reflexivity.
        eexists; reflexivity.
      - destruct (Ascii.eqb c1 "{"); [|eexists; reflexivity].
        destruct r1 as [|c2 r2]; [eexists; reflexivity|].
        destruct (is_id_start c2) eqn:Hc2; [|eexists; reflexivity].
        simpl span_id. rewrite (id_start_is_id_char _ Hc2).
        destruct (span_id r2) as [i [|c3 t]]; [eexists; reflexivity|].
        destruct (Ascii.eqb c3 "}"); [|eexists; reflexivity].
        rewrite (convert_key m _ (String c2 i)) by reflexivity.
        eexists; reflexivity. }
    destruct Hc as [r ->]. cbn [bind].
    destruct (IH (String.length (group (match_at s)) - 1)%nat) as [t ->].
    eexists; reflexivity.
  - destruct (IH 0%nat) as [t ->]. eexists; reflexivity.
Qed.

(** A pattern all of whose tokens are kept literally comes out as it
    is. *)
Lemma expand_kept_literally (ts : list token) :
  forallb (kept_literally (lookup_in m)) ts = true ->
  expand (lookup_in m) ts = render ts.
Proof.
  induction ts as [|t ts IH]; [reflexivity|]. cbn [forallb expand render].
  rewrite andb_true_iff. intros [Ht Hts]. rewrite (IH Hts). f_equal.
  destruct t as [c| |i|i|]; try reflexivity; try discriminate;
    cbn [kept_literally expand_token] in *;
    destruct (lookup_in m i); [discriminate | reflexivity | discriminate | reflexivity].
Qed.

End Substitution.

(** ** Display names *)

Lemma expand_ext (f g : string -> option Z) (ts : list token) :
  (forall k, f k = g k) -> expand f ts = expand g ts.
Proof.
  intros H. induction ts as [|t ts IH]; [reflexivity|]. cbn [expand].
  rewrite IH. f_equal. destruct t; cbn [expand_token]; rewrite ?H; reflexivity.
Qed.

Lemma kept_literally_ext (f g : string -> option Z) (ts : list token) :
  (forall k, f k = g k) ->
  forallb (kept_literally f) ts = forallb (kept_literally g) ts.
Proof.
  intros H. induction ts as [|t ts IH]; [reflexivity|]. cbn [forallb].
  rewrite IH. f_equal. destruct t; cbn [kept_literally]; rewrite ?H; reflexivity.
Qed.

Lemma lookup_name_kwargs (p : product) (floors : Z) (key : string) :
  lookup_in (name_kwargs p floors) key
  = placeholder floors (or0_int (p_stops_offset p)) key.
Proof.
  unfold lookup_in, name_kwargs, placeholder. cbn [Template.getitem].
  rewrite (String.eqb_sym "stops"), (String.eqb_sym "floors"), (String.eqb_sym "N").
  destruct (String.eqb key "stops"); [reflexivity|].
  destruct (String.eqb key "floors"); [reflexivity|].
  destruct (String.eqb key "N"); reflexivity.
Qed.

Lemma tokenize_spec (pat : string) :
  render (tokenize pat) = pat /\ well_formed (tokenize pat) = true.
Proof.
  split; [|apply well_formed_tokens_from].
  unfold tokenize. rewrite render_tokens_from. reflexivity.
Qed.

(** The branch of [_get_final_name] for a dynamic name: the name is what
    the substitution returns. *)
Lemma final_name_dynamic (p : product) (floors : Z) (pat : string) :
  p_type p = "dynamic_name" -> p_name_pattern p = Some pat -> pat <> "" ->
  _get_final_name p floors = Template.safe_substitute pat (name_kwargs p floors)
  /\ forall ts, well_formed ts = true -> render ts = pat ->
       _get_final_name p floors
       = Ok (expand (placeholder floors (or0_int (p_stops_offset p))) ts).
Proof.
  intros Ht Hp Hne.
  assert (Hsub : forall ts, well_formed ts = true -> render ts = pat ->
            Template.safe_substitute pat (name_kwargs p floors)
            = Ok (expand (placeholder floors (or0_int (p_stops_offset p))) ts)).
  { intros ts Hw Hr. unfold Template.safe_substitute. rewrite <- Hr.
    rewrite (sub_render _ _ Hw). f_equal. apply expand_ext.
    apply lookup_name_kwargs. }
  assert (Hn : _get_final_name p floors
               = try_except (Template.safe_substitute pat (name_kwargs p floors))
                   (Ok (p_name p))).
  { unfold _get_final_name. rewrite Ht, Hp.
    destruct pat; [congruence | reflexivity]. }
  destruct (tokenize_spec pat) as [Hr Hw].
  split.
  - rewrite Hn, (Hsub _ Hw Hr). reflexivity.
  - intros ts Hw' Hr'. rewrite Hn, (Hsub _ Hw' Hr'). reflexivity.
Qed.

Lemma final_name_static (p : product) (floors : Z) :
  p_type p <> "dynamic_name" \/ p_name_pattern p = None \/ p_name_pattern p = Some "" ->
  _get_final_name p floors = Ok (p_name p).
Proof.
  unfold _get_final_name. intros [H | [H | H]].
  - apply String.eqb_neq in H. rewrite H. reflexivity.
  - rewrite H, andb_false_r. reflexivity.
  - rewrite H, andb_false_r. reflexivity.
Qed.

(** ** Validation *)

Lemma validate_floors_int (n : Z) :
  validate_floors (VNum (PyInt n)) =
    Ok (if n <? 1 then (false, "تعداد توقف باید حداقل ۱ باشد"%string)
        else if 100 <? n then (false, "تعداد توقف نمی‌تواند بیش از ۱۰۰ باشد"%string)
        else (true, EmptyString)).
Proof.
  unfold validate_floors. cbn [isinstance_int negb lt gt bind].
  destruct (n <? 1); [reflexivity|]. destruct (100 <? n); reflexivity.
Qed.

Lemma validate_floors_bool (b : bool) :
  validate_floors (VBool b) =
    Ok (if b then (true, EmptyString)
        else (false, "تعداد توقف باید حداقل ۱ باشد"%string)).
Proof. destruct b; reflexivity. Qed.

(** * Properties of the engine *)

(** ** Line totals and the grand total *)

(** C1, as the code has it: whenever [calculate_invoice] returns, for any
    floor count (so for 1..100), any system type and any catalog, the total
    of every line is [int(quantity * unit_price)], the amount cut off toward
    zero, which is the floor of the amount whenever the amount is not below
    zero; and the total of the invoice is the exact sum of the line
    totals. *)
Theorem line_totals_are_truncations (floors : Z) (system_type : string)
    (db : state) (inv : invoice) :
  fst (calculate_invoice floors system_type db) = Ok inv ->
  Forall total_is_truncation (items inv)
  /\ invoice_total_price inv = sum_totals (items inv).
Proof.
  intros H. destruct (calculate_invoice_items _ _ _ _ H) as [HF Ht].
  split; [|assumption].
  eapply Forall2_right; [|exact HF].
  intros p it. apply total_truncation_of_make_item.
Qed.

Lemma line_totals_are_truncations_witness :
  exists inv,
    fst (calculate_invoice 5 "hydraulic" negative_catalog) = Ok inv
    /\ Forall total_is_truncation (items inv)
    /\ invoice_total_price inv = sum_totals (items inv).
Proof.
  eexists. split.
  - vm_compute. reflexivity.
  - apply (line_totals_are_truncations 5 "hydraulic" negative_catalog).
    vm_compute. reflexivity.
Defined.

(** C1 as stated fails: with 5 floors, system type hydraulic and a catalog
    whose one rule is linear with factor -0.5 and price 7, the amount is
    -17.5 and the line total is -17, while the floor is -18. *)
Lemma line_total_is_not_floor :
  1 <= 5 <= 100
  /\ exists inv,
       fst (calculate_invoice 5 "hydraulic" negative_catalog) = Ok inv
       /\ ~ Forall total_is_floor (items inv).
Proof.
  split; [lia|]. eexists. split.
  - vm_compute. reflexivity.
  - intros HF. inversion HF as [|it its (a & Ha & Hfl) _]; subst.
    vm_compute in Ha. injection Ha as <-.
    vm_compute in Hfl. discriminate.
Qed.

(** C9: every line total is [int] of the amount whatever its sign; for a
    negative amount that is not a whole number [int] is the floor plus one
    ([int(-2.5) = -2], not [-3]); and nothing clamps: a linear rule with
    factor -0.5 at 5 floors has quantity -2.5, line total -17 at price 7,
    and the invoice total is -17. *)
Theorem negative_amounts_truncate_toward_zero :
  (forall floors system_type db inv it,
      fst (calculate_invoice floors system_type db) = Ok inv ->
      In it (items inv) ->
      exists a, line_amount it = Ok a /\ int a = Ok (total_price it))
  /\ (forall m e,
        integral (frac true m e) = false ->
        exists t, int (PyFloat (S754_finite true m e)) = Ok t
                  /\ floor (PyFloat (S754_finite true m e)) = Ok (t - 1)
                  /\ t <= 0)
  /\ int (PyFloat (dyadic (-5) (-1))) = Ok (-2)
  /\ floor (PyFloat (dyadic (-5) (-1))) = Ok (-3)
  /\ exists it,
       fst (calculate_invoice 5 "hydraulic" negative_catalog)
         = Ok {| items := [it]; invoice_total_price := -17 |}
       /\ quantity it = PyFloat (dyadic (-5) (-1))
       /\ negative (quantity it) = true
       /\ total_price it = -17.
Proof.
  split; [|split; [|split; [|split]]].
  - intros floors system_type db inv it H Hin.
    destruct (calculate_invoice_items _ _ _ _ H) as [HF _].
    assert (HA : Forall total_is_truncation (items inv)).
    { eapply Forall2_right; [|exact HF].
      intros p it'. apply total_truncation_of_make_item. }
    rewrite Forall_forall in HA. destruct (HA _ Hin) as (a & Ha & Hi & _).
    exists a. split; assumption.
  - intros m e Hi. destruct (int_floor_negative m e Hi) as [Hf Hle].
    exists (Qtrunc (frac true m e)). simpl. rewrite Hf. repeat split. assumption.
  - vm_compute. reflexivity.
  - vm_compute. reflexivity.
  - eexists. split; [vm_compute; reflexivity|].
    repeat split; vm_compute; reflexivity.
Qed.

Lemma negative_amounts_truncate_toward_zero_witness :
  exists t, int (PyFloat (S754_finite true 5629499534213120 (-51))) = Ok t
            /\ floor (PyFloat (S754_finite true 5629499534213120 (-51))) = Ok (t - 1)
            /\ t <= 0.
Proof.
  apply (proj1 (proj2 negative_amounts_truncate_toward_zero)
           5629499534213120%positive (-51)).
  vm_compute. reflexivity.
Defined.

(** ** Repeated calls *)

(** C8: a call of [calculate_invoice] leaves the catalog as it found it, so
    a second call with the same floor count and system type returns the
    same result, items and total alike; and two catalog states in which the
    query returns the same sequence of rules give the same result. *)
Theorem calculate_invoice_idempotent (floors : Z) (system_type : string) :
  (forall db,
      let (r1, db1) := calculate_invoice floors system_type db in
      let (r2, db2) := calculate_invoice floors system_type db1 in
      r1 = r2 /\ db1 = db /\ db2 = db)
  /\ (forall db db',
        fst (get_products (Some system_type) 1 (Some floors) db)
          = fst (get_products (Some system_type) 1 (Some floors) db') ->
        fst (calculate_invoice floors system_type db)
          = fst (calculate_invoice floors system_type db')).
Proof.
  split.
  - intros db. rewrite calculate_invoice_query. cbv beta iota.
    rewrite calculate_invoice_query. repeat split.
  - intros db db' H. rewrite !calculate_invoice_query. cbn [fst].
    rewrite H. reflexivity.
Qed.

Lemma calculate_invoice_idempotent_witness :
  fst (calculate_invoice 5 "hydraulic" negative_catalog)
  = fst (calculate_invoice 5 "hydraulic"
           {| products := products negative_catalog
                          ++ [example_rule 2 "gearless" "fixed" None None 9] |}).
Proof.
  apply (proj2 (calculate_invoice_idempotent 5 "hydraulic")).
  vm_compute. reflexivity.
Defined.

(** ** The rules the calculator evaluates *)

(** C2: for a system type that is not the empty string (so for hydraulic
    and gearless) and a floor count that SQLite can bind (an int of 64
    bits, so every count the validation admits), the query of the
    calculator returns exactly the rows that are active, whose system is
    the requested one or common, and whose bounds, where set, include the
    floor count; it returns them in table order, each as often as the
    table holds it, and leaves the database alone.  The calculator runs
    its loop on exactly these rules: when the item of each of them can be
    made it returns these items, in that order, with the sum of their
    totals; when the item of one of them cannot be made it raises; and an
    invoice it returns has one item per returned rule.  Beyond 64 bits the
    query, and with it the calculator, raises [OverflowError].  A rule
    with [min_floors = 10] is not applicable at 9 floors and, its other
    conditions met, is applicable at 10. *)
Theorem applicable_rules_are_evaluated (system_type : string) (floors : Z)
    (db : state) :
  system_type <> "" ->
  (fits_int64 floors ->
   exists rules,
     get_products (Some system_type) 1 (Some floors) db = (Ok rules, db)
     /\ rules = filter (applicable_b system_type floors) (products db)
     /\ (forall r, In r rules <-> In r (products db) /\ applicable system_type floors r)
     /\ sublist rules (products db)
     /\ (forall r pre post,
           products db = pre ++ r :: r :: post ->
           applicable system_type floors r ->
           rules = filter (applicable_b system_type floors) pre
                   ++ r :: r :: filter (applicable_b system_type floors) post)
     /\ fst (calculate_invoice floors system_type db) = loop rules floors [] 0
     /\ (forall its,
           Forall2 (fun r it => make_item r floors = Ok it) rules its ->
           fst (calculate_invoice floors system_type db)
           = Ok {| items := its; invoice_total_price := sum_totals its |})
     /\ (forall r,
           In r rules -> (exists e, make_item r floors = Raise e) ->
           exists e, fst (calculate_invoice floors system_type db) = Raise e)
     /\ (forall inv,
           fst (calculate_invoice floors system_type db) = Ok inv ->
           Forall2 (fun r it => make_item r floors = Ok it) rules (items inv)
           /\ map product_id (items inv) = map p_id rules))
  /\ (~ fits_int64 floors ->
      get_products (Some system_type) 1 (Some floors) db = (Raise OverflowError, db)
      /\ fst (calculate_invoice floors system_type db) = Raise OverflowError)
  /\ (forall r, p_min_floors r = Some 10 -> ~ applicable system_type 9 r)
  /\ (forall r, p_min_floors r = Some 10 -> p_is_active r = Some 1 ->
                 p_system r = system_type \/ p_system r = "common" ->
                 (forall m, p_max_floors r = Some m -> 10 <= m) ->
                 applicable system_type 10 r).
Proof.
  intros Hne. split; [|split; [|split]].
  - intros Hf.
    exists (filter (applicable_b system_type floors) (products db)).
    assert (Hcalc : fst (calculate_invoice floors system_type db)
                    = loop (filter (applicable_b system_type floors) (products db))
                        floors [] 0).
    { rewrite (calculate_invoice_unfold _ _ _ Hf).
      rewrite (select_truthy_system _ _ _ Hne). reflexivity. }
    split; [|split; [|split; [|split; [|split; [|split; [|split; [|split]]]]]]].
    + rewrite get_products_fits;
        [|apply fits_int64_small; lia | intros n [= <-]; exact Hf].
      rewrite (select_truthy_system _ _ _ Hne). reflexivity.
    + reflexivity.
    + intros r. rewrite filter_In, applicable_b_spec. tauto.
    + apply filter_sublist.
    + intros r pre post Hdb Hr. apply applicable_b_spec in Hr.
      rewrite Hdb, filter_app. simpl. rewrite Hr. reflexivity.
    + exact Hcalc.
    + intros its HF. rewrite Hcalc. apply (loop_complete floors _ its [] 0 HF).
    + intros r Hin [e He]. rewrite Hcalc. apply loop_raises.
      exists r, e. split; assumption.
    + intros inv H. destruct (calculate_invoice_items _ _ _ _ H) as [HF _].
      rewrite (select_truthy_system _ _ _ Hne) in HF. split; [assumption|].
      clear H Hcalc. induction HF as [|r it rs its Hit _ IH]; [reflexivity|].
      simpl. rewrite IH.
      destruct (make_item_fields _ _ _ Hit) as (_ & _ & -> & _). reflexivity.
  - intros Hf. split.
    + apply get_products_overflows. right. exists floors.
      split; [reflexivity | exact Hf].
    + rewrite (calculate_invoice_overflows _ _ _ Hf). reflexivity.
  - intros r Hmin (_ & _ & Hlo & _). specialize (Hlo _ Hmin). lia.
  - intros r Hmin Hact Hsys Hmax. repeat split; try assumption.
    intros m. rewrite Hmin. intros [= <-]. lia.
Qed.

Lemma applicable_rules_are_evaluated_witness :
  exists rules its,
    get_products (Some "hydraulic") 1 (Some 9) mixed_catalog = (Ok rules, mixed_catalog)
    /\ map p_id rules = [1; 3; 3]
    /\ fst (calculate_invoice 9 "hydraulic" mixed_catalog)
       = Ok {| items := its; invoice_total_price := sum_totals its |}
    /\ map product_id its = [1; 3; 3]
    /\ map total_price its = [160; 410; 410].
Proof.
  destruct (proj1 (applicable_rules_are_evaluated "hydraulic" 9 mixed_catalog
                     ltac:(discriminate))
              ltac:(unfold fits_int64, max_int64; lia))
    as (rules & Hq & Hr & _ & _ & _ & _ & Hits & _).
  exists rules.
  exists (map (fun r => match make_item r 9 with
                        | Ok it => it
                        | Raise _ => {| product_id := 0; name := ""; unit := "";
                                        quantity := PyInt 0; unit_price := 0;
                                        total_price := 0 |}
                        end) rules).
  let l := eval vm_compute in
             (filter (applicable_b "hydraulic" 9) (products mixed_catalog)) in
  assert (Hrules : rules = l) by (rewrite Hr; vm_compute; reflexivity).
  split; [exact Hq|]. split; [rewrite Hr; vm_compute; reflexivity|].
  split; [|split; rewrite Hr; vm_compute; reflexivity].
  apply Hits. rewrite Hrules. cbn [map].
  repeat (constructor; [vm_compute; reflexivity|]). constructor.
Defined.

(** C10: when the system type passed to [get_products] is [None] or the
    empty string, the query has no condition on the system: with
    parameters that SQLite can bind (ints of 64 bits) it returns, in table
    order, every row whose [is_active] is the requested value and whose
    bounds, where a floor count is given and a bound is set, include the
    floor count, whatever the system of the row; so rules of the systems
    hydraulic, gearless and common are returned alike.  With a parameter
    beyond 64 bits the query raises [OverflowError]. *)
Theorem falsy_system_type_selects_every_system (system_type : option string)
    (is_active : Z) (floors : option Z) (db : state) :
  system_type = None \/ system_type = Some "" ->
  (fits_int64 is_active -> (forall n, floors = Some n -> fits_int64 n) ->
   exists rules,
     get_products system_type is_active floors db = (Ok rules, db)
     /\ rules = filter (fun r => is_active_b is_active r
                               && match floors with
                                  | Some n => floors_in_range n r
                                  | None => true
                                  end) (products db)
     /\ (forall r, In r rules <->
                    In r (products db)
                    /\ p_is_active r = Some is_active
                    /\ (forall n, floors = Some n ->
                          (forall m, p_min_floors r = Some m -> m <= n)
                          /\ (forall m, p_max_floors r = Some m -> n <= m)))
     /\ (forall r n, floors = Some n -> is_active = 1 ->
                      In r (products db) -> applicable (p_system r) n r ->
                      In r rules))
  /\ (~ fits_int64 is_active \/ (exists n, floors = Some n /\ ~ fits_int64 n) ->
      get_products system_type is_active floors db = (Raise OverflowError, db)).
Proof.
  intros Hst. split; [|apply get_products_overflows].
  intros Hfa Hff.
  assert (Hsel : select (where_clause system_type is_active floors) (products db)
                 = filter (fun r => is_active_b is_active r
                              && match floors with
                                 | Some n => floors_in_range n r
                                 | None => true
                                 end) (products db)).
  { unfold select. apply filter_ext. intros r.
    destruct Hst as [-> | ->]; destruct floors as [n|]; simpl;
      unfold is_active_eq, is_active_b, floors_in_range, min_floors_ok, max_floors_ok;
      rewrite ?andb_true_r; reflexivity. }
  eexists. split; [|split; [|split]].
  - rewrite (get_products_fits _ _ _ _ Hfa Hff), Hsel. reflexivity.
  - reflexivity.
  - intros r. rewrite filter_In, andb_true_iff, is_active_b_spec.
    destruct floors as [n|].
    + rewrite floors_in_range_spec. split.
      * intros (Hin & Ha & Hr). split; [assumption|]. split; [assumption|].
        intros n' [= <-]. exact Hr.
      * intros (Hin & Ha & Hr). split; [assumption|]. split; [assumption|].
        exact (Hr n eq_refl).
    + split.
      * intros (Hin & Ha & _). split; [assumption|]. split; [assumption|].
        discriminate.
      * intros (Hin & Ha & _). repeat split; assumption.
  - intros r n -> -> Hin (Ha & _ & Hlo & Hhi).
    rewrite filter_In, andb_true_iff, is_active_b_spec, floors_in_range_spec.
    repeat split; assumption.
Qed.

Lemma falsy_system_type_selects_every_system_witness :
  exists rules,
    get_products (Some "") 1 (Some 9) mixed_catalog = (Ok rules, mixed_catalog)
    /\ map p_system rules = ["hydraulic"; "gearless"; "common"; "common"]%string.
Proof.
  destruct (proj1 (falsy_system_type_selects_every_system (Some "") 1 (Some 9)
                     mixed_catalog ltac:(right; reflexivity))
              ltac:(unfold fits_int64, max_int64; lia)
              ltac:(intros n [= <-]; unfold fits_int64, max_int64; lia))
    as (rules & Hq & Hr & _).
  exists rules. split; [exact Hq|]. rewrite Hr. vm_compute. reflexivity.
Defined.

(** ** Quantities *)

(** C3: for a floor count [floors] with float value [n] (every int that
    [float] accepts, so every count in 1..100): a linear rule has the
    quantity [factor * floors + base_add], and factor 4, base_add 5 at 5
    floors give 25; a dynamic_name rule has the same quantity when its
    factor is above zero and 1.0 otherwise; an unset factor or base_add
    counts as 0, and "the same" is as numbers (the int 0 that the code
    takes for an unset or zero column is the float zero of the formula).
    A rule of any other kind except fixed has quantity 1.0 at every floor
    count, without an error. *)
Theorem quantity_of_linear_dynamic_and_unknown_rules (p : product)
    (floors : Z) (n : float) :
  float_of_int floors = Ok n ->
  (p_type p = "linear" ->
     exists q, _calculate_quantity p floors = Ok q
       /\ same_number q (PyFloat (linear_formula (p_factor p) (p_base_add p) n)))
  /\ (p_type p = "linear" -> p_factor p = Some (dyadic 4 0) ->
       p_base_add p = Some (dyadic 5 0) ->
       _calculate_quantity p 5 = Ok (PyFloat (dyadic 25 0)))
  /\ (p_type p = "dynamic_name" ->
       exists q, _calculate_quantity p floors = Ok q
         /\ if fltb fzero (or_zero (p_factor p))
            then same_number q (PyFloat (linear_formula (p_factor p) (p_base_add p) n))
            else q = PyFloat fone)
  /\ (p_type p <> "fixed" -> p_type p <> "linear" -> p_type p <> "dynamic_name" ->
       forall floors', _calculate_quantity p floors' = Ok (PyFloat fone)).
Proof.
  intros Hn. split; [|split; [|split]].
  - intros Ht. unfold _calculate_quantity. rewrite Ht.
    change (String.eqb "linear" "fixed") with false.
    change (String.eqb "linear" "linear") with true. cbv iota.
    apply linear_branch. assumption.
  - intros Ht Hf Hb. unfold _calculate_quantity. rewrite Ht, Hf, Hb.
    vm_compute. reflexivity.
  - intros Ht. unfold _calculate_quantity. rewrite Ht.
    change (String.eqb "dynamic_name" "fixed") with false.
    change (String.eqb "dynamic_name" "linear") with false.
    change (String.eqb "dynamic_name" "dynamic_name") with true. cbv iota.
    rewrite gt0_or0. destruct (fltb fzero (or_zero (p_factor p))).
    + apply linear_branch. assumption.
    + eexists. split; reflexivity.
  - intros H1 H2 H3 floors'. unfold _calculate_quantity.
    apply String.eqb_neq in H1, H2, H3. rewrite H1, H2, H3. reflexivity.
Qed.

Lemma quantity_of_linear_dynamic_and_unknown_rules_witness :
  exists q,
    _calculate_quantity
      (example_rule 1 "common" "linear" (Some (dyadic 4 0)) None 10) 7 = Ok q
    /\ same_number q (PyFloat (dyadic 28 0)).
Proof.
  apply (proj1 (quantity_of_linear_dynamic_and_unknown_rules
                  (example_rule 1 "common" "linear" (Some (dyadic 4 0)) None 10)
                  7 (dyadic 7 0) eq_refl)).
  reflexivity.
Defined.

(** C4: a fixed rule has the quantity [factor] when its factor is above
    zero and 1.0 otherwise (an unset factor counts as 0), at every floor
    count: factor 0 gives 1.0 and factor 80 gives 80. *)
Theorem quantity_of_fixed_rules (p : product) (floors : Z) :
  p_type p = "fixed" ->
  _calculate_quantity p floors =
    Ok (PyFloat (if fltb fzero (or_zero (p_factor p))
                   then or_zero (p_factor p) else fone))
  /\ (p_factor p = Some (dyadic 0 0) -> _calculate_quantity p floors = Ok (PyFloat fone))
  /\ (p_factor p = Some (dyadic 80 0) ->
       _calculate_quantity p floors = Ok (PyFloat (dyadic 80 0))).
Proof.
  intros Ht.
  assert (H : _calculate_quantity p floors =
              Ok (PyFloat (if fltb fzero (or_zero (p_factor p))
                             then or_zero (p_factor p) else fone))).
  { unfold _calculate_quantity. rewrite Ht.
    change (String.eqb "fixed" "fixed") with true. cbv iota.
    rewrite gt0_or0.
    destruct (or0_cases (p_factor p)) as [[-> [s ->]] | [-> _]].
    - reflexivity.
    - destruct (fltb fzero (or_zero (p_factor p))); reflexivity. }
  split; [exact H|]. split; intros Hf; rewrite H, Hf; reflexivity.
Qed.

Lemma quantity_of_fixed_rules_witness :
  _calculate_quantity
    (example_rule 1 "hydraulic" "fixed" (Some (dyadic 80 0)) None 2) 37
  = Ok (PyFloat (dyadic 80 0)).
Proof.
  apply (proj2 (proj2 (quantity_of_fixed_rules
                  (example_rule 1 "hydraulic" "fixed" (Some (dyadic 80 0)) None 2)
                  37 eq_refl))).
  reflexivity.
Defined.

(** ** Display names *)

(** C5: for a dynamic_name rule with a pattern that is not empty, the
    display name is the pattern, read as its tokens, with every
    placeholder [stops] replaced by [floors + stops_offset] and every
    [floors] and [N] by [floors]; a placeholder with another key stays as
    it is written, as does every other character (two delimiters in a row
    stand for one).  Every pattern has such a reading, and any well-formed
    reading gives the same name.  The pattern [X ${stops} stops] with
    offset 1 at 5 floors gives [X 6 stops].  A rule of another kind, or
    without a pattern, or with the empty pattern, has its base name. *)
Theorem display_name_of_a_rule (p : product) (floors : Z) :
  (forall pat,
      p_type p = "dynamic_name" -> p_name_pattern p = Some pat -> pat <> "" ->
      let value := placeholder floors (or0_int (p_stops_offset p)) in
      _get_final_name p floors = Ok (expand value (tokenize pat))
      /\ render (tokenize pat) = pat
      /\ well_formed (tokenize pat) = true
      /\ (forall ts, well_formed ts = true -> render ts = pat ->
            _get_final_name p floors = Ok (expand value ts))
      /\ value "stops" = Some (floors + or0_int (p_stops_offset p))
      /\ value "floors" = Some floors
      /\ value "N" = Some floors
      /\ (forall key, key <> "stops" -> key <> "floors" -> key <> "N" ->
            expand_token value (TNamed key) = String "$" key
            /\ expand_token value (TBraced key) = ("${" ++ key ++ "}")%string))
  /\ (p_type p = "dynamic_name" -> p_name_pattern p = Some "X ${stops} stops" ->
       p_stops_offset p = Some 1 -> _get_final_name p 5 = Ok "X 6 stops")
  /\ (p_type p <> "dynamic_name" \/ p_name_pattern p = None
         \/ p_name_pattern p = Some "" ->
       _get_final_name p floors = Ok (p_name p)).
Proof.
  split; [|split].
  - intros pat Ht Hp Hne value.
    destruct (final_name_dynamic p floors pat Ht Hp Hne) as [_ Hts].
    destruct (tokenize_spec pat) as [Hr Hw].
    split; [apply Hts; assumption|]. split; [exact Hr|]. split; [exact Hw|].
    split; [exact Hts|]. repeat split.
    + unfold expand_token, value, placeholder.
      apply String.eqb_neq in H, H0, H1. rewrite H, H0, H1. reflexivity.
    + unfold expand_token, value, placeholder.
      apply String.eqb_neq in H, H0, H1. rewrite H, H0, H1. reflexivity.
  - intros Ht Hp Ho. unfold _get_final_name. rewrite Ht, Hp, Ho.
    vm_compute. reflexivity.
  - apply final_name_static.
Qed.

Lemma display_name_of_a_rule_witness :
  _get_final_name (pattern_rule "$floors of ${N}: ${stops}$$ $Stops ${n}") 12
  = Ok "12 of 12: 13$ $Stops ${n}".
Proof.
  destruct (proj1 (display_name_of_a_rule
                     (pattern_rule "$floors of ${N}: ${stops}$$ $Stops ${n}") 12)
              "$floors of ${N}: ${stops}$$ $Stops ${n}" eq_refl eq_refl)
    as [H _]; [discriminate|].
  rewrite H. vm_compute. reflexivity.
Defined.

(** C6, as the code has it: name evaluation never raises, and a pattern
    that refers to an undefined or mistyped key does not give the base
    name: for a dynamic_name rule with a pattern that is not empty the
    display name is the pattern, read as its tokens, with every
    placeholder [stops], [floors] and [N] replaced by its value and every
    placeholder with another key left as it is written.  Every pattern has
    such a reading, and any well-formed reading gives the same name.  So a
    pattern in which every placeholder names an undefined key (and no two
    delimiters stand in a row) comes out as it is written.  A rule of
    another kind has its base name, whatever its pattern. *)
Theorem name_evaluation_never_raises (p : product) (floors : Z) :
  (exists s, _get_final_name p floors = Ok s)
  /\ (forall pat,
        p_type p = "dynamic_name" -> p_name_pattern p = Some pat -> pat <> "" ->
        let value := placeholder floors (or0_int (p_stops_offset p)) in
        _get_final_name p floors = Ok (expand value (tokenize pat))
        /\ render (tokenize pat) = pat
        /\ well_formed (tokenize pat) = true
        /\ (forall ts, well_formed ts = true -> render ts = pat ->
              _get_final_name p floors = Ok (expand value ts))
        /\ (forall key, key <> "stops" -> key <> "floors" -> key <> "N" ->
              value key = None
              /\ expand_token value (TNamed key) = String "$" key
              /\ expand_token value (TBraced key) = ("${" ++ key ++ "}")%string)
        /\ (forall key, key = "stops" \/ key = "floors" \/ key = "N" ->
              exists v,
                value key = Some v
                /\ v = (if String.eqb key "stops"
                        then floors + or0_int (p_stops_offset p) else floors)
                /\ expand_token value (TNamed key) = Py.str v
                /\ expand_token value (TBraced key) = Py.str v)
        /\ (forall c, expand_token value (TChar c) = String c EmptyString)
        /\ expand_token value TEscaped = "$"
        /\ expand_token value TLone = "$"
        /\ (forallb (kept_literally value) (tokenize pat) = true ->
            _get_final_name p floors = Ok pat))
  /\ (p_type p <> "dynamic_name" -> _get_final_name p floors = Ok (p_name p)).
Proof.
  split; [|split; [|intros H; apply final_name_static; left; exact H]].
  - unfold _get_final_name.
    destruct (String.eqb (p_type p) "dynamic_name" && str_truthy (p_name_pattern p));
      [|eexists; reflexivity].
    destruct (p_name_pattern p) as [pat|]; [|eexists; reflexivity].
    destruct (sub_returns [("stops", floors + or0_int (p_stops_offset p));
                           ("floors", floors); ("N", floors)] pat 0%nat) as [s Hs].
    unfold Template.safe_substitute. rewrite Hs. eexists; reflexivity.
  - intros pat Ht Hp Hne value.
    destruct (final_name_dynamic p floors pat Ht Hp Hne) as [_ Hts].
    destruct (tokenize_spec pat) as [Hr Hw].
    split; [apply Hts; assumption|]. split; [exact Hr|]. split; [exact Hw|].
    split; [exact Hts|].
    split; [|split; [|split; [|split; [|split]]]].
    + intros key H1 H2 H3. unfold expand_token, value, placeholder.
      apply String.eqb_neq in H1, H2, H3. rewrite H1, H2, H3.
      repeat split.
    + intros key [-> | [-> | ->]]; eexists; repeat split.
    + reflexivity.
    + reflexivity.
    + reflexivity.
    + intros Hk. rewrite (Hts _ Hw Hr).
      rewrite (expand_ext _ (lookup_in (name_kwargs p floors)))
        by (intros k; symmetry; apply lookup_name_kwargs).
      rewrite expand_kept_literally, Hr; [reflexivity|].
      rewrite <- Hk. apply kept_literally_ext. apply lookup_name_kwargs.
Qed.

Lemma name_evaluation_never_raises_witness :
  _get_final_name (pattern_rule "X ${stopz} of $floors $Stops") 5
  = Ok "X ${stopz} of 5 $Stops"
  /\ _get_final_name (pattern_rule "X ${stopz} $floor") 5 = Ok "X ${stopz} $floor".
Proof.
  split.
  - destruct (proj1 (proj2 (name_evaluation_never_raises
                              (pattern_rule "X ${stopz} of $floors $Stops") 5))
                "X ${stopz} of $floors $Stops" eq_refl eq_refl)
      as [H _]; [discriminate|].
    rewrite H. vm_compute. reflexivity.
  - destruct (proj1 (proj2 (name_evaluation_never_raises
                              (pattern_rule "X ${stopz} $floor") 5))
                "X ${stopz} $floor" eq_refl eq_refl)
      as (_ & _ & _ & _ & _ & _ & _ & _ & _ & H); [discriminate|].
    apply H. vm_compute. reflexivity.
Defined.

(** C6 as stated fails: the pattern [X ${stopz} stops], with the key
    [stops] mistyped, in a dynamic_name rule named Cabin gives the name
    [X ${stopz} stops], not the base name. *)
Lemma mistyped_key_is_not_the_base_name :
  _get_final_name (pattern_rule "X ${stopz} stops") 5 = Ok "X ${stopz} stops"
  /\ _get_final_name (pattern_rule "X ${stopz} stops") 5
     <> Ok (p_name (pattern_rule "X ${stopz} stops")).
Proof.
  split; [vm_compute; reflexivity | vm_compute; discriminate].
Qed.

(** ** Validation of the floor count *)

(** C7: [validate_floors] always returns, never raises.  It rejects, with
    a reason that is not empty, exactly the objects that are no instance of
    [int] and the ints below 1 or above 100, and accepts, with the empty
    reason, every int in 1..100: 0, 101, a float, a string and [None] are
    rejected, 1 and 100 accepted.  In the conversation a rejected count is
    answered with the reason and nothing else happens: no calculation, no
    change of the user data, and the count is asked for again; a text that
    is no int is asked for again likewise. *)
Theorem floors_are_validated (v : value) :
  (exists is_valid msg,
      validate_floors v = Ok (is_valid, msg)
      /\ (is_valid = false <->
           as_int v = None \/ exists n, as_int v = Some n /\ (n < 1 \/ 100 < n))
      /\ (is_valid = false -> msg <> EmptyString)
      /\ (is_valid = true -> msg = EmptyString))
  /\ (forall n, 1 <= n <= 100 -> validate_floors (VNum (PyInt n)) = Ok (true, EmptyString))
  /\ (exists m0 m101 mf ms mn,
        validate_floors (VNum (PyInt 0)) = Ok (false, m0)
        /\ validate_floors (VNum (PyInt 101)) = Ok (false, m101)
        /\ validate_floors (VNum (PyFloat (dyadic 5 0))) = Ok (false, mf)
        /\ validate_floors (VStr "5") = Ok (false, ms)
        /\ validate_floors VNone = Ok (false, mn))
  /\ validate_floors (VNum (PyInt 1)) = Ok (true, EmptyString)
  /\ validate_floors (VNum (PyInt 100)) = Ok (true, EmptyString)
  /\ (forall int_of_str text ud db n msg,
        int_of_str text = Ok n ->
        validate_floors (VNum (PyInt n)) = Ok (false, msg) ->
        BotHandlers.floors int_of_str text ud db
        = Ok (BotHandlers.FLOORS, ud, [BotHandlers.EvReply (BotHandlers.Rejected msg)]))
  /\ (forall int_of_str text ud db,
        int_of_str text = Raise ValueError ->
        BotHandlers.floors int_of_str text ud db
        = Ok (BotHandlers.FLOORS, ud, [BotHandlers.EvReply BotHandlers.AskForNumber])).
Proof.
  split; [|split; [|split; [|split; [|split; [|split]]]]].
  - destruct v as [|b|[n|x]|s].
    + eexists _, _. split; [reflexivity|]. simpl. repeat split; try discriminate.
      left. reflexivity.
    + rewrite validate_floors_bool. destruct b; eexists _, _; (split; [reflexivity|]);
        simpl; repeat split; try discriminate; try congruence.
      * intros [H | (n & [= <-] & Hn)]; [discriminate | lia].
      * intros _. right. exists 0. split; [reflexivity | lia].
    + rewrite validate_floors_int. simpl as_int.
      destruct (n <? 1) eqn:H1; [|destruct (100 <? n) eqn:H2];
        eexists _, _; (split; [reflexivity|]); repeat split;
        try discriminate; try congruence.
      * intros _. right. exists n. apply Z.ltb_lt in H1. split; [reflexivity | lia].
      * intros _. right. exists n. apply Z.ltb_lt in H2. split; [reflexivity | lia].
      * apply Z.ltb_ge in H1, H2.
        intros [H | (n' & [= <-] & Hn)]; [discriminate | lia].
    + eexists _, _. split; [reflexivity|]. simpl. repeat split; try discriminate.
      left. reflexivity.
    + eexists _, _. split; [reflexivity|]. simpl. repeat split; try discriminate.
      left. reflexivity.
  - intros n Hn. rewrite validate_floors_int.
    destruct (n <? 1) eqn:H1; [apply Z.ltb_lt in H1; lia|].
    destruct (100 <? n) eqn:H2; [apply Z.ltb_lt in H2; lia|]. reflexivity.
  - eexists _, _, _, _, _. repeat split; reflexivity.
  - reflexivity.
  - reflexivity.
  - intros int_of_str text ud db n msg Hi Hv. unfold BotHandlers.floors.
    rewrite Hi, Hv. reflexivity.
  - intros int_of_str text ud db Hi. unfold BotHandlers.floors.
    rewrite Hi. reflexivity.
Qed.

Lemma floors_are_validated_witness :
  BotHandlers.floors (fun _ => Ok 101) "101" chosen_hydraulic mixed_catalog
  = Ok (BotHandlers.FLOORS, chosen_hydraulic,
        [BotHandlers.EvReply
           (BotHandlers.Rejected "تعداد توقف نمی‌تواند بیش از ۱۰۰ باشد")]).
Proof.
  apply (proj1 (proj2 (proj2 (proj2 (proj2 (proj2 (floors_are_validated VNone))))))
           (fun _ => Ok 101) "101"%string chosen_hydraulic mixed_catalog 101);
    reflexivity.
Defined.

(** * Properties of the rest of the code *)

(** ** Prices with thousands separators *)

Lemma digits_of_uint (d : Decimal.uint) :
  all_digits (NilEmpty.string_of_uint d) = true.
Proof. induction d; simpl; try assumption; reflexivity. Qed.

Lemma digits_of_uint_nil_zero (d : Decimal.uint) :
  all_digits (NilZero.string_of_uint d) = true
  /\ NilZero.string_of_uint d <> EmptyString.
Proof.
  destruct d; simpl; split; try discriminate; try reflexivity; apply digits_of_uint.
Qed.

Lemma remove_commas (s : string) :
  all_digits s = true -> Helpers.remove "," (Helpers.commas s) = s.
Proof.
  induction s as [|c s IH]; [reflexivity|].
  cbn [all_digits Helpers.commas]. rewrite andb_true_iff. intros [Hc Hs].
  assert (Hne : Ascii.eqb c "," = false).
  { destruct (Ascii.eqb_spec c ",") as [->|]; [discriminate | reflexivity]. }
  destruct ((0 <? String.length s)%nat && (String.length s mod 3 =? 0)%nat);
    cbn [Helpers.remove]; rewrite Hne; cbn [Ascii.eqb]; rewrite ?Ascii.eqb_refl, IH by assumption;
    reflexivity.
Qed.

Lemma split_cons_other (c a : ascii) (s : string) :
  Ascii.eqb a c = false ->
  exists g gs, Helpers.split c s = g :: gs
               /\ Helpers.split c (String a s) = String a g :: gs.
Proof.
  intros Ha. cbn [Helpers.split]. rewrite Ha.
  assert (H : exists g gs, Helpers.split c s = g :: gs).
  { destruct s as [|b s]; cbn [Helpers.split]; [eexists _, _; reflexivity|].
    destruct (Ascii.eqb b c); [eexists _, _; reflexivity|].
    destruct (Helpers.split c s); eexists _, _; reflexivity. }
  destruct H as (g & gs & H). exists g, gs. rewrite H. split; reflexivity.
Qed.

Lemma digit_is_no_comma (c : ascii) :
  Template.in_range "0" "9" c = true -> Ascii.eqb c "," = false.
Proof.
  intros H. destruct (Ascii.eqb_spec c ",") as [->|]; [discriminate | reflexivity].
Qed.

(** The groups of the digits of a number. *)
Lemma commas_groups (s : string) :
  all_digits s = true -> s <> EmptyString ->
  exists g gs,
    Helpers.split "," (Helpers.commas s) = g :: gs
    /\ String.length g = S ((String.length s - 1) mod 3)
    /\ Forall (fun x => String.length x = 3%nat) gs
    /\ Forall (fun x => all_digits x = true) (g :: gs)
    /\ List.length gs = ((String.length s - 1) / 3)%nat.
Proof.
  induction s as [|c s IH]; [congruence|]. intros Hd _.
  cbn [all_digits] in Hd. apply andb_true_iff in Hd as [Hc Hs].
  pose proof (digit_is_no_comma _ Hc) as Hne.
  destruct s as [|c' s'].
  - exists (String c EmptyString), []. cbn [Helpers.commas String.length].
    cbn [Helpers.split Nat.ltb Nat.leb andb]. rewrite Hne.
    split; [reflexivity|]. split; [reflexivity|]. split; [constructor|].
    split; [|reflexivity].
    constructor; [cbn [all_digits]; rewrite Hc; reflexivity | constructor].
  - destruct (IH Hs) as (g & gs & Hsp & Hg & Hgs & Hdg & Hlen); [discriminate|].
    set (r := String c' s') in *.
    assert (Hr : (0 < String.length r)%nat) by (subst r; simpl; lia).
    cbn [Helpers.commas].
    replace (0 <? String.length r)%nat with true by (symmetry; apply Nat.ltb_lt; exact Hr).
    cbn [andb String.length].
    replace (S (String.length r) - 1)%nat with (String.length r) by lia.
    destruct (String.length r mod 3 =? 0)%nat eqn:Hm.
    + apply Nat.eqb_eq in Hm.
      exists (String c EmptyString), (g :: gs).
      cbn [Helpers.split]. rewrite Hne. cbn [Helpers.split Ascii.eqb].
      change (Ascii.eqb "," ",") with true. cbv iota. rewrite Hsp.
      assert (Hg3 : String.length g = 3%nat).
      { rewrite Hg. f_equal.
        pose proof (Nat.div_mod_eq (String.length r) 3).
        pose proof (Nat.div_mod_eq (String.length r - 1) 3).
        pose proof (Nat.mod_upper_bound (String.length r - 1) 3).
        lia. }
      repeat split.
      * rewrite Hm. reflexivity.
      * constructor; assumption.
      * constructor; [cbn [all_digits]; rewrite Hc; reflexivity | assumption].
      * cbn [List.length]. rewrite Hlen.
        pose proof (Nat.div_mod_eq (String.length r) 3).
        pose proof (Nat.div_mod_eq (String.length r - 1) 3).
        pose proof (Nat.mod_upper_bound (String.length r - 1) 3).
        lia.
    + apply Nat.eqb_neq in Hm.
      exists (String c g), gs.
      cbn [Helpers.split]. rewrite Hne, Hsp.
      pose proof (Nat.div_mod_eq (String.length r) 3) as E1.
      pose proof (Nat.div_mod_eq (String.length r - 1) 3) as E2.
      pose proof (Nat.mod_upper_bound (String.length r - 1) 3) as B2.
      pose proof (Nat.mod_upper_bound (String.length r) 3) as B1.
      repeat split.
      * cbn [String.length]. rewrite Hg. lia.
      * assumption.
      * inversion Hdg; subst. constructor; [|assumption].
        cbn [all_digits]. rewrite Hc. assumption.
      * rewrite Hlen. lia.
Qed.

(** X1: [format_price] only adds commas to the decimal digits of the
    price: without its commas the result is [str(price)], and the sign of a
    negative price comes first. *)
Theorem format_price_without_commas (price : Z) :
  Helpers.remove "," (Helpers.format_price price) = Py.str price
  /\ (price < 0 ->
      Helpers.format_price price = String "-" (Helpers.format_price (- price))).
Proof.
  unfold Helpers.format_price, Helpers.format_int, Py.str. split.
  - destruct (Z.to_int price) as [d|d]; cbn [NilZero.string_of_int Helpers.remove].
    + apply remove_commas, digits_of_uint_nil_zero.
    + change (Ascii.eqb "-" ",") with false. cbv iota.
      f_equal. apply remove_commas, digits_of_uint_nil_zero.
  - destruct price as [|p|p]; try lia. intros _. reflexivity.
Qed.

Lemma format_price_without_commas_witness :
  Helpers.format_price (-1234567) = String "-" (Helpers.format_price 1234567).
Proof.
  apply (proj2 (format_price_without_commas (-1234567))). lia.
Defined.

(** X2: the digits of a price that is not negative are cut at the commas
    into a first group of one to three digits and groups of exactly three
    digits, as many as fit after the first digit. *)
Theorem format_price_groups (price : Z) :
  0 <= price ->
  exists g gs,
    Helpers.split "," (Helpers.format_price price) = g :: gs
    /\ (1 <= String.length g <= 3)%nat
    /\ Forall (fun x => String.length x = 3%nat) gs
    /\ Forall (fun x => all_digits x = true) (g :: gs)
    /\ List.length gs = ((String.length (Py.str price) - 1) / 3)%nat.
Proof.
  intros Hp. unfold Helpers.format_price, Helpers.format_int, Py.str.
  assert (Hpos : exists d, Z.to_int price = Decimal.Pos d).
  { destruct price as [|p|p]; [eexists; reflexivity | eexists; reflexivity | lia]. }
  destruct Hpos as [d ->]. cbn [NilZero.string_of_int].
  destruct (digits_of_uint_nil_zero d) as [Hd Hne].
  destruct (commas_groups _ Hd Hne) as (g & gs & Hsp & Hg & Hgs & Hdg & Hlen).
  exists g, gs. repeat split; try assumption.
  - rewrite Hg. lia.
  - rewrite Hg. pose proof (Nat.mod_upper_bound (String.length (NilZero.string_of_uint d) - 1) 3). lia.
Qed.

Lemma format_price_groups_witness :
  exists g gs,
    Helpers.split "," (Helpers.format_price 15000000) = g :: gs
    /\ (1 <= String.length g <= 3)%nat
    /\ Forall (fun x => String.length x = 3%nat) gs
    /\ Forall (fun x => all_digits x = true) (g :: gs)
    /\ List.length gs = ((String.length (Py.str 15000000) - 1) / 3)%nat.
Proof.
  apply (format_price_groups 15000000). lia.
Defined.

(** ** System types *)

(** X3: [validate_system_type] accepts hydraulic and gearless and nothing
    else (not common, not the empty string) and gives a reason with every
    rejection; the step [system_type] of the conversation moves on to the
    floor count only with a system type that passes this validation, and
    otherwise leaves the user data as it is and asks again. *)
Theorem system_types_are_validated (st : string) :
  (fst (Helpers.validate_system_type st) = true <-> st = "hydraulic" \/ st = "gearless")
  /\ (fst (Helpers.validate_system_type st) = false ->
      snd (Helpers.validate_system_type st) <> EmptyString)
  /\ fst (Helpers.validate_system_type "common") = false
  /\ fst (Helpers.validate_system_type "") = false
  /\ (forall text ud,
        let '(next, ud', _) := Conversation.system_type_step text ud in
        (next = Conversation.FLOORS
         /\ exists s, Conversation.system_type ud' = Some s
                      /\ fst (Helpers.validate_system_type s) = true)
        \/ (next = Conversation.SYSTEM_TYPE /\ ud' = ud)).
Proof.
  split; [|split; [|split; [|split]]].
  - unfold Helpers.validate_system_type, Helpers.valid_systems. cbn [existsb].
    rewrite orb_false_r.
    destruct (String.eqb_spec st "hydraulic") as [->|H1]; [split; auto|].
    destruct (String.eqb_spec st "gearless") as [->|H2]; [split; auto|].
    cbn. split; [discriminate | intros [?|?]; congruence].
  - unfold Helpers.validate_system_type.
    destruct (negb _); cbn; [discriminate | congruence].
  - reflexivity.
  - reflexivity.
  - intros text ud. unfold Conversation.system_type_step, Conversation.system_map.
    destruct (String.eqb text _); [left; split; [reflexivity | eexists; split; reflexivity]|].
    destruct (String.eqb text _); [left; split; [reflexivity | eexists; split; reflexivity]|].
    right. split; reflexivity.
Qed.

Lemma system_types_are_validated_witness :
  snd (Helpers.validate_system_type "common") <> EmptyString.
Proof.
  apply (proj1 (proj2 (system_types_are_validated "common"))). reflexivity.
Defined.

(** ** Products *)

Lemma bind_int_fits (n : Z) : int64 n -> DatabaseManager.bind_int n = DatabaseManager.Done n.
Proof.
  unfold int64, DatabaseManager.bind_int. intros H.
  replace (- DatabaseManager.max_rowid - 1 <=? n) with true by (symmetry; apply Z.leb_le; lia).
  replace (n <=? DatabaseManager.max_rowid) with true by (symmetry; apply Z.leb_le; lia).
  reflexivity.
Qed.

Lemma bind_int_overflows (n : Z) :
  ~ int64 n ->
  DatabaseManager.bind_int n = DatabaseManager.Failed (DatabaseManager.Builtin OverflowError).
Proof.
  unfold int64, DatabaseManager.bind_int. intros H.
  destruct (- DatabaseManager.max_rowid - 1 <=? n) eqn:H1;
    destruct (n <=? DatabaseManager.max_rowid) eqn:H2; try reflexivity.
  apply Z.leb_le in H1, H2. lia.
Qed.

Section UpdateWhereId.

Variable k : Z.
Variable f : product -> product.
Hypothesis f_keeps_id : forall r, p_id (f r) = p_id r.

Lemma update_keeps_ids (rows : list product) :
  map p_id (fst (DatabaseManager.update_where_id k f rows)) = map p_id rows.
Proof.
  cbn [DatabaseManager.update_where_id fst]. rewrite map_map.
  apply map_ext. intros r. destruct (p_id r =? k); [apply f_keeps_id | reflexivity].
Qed.

Lemma update_then_find (rows : list product) (k' : Z) :
  find (fun r => p_id r =? k') (fst (DatabaseManager.update_where_id k f rows))
  = option_map (fun r => if k' =? k then f r else r)
      (find (fun r => p_id r =? k') rows).
Proof.
  cbn [DatabaseManager.update_where_id fst].
  induction rows as [|r rows IH]; [reflexivity|]. cbn [map find].
  destruct (p_id r =? k) eqn:Hk.
  - rewrite f_keeps_id. destruct (p_id r =? k') eqn:Hk'; [|exact IH].
    apply Z.eqb_eq in Hk, Hk'. cbn [option_map].
    replace (k' =? k) with true by (symmetry; apply Z.eqb_eq; lia). reflexivity.
  - destruct (p_id r =? k') eqn:Hk'; [|exact IH].
    apply Z.eqb_neq in Hk. apply Z.eqb_eq in Hk'. cbn [option_map].
    replace (k' =? k) with false by (symmetry; apply Z.eqb_neq; lia). reflexivity.
Qed.

Lemma update_rowcount (rows : list product) :
  (0 <? snd (DatabaseManager.update_where_id k f rows))%nat
  = match find (fun r => p_id r =? k) rows with Some _ => true | None => false end.
Proof.
  cbn [DatabaseManager.update_where_id snd].
  induction rows as [|r rows IH]; [reflexivity|]. cbn [filter find].
  destruct (p_id r =? k); [reflexivity | exact IH].
Qed.

Lemma update_rows (rows : list product) (r' : product) :
  In r' (fst (DatabaseManager.update_where_id k f rows)) ->
  exists r, In r rows /\ r' = if p_id r =? k then f r else r.
Proof.
  cbn [DatabaseManager.update_where_id fst]. rewrite in_map_iff.
  intros (r & <- & Hin). exists r. split; [assumption | reflexivity].
Qed.

End UpdateWhereId.

Lemma Forall2_In_right {A B} (R : A -> B -> Prop) (l1 : list A) (l2 : list B) (b : B) :
  Forall2 R l1 l2 -> In b l2 -> exists a, In a l1 /\ R a b.
Proof.
  intros HF. induction HF as [|a b' l1 l2 HR _ IH]; [intros []|].
  intros [<- | Hin].
  - exists a. split; [left; reflexivity | exact HR].
  - destruct (IH Hin) as (a' & Ha & HR'). exists a'. split; [right; exact Ha | exact HR'].
Qed.

(** An item of an invoice comes from an active row of the catalog. *)
Lemma item_has_a_rule (floors : Z) (st : string) (c : Database.state)
    (inv : invoice) (it : item) :
  fst (calculate_invoice floors st c) = Ok inv -> In it (items inv) ->
  exists r, In r (products c)
            /\ p_is_active r = Some 1
            /\ make_item r floors = Ok it.
Proof.
  intros H Hin. destruct (calculate_invoice_items _ _ _ _ H) as [HF _].
  destruct (Forall2_In_right _ _ _ _ HF Hin) as (r & Hr & Hit).
  exists r. unfold select in Hr. apply filter_In in Hr as [Hr Hc].
  split; [exact Hr|]. split; [|exact Hit].
  unfold where_clause in Hc. cbn [app forallb] in Hc.
  apply andb_true_iff in Hc as [Ha _]. apply is_active_b_spec. exact Ha.
Qed.

(** X4: [update_product_price] with a key and a price that fit 64 bits
    reports whether the catalog holds a row with the key; afterwards
    [get_product_by_id] returns that row with the new price and every other
    row as before, the keys of the table and the other tables are as
    before.  With a key or a price that does not fit it raises
    [OverflowError] and the database is unchanged. *)
Theorem update_product_price_then_lookup (product_id new_price : Z)
    (d : DatabaseManager.db) :
  (int64 product_id -> int64 new_price ->
   exists d',
     DatabaseManager.update_product_price product_id new_price d
       = (DatabaseManager.Done
            match product_with_id product_id d with Some _ => true | None => false end,
          d')
     /\ product_with_id product_id d'
        = option_map (DatabaseManager.set_price new_price) (product_with_id product_id d)
     /\ (forall k, k <> product_id -> product_with_id k d' = product_with_id k d)
     /\ (forall k, int64 k ->
           DatabaseManager.get_product_by_id k d'
           = (DatabaseManager.Done (product_with_id k d'), d'))
     /\ map p_id (products (DatabaseManager.catalog d'))
        = map p_id (products (DatabaseManager.catalog d))
     /\ DatabaseManager.invoices d' = DatabaseManager.invoices d
     /\ DatabaseManager.invoice_items d' = DatabaseManager.invoice_items d
     /\ DatabaseManager.settings d' = DatabaseManager.settings d)
  /\ (~ int64 product_id \/ ~ int64 new_price ->
      DatabaseManager.update_product_price product_id new_price d
      = (DatabaseManager.Failed (DatabaseManager.Builtin OverflowError), d)).
Proof.
  split.
  - intros Hk Hp. unfold DatabaseManager.update_product_price.
    rewrite (bind_int_fits _ Hp), (bind_int_fits _ Hk). cbn [DatabaseManager.and_then].
    destruct (DatabaseManager.update_where_id product_id
                (DatabaseManager.set_price new_price)
                (products (DatabaseManager.catalog d))) as [rows rowcount] eqn:Hu.
    assert (Hrows : rows = fst (DatabaseManager.update_where_id product_id
                (DatabaseManager.set_price new_price)
                (products (DatabaseManager.catalog d)))) by (rewrite Hu; reflexivity).
    assert (Hcount : rowcount = snd (DatabaseManager.update_where_id product_id
                (DatabaseManager.set_price new_price)
                (products (DatabaseManager.catalog d)))) by (rewrite Hu; reflexivity).
    exists (DatabaseManager.with_catalog d rows (DatabaseManager.products_seq d)).
    split; [|split; [|split; [|split; [|split; [|repeat split]]]]].
    + rewrite Hcount, update_rowcount. reflexivity.
    + unfold product_with_id. cbn [DatabaseManager.with_catalog DatabaseManager.catalog products].
      rewrite Hrows, update_then_find by reflexivity.
      rewrite Z.eqb_refl. reflexivity.
    + intros k Hne. unfold product_with_id.
      cbn [DatabaseManager.with_catalog DatabaseManager.catalog products].
      rewrite Hrows, update_then_find by reflexivity.
      replace (k =? product_id) with false by (symmetry; apply Z.eqb_neq; exact Hne).
      destruct (find _ _); reflexivity.
    + intros k Hk'. unfold DatabaseManager.get_product_by_id.
      rewrite (bind_int_fits _ Hk'). reflexivity.
    + cbn [DatabaseManager.with_catalog DatabaseManager.catalog products].
      rewrite Hrows. apply update_keeps_ids. reflexivity.
  - intros H. unfold DatabaseManager.update_product_price.
    destruct (Z_le_dec (- DatabaseManager.max_rowid - 1) new_price) as [H1|H1];
      [destruct (Z_le_dec new_price DatabaseManager.max_rowid) as [H2|H2]|].
    + rewrite (bind_int_fits new_price) by (split; assumption).
      cbn [DatabaseManager.and_then].
      rewrite (bind_int_overflows product_id); [reflexivity|].
      destruct H as [H|H]; [exact H | elim H; split; assumption].
    + rewrite (bind_int_overflows new_price); [reflexivity | unfold int64; lia].
    + rewrite (bind_int_overflows new_price); [reflexivity | unfold int64; lia].
Qed.

Lemma update_product_price_then_lookup_witness :
  product_with_id 2 (snd (DatabaseManager.update_product_price 2 45 example_db))
  = Some (example_rule 2 "gearless" "fixed" None None 45).
Proof.
  destruct (proj1 (update_product_price_then_lookup 2 45 example_db))
    as (d' & Hu & Hl & _); [unfold int64; vm_compute; split; discriminate ..|].
  rewrite Hu. cbn [snd]. rewrite Hl. reflexivity.
Defined.

Lemma bind_int_done (n m : Z) :
  DatabaseManager.bind_int n = DatabaseManager.Done m -> m = n /\ int64 n.
Proof.
  unfold DatabaseManager.bind_int, int64.
  destruct (- DatabaseManager.max_rowid - 1 <=? n) eqn:H1;
    destruct (n <=? DatabaseManager.max_rowid) eqn:H2; try discriminate.
  intros [= <-]. apply Z.leb_le in H1, H2. repeat split; assumption.
Qed.

(** What a successful [update_product_price] leaves in the catalog. *)
Lemma update_product_price_done (product_id new_price : Z)
    (d d' : DatabaseManager.db) (b : bool) :
  DatabaseManager.update_product_price product_id new_price d
    = (DatabaseManager.Done b, d') ->
  products (DatabaseManager.catalog d')
  = fst (DatabaseManager.update_where_id product_id
           (DatabaseManager.set_price new_price)
           (products (DatabaseManager.catalog d))).
Proof.
  unfold DatabaseManager.update_product_price.
  destruct (DatabaseManager.bind_int new_price) as [p|] eqn:Hp; [|discriminate].
  destruct (DatabaseManager.bind_int product_id) as [k|] eqn:Hk; [|discriminate].
  apply bind_int_done in Hp as [-> _]. apply bind_int_done in Hk as [-> _].
  cbn [DatabaseManager.and_then]. intros [= _ <-]. reflexivity.
Qed.

(** X5: after a successful [update_product_price], every item that a
    calculation, for any floor count and system type, makes for the product
    carries the new price as its unit price, with the quantity and the name
    of the rule as they were before the update. *)
Theorem updated_price_is_billed (product_id new_price floors : Z)
    (st : string) (d d' : DatabaseManager.db) (b : bool) (inv : invoice) (it : item) :
  DatabaseManager.update_product_price product_id new_price d
    = (DatabaseManager.Done b, d') ->
  fst (calculate_invoice floors st (DatabaseManager.catalog d')) = Ok inv ->
  In it (items inv) ->
  InvoiceCalculator.product_id it = product_id ->
  unit_price it = new_price
  /\ exists r, In r (products (DatabaseManager.catalog d))
               /\ p_id r = product_id
               /\ _calculate_quantity r floors = Ok (quantity it)
               /\ _get_final_name r floors = Ok (name it).
Proof.
  intros Hu Hc Hin Hid.
  destruct (item_has_a_rule _ _ _ _ _ Hc Hin) as (r' & Hr' & _ & Hit).
  rewrite (update_product_price_done _ _ _ _ _ Hu) in Hr'.
  destruct (update_rows _ _ _ _ Hr') as (r & Hr & ->).
  destruct (make_item_fields _ _ _ Hit) as (Hq & Hn & Hpid & _ & Hprice & _).
  destruct (p_id r =? product_id) eqn:Hk.
  - apply Z.eqb_eq in Hk. split; [rewrite Hprice; reflexivity|].
    exists r. repeat split; assumption.
  - apply Z.eqb_neq in Hk. congruence.
Qed.

Lemma updated_price_is_billed_witness :
  exists inv,
    fst (calculate_invoice 5 "gearless"
           (DatabaseManager.catalog
              (snd (DatabaseManager.update_product_price 2 45 example_db)))) = Ok inv
    /\ Forall (fun it => InvoiceCalculator.product_id it = 2 -> unit_price it = 45)
         (items inv).
Proof.
  eexists. split; [vm_compute; reflexivity|].
  apply Forall_forall. intros it Hin Hid.
  refine (proj1 (updated_price_is_billed 2 45 5 "gearless" example_db
                   (snd (DatabaseManager.update_product_price 2 45 example_db))
                   true _ it _ _ Hin Hid)).
  - vm_compute. reflexivity.
  - vm_compute. reflexivity.
Defined.

Lemma set_is_active_twice (rows : list product) (k : Z) :
  fst (DatabaseManager.update_where_id k (DatabaseManager.set_is_active 0)
         (fst (DatabaseManager.update_where_id k (DatabaseManager.set_is_active 0) rows)))
  = fst (DatabaseManager.update_where_id k (DatabaseManager.set_is_active 0) rows).
Proof.
  cbn [DatabaseManager.update_where_id fst]. rewrite map_map. apply map_ext.
  intros r. destruct (p_id r =? k) eqn:Hk.
  - cbn [DatabaseManager.set_is_active p_id]. rewrite Hk. reflexivity.
  - rewrite Hk. reflexivity.
Qed.

(** X6: [delete_product] with a key that fits 64 bits switches the row
    off and keeps it: it reports whether the catalog holds a row with the
    key (also when the row is switched off already), [get_product_by_id]
    still finds the row, now with [is_active = 0], and every other row as
    before; the query for active rows no longer returns the row, whatever
    the system type and the floor count, and no invoice calculated
    afterwards has an item for the product.  Deleting again changes
    nothing. *)
Theorem deleted_product_is_kept_and_not_billed (product_id : Z)
    (d : DatabaseManager.db) :
  int64 product_id ->
  exists d',
    DatabaseManager.delete_product product_id d
      = (DatabaseManager.Done
           match product_with_id product_id d with Some _ => true | None => false end,
         d')
    /\ product_with_id product_id d'
       = option_map (DatabaseManager.set_is_active 0) (product_with_id product_id d)
    /\ (forall k, k <> product_id -> product_with_id k d' = product_with_id k d)
    /\ (forall st floors rows r,
          fst (Database.get_products st 1 floors (DatabaseManager.catalog d')) = Ok rows ->
          In r rows -> p_id r <> product_id)
    /\ (forall floors st inv it,
          fst (calculate_invoice floors st (DatabaseManager.catalog d')) = Ok inv ->
          In it (items inv) -> InvoiceCalculator.product_id it <> product_id)
    /\ DatabaseManager.delete_product product_id d'
       = (DatabaseManager.Done
            match product_with_id product_id d with Some _ => true | None => false end,
          d').
Proof.
  intros Hk. unfold DatabaseManager.delete_product.
  rewrite (bind_int_fits _ Hk).
  set (upd := DatabaseManager.update_where_id product_id (DatabaseManager.set_is_active 0)).
  destruct (upd (products (DatabaseManager.catalog d))) as [rows rowcount] eqn:Hu.
  assert (Hrows : rows = fst (upd (products (DatabaseManager.catalog d))))
    by (rewrite Hu; reflexivity).
  assert (Hcount : rowcount = snd (upd (products (DatabaseManager.catalog d))))
    by (rewrite Hu; reflexivity).
  assert (Hfind : forall k,
            find (fun r => p_id r =? k) rows
            = option_map (fun r => if k =? product_id
                                   then DatabaseManager.set_is_active 0 r else r)
                (product_with_id k d)).
  { intros k. rewrite Hrows. apply update_then_find. reflexivity. }
  assert (Hoff : forall r, In r rows -> p_id r = product_id -> p_is_active r = Some 0).
  { intros r Hr Hid. rewrite Hrows in Hr.
    destruct (update_rows _ _ _ _ Hr) as (r0 & _ & ->).
    destruct (p_id r0 =? product_id) eqn:E; [reflexivity|].
    apply Z.eqb_neq in E. congruence. }
  exists (DatabaseManager.with_catalog d rows (DatabaseManager.products_seq d)).
  split; [|split; [|split; [|split; [|split]]]].
  - rewrite Hcount. unfold upd. rewrite update_rowcount. reflexivity.
  - unfold product_with_id at 1.
    cbn [DatabaseManager.with_catalog DatabaseManager.catalog products].
    rewrite Hfind, Z.eqb_refl. reflexivity.
  - intros k Hne. unfold product_with_id at 1.
    cbn [DatabaseManager.with_catalog DatabaseManager.catalog products].
    rewrite Hfind.
    replace (k =? product_id) with false by (symmetry; apply Z.eqb_neq; exact Hne).
    destruct (product_with_id k d); reflexivity.
  - intros st floors rs r Hq Hr Hid.
    destruct (get_products_ok _ _ _ _ _ Hq) as (-> & _ & _).
    cbn [DatabaseManager.with_catalog DatabaseManager.catalog products] in Hr.
    unfold select in Hr. apply filter_In in Hr as [Hr Hc].
    unfold where_clause in Hc. cbn [app forallb] in Hc.
    apply andb_true_iff in Hc as [Ha _]. apply is_active_b_spec in Ha.
    rewrite (Hoff _ Hr Hid) in Ha. discriminate.
  - intros floors st inv it Hc Hin Hid.
    destruct (item_has_a_rule _ _ _ _ _ Hc Hin) as (r & Hr & Ha & Hit).
    cbn [DatabaseManager.with_catalog DatabaseManager.catalog products] in Hr.
    destruct (make_item_fields _ _ _ Hit) as (_ & _ & Hpid & _).
    rewrite (Hoff _ Hr) in Ha by congruence. discriminate.
  - cbn [DatabaseManager.with_catalog DatabaseManager.catalog products
         DatabaseManager.products_seq].
    destruct (upd rows) as [rows' rowcount'] eqn:Hu'.
    assert (Hrows' : rows' = rows).
    { replace rows' with (fst (upd rows)) by (rewrite Hu'; reflexivity).
      rewrite Hrows. apply set_is_active_twice. }
    assert (Hcount' : (0 <? rowcount')%nat
                      = match product_with_id product_id d with
                        | Some _ => true | None => false end).
    { replace rowcount' with (snd (upd rows)) by (rewrite Hu'; reflexivity).
      unfold upd. rewrite update_rowcount, Hfind.
      destruct (product_with_id product_id d); reflexivity. }
    rewrite Hcount', Hrows'. reflexivity.
Qed.

Lemma deleted_product_is_kept_and_not_billed_witness :
  exists d',
    DatabaseManager.delete_product 3 example_db = (DatabaseManager.Done true, d')
    /\ option_map p_is_active (product_with_id 3 d') = Some (Some 0)
    /\ fst (calculate_invoice 5 "hydraulic" (DatabaseManager.catalog example_db))
       <> fst (calculate_invoice 5 "hydraulic" (DatabaseManager.catalog d')).
Proof.
  destruct (deleted_product_is_kept_and_not_billed 3 example_db)
    as (d' & Hd & Hl & _); [unfold int64; vm_compute; split; discriminate|].
  exists d'. split; [exact Hd|]. split; [rewrite Hl; reflexivity|].
  assert (E : d' = snd (DatabaseManager.delete_product 3 example_db))
    by (rewrite Hd; reflexivity).
  rewrite E. vm_compute. discriminate.
Defined.

Lemma fold_max_ge (a : Z) (l : list Z) :
  a <= fold_right Z.max a l /\ forall k, In k l -> k <= fold_right Z.max a l.
Proof.
  induction l as [|x l [IH1 IH2]]; cbn [fold_right]; [split; [lia | intros k []]|].
  split; [lia|]. intros k [<- | Hk]; [lia|]. specialize (IH2 _ Hk). lia.
Qed.

Lemma largest_ge (ids : list Z) (k : Z) :
  In k ids -> k <= DatabaseManager.largest ids.
Proof.
  destruct ids as [|a l]; [intros []|]. cbn [DatabaseManager.largest].
  destruct (fold_max_ge a l) as [H1 H2]. intros [<- | Hk]; [exact H1 | exact (H2 _ Hk)].
Qed.

(** The key of a new row is above the keys of the table and above every
    key the table ever held. *)
Lemma new_rowid_fresh (seq : Z) (ids : list Z) :
  seq <> DatabaseManager.max_rowid ->
  DatabaseManager.largest ids <> DatabaseManager.max_rowid ->
  exists k, DatabaseManager.new_rowid seq ids = DatabaseManager.Done k
            /\ seq < k /\ (forall i, In i ids -> i < k).
Proof.
  intros Hs Hl. unfold DatabaseManager.new_rowid.
  apply Z.eqb_neq in Hs, Hl. rewrite Hs, Hl. cbn [orb].
  eexists. split; [reflexivity|]. split; [lia|].
  intros i Hi. apply largest_ge in Hi. lia.
Qed.

Lemma find_app_last {A} (f : A -> bool) (l : list A) (x : A) :
  find f (l ++ [x])
  = match find f l with
    | Some y => Some y
    | None => if f x then Some x else None
    end.
Proof.
  induction l as [|a l IH]; cbn [app find]; [reflexivity|].
  destruct (f a); [reflexivity | exact IH].
Qed.

Lemma find_none_below (rows : list product) (k : Z) :
  (forall i, In i (map p_id rows) -> i < k) ->
  find (fun r => p_id r =? k) rows = None.
Proof.
  intros H. destruct (find _ rows) as [r|] eqn:E; [|reflexivity].
  apply find_some in E as [Hin Hk]. apply Z.eqb_eq in Hk.
  specialize (H (p_id r) (in_map p_id _ _ Hin)). lia.
Qed.

Lemma bind_opt_int_fits (n : option Z) :
  (forall m, n = Some m -> int64 m) ->
  DatabaseManager.bind_opt_int n = DatabaseManager.Done n.
Proof.
  destruct n as [m|]; [|reflexivity]. intros H. cbn [DatabaseManager.bind_opt_int].
  rewrite (bind_int_fits m (H m eq_refl)). reflexivity.
Qed.

(** X7: [add_product], when its ints fit 64 bits, its factor and
    base_add are stored as [f] and [b] (what the REAL columns give back for
    them: an int as a float, a NaN as NULL, [-0.0] as [0.0]) and the table
    can take a row, gives the row a key above every key of the table and
    every key the table ever held and adds it after the rows there are:
    [get_product_by_id] on the new key returns the row with the columns as
    stored, every other key is looked up as before, a query
    [get_products] whose parameters fit 64 bits returns what it returned
    before followed by the new row if the row meets the conditions, and
    keys that were unique stay unique.  With a price that does not fit it
    raises [OverflowError] and the database is unchanged. *)
Theorem add_product_then_lookup (code name unit : string) (price : Z)
    (system type : string) (factor base_add : num) (name_pattern : option string)
    (stops_offset : Z) (category : option string) (is_active : Z)
    (min_floors max_floors : option Z) (f b : option float)
    (d : DatabaseManager.db) :
  (int64 price -> int64 stops_offset -> int64 is_active ->
   (forall m, min_floors = Some m -> int64 m) ->
   (forall m, max_floors = Some m -> int64 m) ->
   DatabaseManager.bind_real factor = DatabaseManager.Done f ->
   DatabaseManager.bind_real base_add = DatabaseManager.Done b ->
   DatabaseManager.products_seq d <> DatabaseManager.max_rowid ->
   DatabaseManager.largest (map p_id (products (DatabaseManager.catalog d)))
     <> DatabaseManager.max_rowid ->
   exists product_id d',
     let row :=
       {| p_id := product_id; p_code := Some code; p_name := name; p_unit := unit;
          p_price := price; p_system := system; p_type := type;
          p_factor := f; p_base_add := b; p_name_pattern := name_pattern;
          p_stops_offset := Some stops_offset; p_category := category;
          p_is_active := Some is_active;
          p_min_floors := min_floors; p_max_floors := max_floors |} in
     DatabaseManager.add_product code name unit price system type factor base_add
       name_pattern stops_offset category is_active min_floors max_floors d
       = (DatabaseManager.Done product_id, d')
     /\ DatabaseManager.products_seq d < product_id
     /\ (forall r, In r (products (DatabaseManager.catalog d)) -> p_id r < product_id)
     /\ products (DatabaseManager.catalog d')
        = products (DatabaseManager.catalog d) ++ [row]
     /\ product_with_id product_id d' = Some row
     /\ (forall k, k <> product_id -> product_with_id k d' = product_with_id k d)
     /\ (forall st a fl,
           int64 a -> (forall n, fl = Some n -> int64 n) ->
           fst (Database.get_products st a fl (DatabaseManager.catalog d))
           = Ok (select (where_clause st a fl) (products (DatabaseManager.catalog d)))
           /\ fst (Database.get_products st a fl (DatabaseManager.catalog d'))
              = Ok (select (where_clause st a fl) (products (DatabaseManager.catalog d))
                    ++ select (where_clause st a fl) [row]))
     /\ (NoDup (map p_id (products (DatabaseManager.catalog d))) ->
         NoDup (map p_id (products (DatabaseManager.catalog d'))))
     /\ DatabaseManager.products_seq d' = product_id)
  /\ (~ int64 price ->
      DatabaseManager.add_product code name unit price system type factor base_add
        name_pattern stops_offset category is_active min_floors max_floors d
      = (DatabaseManager.Failed (DatabaseManager.Builtin OverflowError), d)).
Proof.
  split.
  - intros Hp Ho Ha Hmin Hmax Hf Hb Hseq Hlg.
    destruct (new_rowid_fresh _ _ Hseq Hlg) as (k & Hk & Hsk & Hids).
    eexists k, _. cbv zeta.
    split; [|split; [|split; [|split; [|split; [|split; [|split; [|split]]]]]]].
    + unfold DatabaseManager.add_product.
      rewrite (bind_int_fits _ Hp), Hf, Hb, (bind_int_fits _ Ho), (bind_int_fits _ Ha),
        (bind_opt_int_fits _ Hmin), (bind_opt_int_fits _ Hmax), Hk.
      cbn [DatabaseManager.and_then p_id]. reflexivity.
    + exact Hsk.
    + intros r Hr. apply Hids. apply in_map. exact Hr.
    + reflexivity.
    + unfold product_with_id.
      cbn [DatabaseManager.with_catalog DatabaseManager.catalog products].
      rewrite find_app_last, (find_none_below _ _ Hids). cbn [p_id].
      rewrite Z.eqb_refl. reflexivity.
    + intros k' Hne. unfold product_with_id.
      cbn [DatabaseManager.with_catalog DatabaseManager.catalog products].
      rewrite find_app_last. cbn [p_id].
      replace (k =? k') with false by (symmetry; apply Z.eqb_neq; congruence).
      destruct (find _ _); reflexivity.
    + intros st a fl Ha' Hfl.
      rewrite !get_products_fits by assumption.
      cbn [fst DatabaseManager.with_catalog DatabaseManager.catalog products].
      unfold select. rewrite filter_app. split; reflexivity.
    + intros Hnd.
      cbn [DatabaseManager.with_catalog DatabaseManager.catalog products].
      rewrite map_app. cbn [map p_id].
      apply NoDup_app; [exact Hnd | repeat constructor; intros [] |].
      intros i Hi [<- | []]. specialize (Hids _ Hi). lia.
    + reflexivity.
  - intros Hp. unfold DatabaseManager.add_product.
    rewrite (bind_int_overflows _ Hp). reflexivity.
Qed.

Lemma add_product_then_lookup_witness :
  exists d',
    DatabaseManager.add_product "WIRE-001" "Wire" "m" 50000 "common" "linear"
      (PyInt 20) (PyFloat (S754_zero true)) None 0 (Some "wire") 1 None None example_db
    = (DatabaseManager.Done 4, d')
    /\ option_map p_factor (product_with_id 4 d') = Some (Some (dyadic 20 0))
    /\ option_map p_base_add (product_with_id 4 d') = Some (Some (S754_zero false)).
Proof.
  assert (H64 : forall n, - 2 ^ 62 <= n <= 2 ^ 62 -> int64 n).
  { intros n Hn. unfold int64. change DatabaseManager.max_rowid with (2 ^ 63 - 1). lia. }
  destruct (proj1 (add_product_then_lookup "WIRE-001" "Wire" "m" 50000 "common"
                     "linear" (PyInt 20) (PyFloat (S754_zero true)) None 0
                     (Some "wire") 1 None None
                     (Some (dyadic 20 0)) (Some (S754_zero false)) example_db))
    as (k & d' & Ha & _ & _ & _ & Hl & _).
  - apply H64. lia.
  - apply H64. lia.
  - apply H64. lia.
  - discriminate.
  - discriminate.
  - vm_compute. reflexivity.
  - vm_compute. reflexivity.
  - vm_compute. discriminate.
  - vm_compute. discriminate.
  - assert (Hk : DatabaseManager.Done k = DatabaseManager.Done 4).
    { change (DatabaseManager.Done k)
        with (fst (DatabaseManager.Done k, d')).
      rewrite <- Ha. vm_compute. reflexivity. }
    injection Hk as ->. exists d'. split; [exact Ha|]. rewrite Hl.
    split; reflexivity.
Defined.

(** ** Settings *)

Lemma find_filter_implied {A} (f g : A -> bool) (l : list A) :
  (forall x, f x = true -> g x = true) -> find f (filter g l) = find f l.
Proof.
  intros H. induction l as [|a l IH]; [reflexivity|]. cbn [filter find].
  destruct (f a) eqn:Hf.
  - rewrite (H _ Hf). cbn [find]. rewrite Hf. reflexivity.
  - destruct (g a); cbn [find]; rewrite ?Hf; exact IH.
Qed.

Lemma find_filter_excluded {A} (f g : A -> bool) (l : list A) :
  (forall x, f x = true -> g x = false) -> find f (filter g l) = None.
Proof.
  intros H. induction l as [|a l IH]; [reflexivity|]. cbn [filter].
  destruct (g a) eqn:Hg; [|exact IH]. cbn [find].
  destruct (f a) eqn:Hf; [|exact IH]. rewrite (H _ Hf) in Hg. discriminate.
Qed.

(** X8: [set_setting] then [get_setting] of the key returns the value
    set, whatever the default and whatever the key held before; every other
    key reads as before; the key is held by exactly one row afterwards, and
    keys that were unique stay unique.  A key that no row holds reads as
    the default. *)
Theorem setting_is_read_back (key value : string) (d : DatabaseManager.db) :
  let d' := snd (DatabaseManager.set_setting key value d) in
  (forall default,
      fst (DatabaseManager.get_setting key default d') = DatabaseManager.Done (Some value))
  /\ (forall k default, k <> key ->
        fst (DatabaseManager.get_setting k default d')
        = fst (DatabaseManager.get_setting k default d))
  /\ List.length (filter (fun r => String.eqb (DatabaseManager.s_key r) key)
                    (DatabaseManager.settings d')) = 1%nat
  /\ (NoDup (map DatabaseManager.s_key (DatabaseManager.settings d)) ->
      NoDup (map DatabaseManager.s_key (DatabaseManager.settings d')))
  /\ (forall k default,
        (forall r, In r (DatabaseManager.settings d) -> DatabaseManager.s_key r <> k) ->
        fst (DatabaseManager.get_setting k default d) = DatabaseManager.Done default)
  /\ DatabaseManager.catalog d' = DatabaseManager.catalog d
  /\ DatabaseManager.invoices d' = DatabaseManager.invoices d
  /\ DatabaseManager.invoice_items d' = DatabaseManager.invoice_items d.
Proof.
  cbv zeta. cbn [DatabaseManager.set_setting snd DatabaseManager.with_settings
                 DatabaseManager.settings DatabaseManager.get_setting fst].
  split; [|split; [|split; [|split; [|split; [|repeat split]]]]].
  - intros default. rewrite find_app_last, find_filter_excluded.
    + cbn [DatabaseManager.s_key DatabaseManager.s_value]. rewrite String.eqb_refl. reflexivity.
    + intros r ->. reflexivity.
  - intros k default Hk. rewrite find_app_last, find_filter_implied.
    + cbn [DatabaseManager.s_key].
      replace (String.eqb key k) with false
        by (symmetry; apply String.eqb_neq; congruence).
      destruct (find _ _); reflexivity.
    + intros r Hr. apply String.eqb_eq in Hr. apply negb_true_iff.
      apply String.eqb_neq. congruence.
  - rewrite filter_app. cbn [filter DatabaseManager.s_key]. rewrite String.eqb_refl.
    rewrite length_app. cbn [List.length].
    replace (filter _ (filter _ (DatabaseManager.settings d))) with (@nil DatabaseManager.setting_row);
      [reflexivity|].
    symmetry. induction (DatabaseManager.settings d) as [|r l IH]; [reflexivity|].
    cbn [filter]. destruct (String.eqb (DatabaseManager.s_key r) key) eqn:E; cbn [negb filter];
      rewrite ?E; exact IH.
  - intros Hnd. rewrite map_app. cbn [map DatabaseManager.s_key].
    apply NoDup_app.
    + induction (DatabaseManager.settings d) as [|r l IH]; [constructor|].
      cbn [map] in Hnd. inversion Hnd as [|x xs Hx Hxs]; subst.
      cbn [filter]. destruct (negb _); [|exact (IH Hxs)].
      cbn [map]. constructor; [|exact (IH Hxs)].
      intros Hin. apply Hx. apply in_map_iff in Hin as (r' & <- & Hr').
      apply filter_In in Hr' as [Hr' _]. apply in_map. exact Hr'.
    + repeat constructor. intros [].
    + intros k Hin [<- | []]. apply in_map_iff in Hin as (r & Hr & Hin).
      apply filter_In in Hin as [_ Hne]. apply negb_true_iff, String.eqb_neq in Hne.
      congruence.
  - intros k default Hk.
    destruct (find _ (DatabaseManager.settings d)) as [r|] eqn:E; [|reflexivity].
    apply find_some in E as [Hin He]. apply String.eqb_eq in He.
    elim (Hk _ Hin He).
Qed.

Lemma setting_is_read_back_witness :
  fst (DatabaseManager.get_setting "COMPANY_PHONE" (Some "021-12345678")
         (snd (DatabaseManager.set_setting "COMPANY_NAME" "Ravan Ro" example_db)))
  = DatabaseManager.Done (Some "021-12345678").
Proof.
  rewrite (proj1 (proj2 (setting_is_read_back "COMPANY_NAME" "Ravan Ro" example_db))
             "COMPANY_PHONE" (Some "021-12345678")) by discriminate.
  apply (proj1 (proj2 (proj2 (proj2 (proj2
           (setting_is_read_back "COMPANY_NAME" "Ravan Ro" example_db)))))).
  intros r [<- | []]. discriminate.
Defined.

Lemma dict_get_set {V} (m : list (string * V)) (k k' : string) (v : V) :
  DatabaseManager.dict_get (DatabaseManager.dict_set m k v) k'
  = if String.eqb k k' then Some v else DatabaseManager.dict_get m k'.
Proof.
  induction m as [|[a b] m IH]; cbn [DatabaseManager.dict_set DatabaseManager.dict_get].
  - reflexivity.
  - destruct (String.eqb a k) eqn:E; cbn [DatabaseManager.dict_get].
    + apply String.eqb_eq in E as ->. destruct (String.eqb k k'); reflexivity.
    + rewrite IH. destruct (String.eqb a k') eqn:E'; [|reflexivity].
      apply String.eqb_eq in E' as ->. rewrite String.eqb_sym, E. reflexivity.
Qed.

Lemma dict_set_new {V} (m : list (string * V)) (k : string) (v : V) :
  ~ In k (map fst m) -> DatabaseManager.dict_set m k v = m ++ [(k, v)].
Proof.
  induction m as [|[a b] m IH]; [reflexivity|]. cbn [map fst In].
  intros H. cbn [DatabaseManager.dict_set].
  destruct (String.eqb_spec a k) as [->|_]; [elim H; left; reflexivity|].
  rewrite IH by tauto. reflexivity.
Qed.

Lemma settings_dict (rows : list DatabaseManager.setting_row) :
  forall m,
    NoDup (map fst m ++ map DatabaseManager.s_key rows) ->
    fold_left (fun m r => DatabaseManager.dict_set m (DatabaseManager.s_key r)
                            (DatabaseManager.s_value r)) rows m
    = m ++ map (fun r => (DatabaseManager.s_key r, DatabaseManager.s_value r)) rows.
Proof.
  induction rows as [|r rows IH]; intros m Hnd; cbn [fold_left map].
  - rewrite app_nil_r. reflexivity.
  - cbn [map] in Hnd. rewrite dict_set_new.
    + rewrite IH.
      * rewrite <- app_assoc. reflexivity.
      * rewrite map_app. cbn [map fst]. rewrite <- app_assoc. exact Hnd.
    + intros Hin. apply NoDup_remove_2 in Hnd. apply Hnd.
      apply in_or_app. left. exact Hin.
Qed.

(** X9: when no two rows of [settings] hold the same key,
    [get_all_settings] returns a dict with the keys and values of the rows
    in table order, and [get_setting] on any key returns what the dict
    holds for the key, or the default when the dict does not hold it. *)
Theorem all_settings_agree_with_get_setting (d : DatabaseManager.db) :
  NoDup (map DatabaseManager.s_key (DatabaseManager.settings d)) ->
  exists m,
    DatabaseManager.get_all_settings d = (DatabaseManager.Done m, d)
    /\ m = map (fun r => (DatabaseManager.s_key r, DatabaseManager.s_value r))
             (DatabaseManager.settings d)
    /\ forall k default,
         fst (DatabaseManager.get_setting k default d)
         = DatabaseManager.Done match DatabaseManager.dict_get m k with
                                | Some v => v
                                | None => default
                                end.
Proof.
  intros Hnd. eexists. split; [|split].
  - unfold DatabaseManager.get_all_settings. rewrite settings_dict by exact Hnd.
    reflexivity.
  - reflexivity.
  - intros k default. cbn [DatabaseManager.get_setting fst app]. f_equal.
    clear Hnd. induction (DatabaseManager.settings d) as [|r l IH]; [reflexivity|].
    cbn [map find DatabaseManager.dict_get].
    destruct (String.eqb (DatabaseManager.s_key r) k); [reflexivity | exact IH].
Qed.

Lemma all_settings_agree_with_get_setting_witness :
  exists m,
    DatabaseManager.get_all_settings example_db = (DatabaseManager.Done m, example_db)
    /\ m = [("COMPANY_NAME", Some "Lift Co")].
Proof.
  destruct (all_settings_agree_with_get_setting example_db) as (m & Hm & E & _).
  - repeat constructor. intros [].
  - exists m. split; [exact Hm | rewrite E; reflexivity].
Defined.
(** ** Saving an invoice *)

Lemma fold_max_le (a b : Z) (l : list Z) :
  a <= b -> (forall k, In k l -> k <= b) -> fold_right Z.max a l <= b.
Proof.
  intros Ha. induction l as [|x l IH]; cbn [fold_right]; intros H; [exact Ha|].
  assert (x <= b) by (apply H; left; reflexivity).
  assert (fold_right Z.max a l <= b) by (apply IH; intros k Hk; apply H; right; exact Hk).
  lia.
Qed.

Lemma largest_snoc_le (ids : list Z) (k b : Z) :
  (forall i, In i ids -> i <= b) -> k <= b ->
  DatabaseManager.largest (ids ++ [k]) <= b.
Proof.
  intros Hids Hk. destruct ids as [|a l]; cbn [app DatabaseManager.largest fold_right].
  - exact Hk.
  - apply fold_max_le.
    + apply Hids. left. reflexivity.
    + intros i Hi. apply in_app_or in Hi as [Hi | [<- | []]];
        [apply Hids; right; exact Hi | exact Hk].
Qed.

(** A new key is one above the high-water mark of the table, which it
    becomes. *)
Lemma new_rowid_high_water (seq : Z) (ids : list Z) :
  high_water seq ids < DatabaseManager.max_rowid ->
  DatabaseManager.new_rowid seq ids = DatabaseManager.Done (high_water seq ids + 1)
  /\ high_water (high_water seq ids + 1) (ids ++ [high_water seq ids + 1])
     = high_water seq ids + 1.
Proof.
  unfold high_water. intros H. split.
  - unfold DatabaseManager.new_rowid.
    replace (seq =? DatabaseManager.max_rowid) with false by (symmetry; apply Z.eqb_neq; lia).
    replace (DatabaseManager.largest ids =? DatabaseManager.max_rowid) with false
      by (symmetry; apply Z.eqb_neq; lia).
    cbn [orb]. f_equal. lia.
  - assert (DatabaseManager.largest (ids ++ [Z.max seq (DatabaseManager.largest ids) + 1])
            <= Z.max seq (DatabaseManager.largest ids) + 1).
    { apply largest_snoc_le; [|lia]. intros i Hi. apply largest_ge in Hi. lia. }
    lia.
Qed.

Lemma below_high_water (seq : Z) (ids : list Z) (i : Z) :
  In i ids -> i <= high_water seq ids.
Proof. intros Hi. apply largest_ge in Hi. unfold high_water. lia. Qed.

(** The loop that saves the items adds one row for each item, in order. *)
Lemma save_items_adds_rows (invoice_id : Z) (its : list item) :
  int64 invoice_id ->
  Forall storable its ->
  forall d,
    high_water (DatabaseManager.invoice_items_seq d)
      (map DatabaseManager.ii_id (DatabaseManager.invoice_items d))
      + Z.of_nat (List.length its) <= DatabaseManager.max_rowid ->
    exists d' rows,
      Conversation.save_items invoice_id its d = (DatabaseManager.Done tt, d')
      /\ DatabaseManager.invoice_items d' = DatabaseManager.invoice_items d ++ rows
      /\ Forall2 (holds invoice_id) its rows
      /\ DatabaseManager.catalog d' = DatabaseManager.catalog d
      /\ DatabaseManager.invoices d' = DatabaseManager.invoices d
      /\ DatabaseManager.invoices_seq d' = DatabaseManager.invoices_seq d
      /\ DatabaseManager.settings d' = DatabaseManager.settings d.
Proof.
  intros Hid HF. induction HF as [|it its (Hp & Hu & Ht & q & Hq) _ IH]; intros d Hroom.
  - exists d, []. cbn [Conversation.save_items]. rewrite app_nil_r.
    repeat split. constructor.
  - cbn [List.length] in Hroom. rewrite Nat2Z.inj_succ in Hroom.
    destruct (new_rowid_high_water (DatabaseManager.invoice_items_seq d)
                (map DatabaseManager.ii_id (DatabaseManager.invoice_items d)))
      as [Hnew Hhw]; [lia|].
    cbn [Conversation.save_items]. unfold DatabaseManager.add_invoice_item.
    rewrite (bind_int_fits _ Hid), (bind_int_fits _ Hp), Hq, (bind_int_fits _ Hu),
      (bind_int_fits _ Ht), Hnew.
    cbn [DatabaseManager.and_then DatabaseManager.ii_id].
    match goal with
    | |- context [Conversation.save_items invoice_id its ?d1] =>
        destruct (IH d1) as (d' & rows & Hs & Hrows & HR & Hc & Hi & His & Hset)
    end.
    { cbn [DatabaseManager.with_invoice_items DatabaseManager.invoice_items_seq
           DatabaseManager.invoice_items].
      rewrite map_app. cbn [map DatabaseManager.ii_id]. rewrite Hhw. lia. }
    rewrite Hs. eexists d', (_ :: rows). split; [reflexivity|].
    split; [rewrite Hrows; cbn [DatabaseManager.with_invoice_items
                                DatabaseManager.invoice_items];
            rewrite <- app_assoc; reflexivity|].
    split; [|repeat split; assumption].
    constructor; [|exact HR]. unfold holds.
    cbn [DatabaseManager.ii_invoice_id DatabaseManager.ii_product_id
         DatabaseManager.ii_name DatabaseManager.ii_unit DatabaseManager.ii_quantity
         DatabaseManager.ii_unit_price DatabaseManager.ii_total_price].
    do 4 (split; [reflexivity|]). split; [|split; reflexivity].
    revert Hq. unfold DatabaseManager.bind_real. destruct (quantity it) as [n|x].
    + destruct (DatabaseManager.bind_int n) as [k|] eqn:Hk; [|discriminate].
      apply bind_int_done in Hk as [-> _]. cbn [DatabaseManager.and_then to_float].
      destruct (float_of_int n) as [x|];
        [intros [= <-]; exists x; split; reflexivity | discriminate].
    + destruct x; intros [= <-]; eexists; split; reflexivity.
Qed.

Lemma create_invoice_adds_row (now customer project system : string)
    (n total : Z) (d : DatabaseManager.db) :
  int64 n -> int64 total ->
  high_water (DatabaseManager.invoices_seq d)
    (map DatabaseManager.inv_id (DatabaseManager.invoices d)) < DatabaseManager.max_rowid ->
  let invoice_id :=
    high_water (DatabaseManager.invoices_seq d)
      (map DatabaseManager.inv_id (DatabaseManager.invoices d)) + 1 in
  DatabaseManager.create_invoice now customer project system n total d
  = (DatabaseManager.Done invoice_id,
     DatabaseManager.with_invoices d
       (DatabaseManager.invoices d
        ++ [{| DatabaseManager.inv_id := invoice_id;
               DatabaseManager.inv_customer_name := customer;
               DatabaseManager.inv_project_name := project;
               DatabaseManager.inv_system := system;
               DatabaseManager.inv_floors := n;
               DatabaseManager.inv_total_price := total;
               DatabaseManager.inv_created_at := now |}])
       invoice_id).
Proof.
  intros Hn Ht Hroom. cbv zeta. unfold DatabaseManager.create_invoice.
  rewrite (bind_int_fits _ Hn), (bind_int_fits _ Ht).
  rewrite (proj1 (new_rowid_high_water _ _ Hroom)).
  reflexivity.
Qed.

(** *** Consistent invoice tables *)

Lemma consistent_same_invoices (d d' : DatabaseManager.db) :
  same_invoices d d' -> consistent d -> consistent d'.
Proof.
  intros (Hi & Hs & Hit) [H0 H]. unfold consistent. rewrite Hi, Hs, Hit.
  split; assumption.
Qed.

Lemma add_product_same_invoices (code name unit : string) (price : Z)
    (system type : string) (factor base_add : num) (name_pattern : option string)
    (stops_offset : Z) (category : option string) (is_active : Z)
    (min_floors max_floors : option Z) (d : DatabaseManager.db) :
  same_invoices d
    (snd (DatabaseManager.add_product code name unit price system type factor base_add
            name_pattern stops_offset category is_active min_floors max_floors d)).
Proof.
  unfold DatabaseManager.add_product. cbv zeta.
  match goal with
  | |- context [match ?r with
                | DatabaseManager.Done _ => _
                | DatabaseManager.Failed _ => _
                end] => destruct r
  end; repeat split.
Qed.

Lemma update_product_price_same_invoices (k price : Z) (d : DatabaseManager.db) :
  same_invoices d (snd (DatabaseManager.update_product_price k price d)).
Proof.
  unfold DatabaseManager.update_product_price, DatabaseManager.update_where_id.
  destruct (DatabaseManager.and_then _ _) as [[p k']|e]; repeat split.
Qed.

Lemma delete_product_same_invoices (k : Z) (d : DatabaseManager.db) :
  same_invoices d (snd (DatabaseManager.delete_product k d)).
Proof.
  unfold DatabaseManager.delete_product, DatabaseManager.update_where_id.
  destruct (DatabaseManager.bind_int k); repeat split.
Qed.

(** What [create_invoice] does to the tables: nothing when it raises, and
    otherwise one more invoice, with a key above the high-water mark. *)
Lemma create_invoice_outcome (now customer project system : string) (n total : Z)
    (d d1 : DatabaseManager.db) (o : DatabaseManager.outcome Z) :
  DatabaseManager.create_invoice now customer project system n total d = (o, d1) ->
  (d1 = d /\ exists e, o = DatabaseManager.Failed e)
  \/ exists k row,
       o = DatabaseManager.Done k
       /\ high_water (DatabaseManager.invoices_seq d)
            (map DatabaseManager.inv_id (DatabaseManager.invoices d)) < k
       /\ DatabaseManager.inv_id row = k
       /\ d1 = DatabaseManager.with_invoices d (DatabaseManager.invoices d ++ [row]) k.
Proof.
  unfold DatabaseManager.create_invoice. cbv zeta.
  destruct (DatabaseManager.bind_int n) as [n'|e];
    [|intros [= <- <-]; left; split; [reflexivity | eexists; reflexivity]].
  destruct (DatabaseManager.bind_int total) as [t'|e];
    [|intros [= <- <-]; left; split; [reflexivity | eexists; reflexivity]].
  cbn [DatabaseManager.and_then]. unfold DatabaseManager.new_rowid.
  destruct (_ || _);
    [intros [= <- <-]; left; split; [reflexivity | eexists; reflexivity]|].
  cbn [DatabaseManager.and_then DatabaseManager.inv_id]. intros [= <- <-].
  right. eexists _, _. split; [reflexivity|].
  split; [unfold high_water; lia|]. split; [|reflexivity]. reflexivity.
Qed.

Lemma create_invoice_keeps_consistent (now customer project system : string)
    (n total : Z) (d : DatabaseManager.db) :
  consistent d ->
  consistent (snd (DatabaseManager.create_invoice now customer project system n total d)).
Proof.
  intros [H0 H].
  destruct (DatabaseManager.create_invoice now customer project system n total d)
    as [o d1] eqn:Hc.
  destruct (create_invoice_outcome _ _ _ _ _ _ _ _ _ Hc)
    as [[-> _] | (k & row & _ & Hk & _ & ->)]; cbn [snd]; [split; assumption|].
  unfold consistent.
  cbn [DatabaseManager.with_invoices DatabaseManager.invoices_seq
       DatabaseManager.invoices DatabaseManager.invoice_items].
  split; [unfold high_water in Hk; lia|].
  intros r Hr. specialize (H r Hr). unfold high_water in *. lia.
Qed.

(** What [add_invoice_item] does to the tables: nothing when it raises,
    and otherwise one more item row, of the invoice named. *)
Lemma add_invoice_item_outcome (invoice_id product_id : Z) (name unit : string)
    (quantity : num) (unit_price total_price : Z) (d d1 : DatabaseManager.db)
    (o : DatabaseManager.outcome Z) :
  DatabaseManager.add_invoice_item invoice_id product_id name unit quantity
    unit_price total_price d = (o, d1) ->
  d1 = d
  \/ exists row,
       DatabaseManager.ii_invoice_id row = invoice_id
       /\ d1 = DatabaseManager.with_invoice_items d
                 (DatabaseManager.invoice_items d ++ [row]) (DatabaseManager.ii_id row).
Proof.
  unfold DatabaseManager.add_invoice_item. cbv zeta.
  destruct (DatabaseManager.bind_int invoice_id) as [i'|e] eqn:Hi;
    [|intros [= <- <-]; left; reflexivity].
  apply bind_int_done in Hi as [-> _].
  destruct (DatabaseManager.bind_int product_id) as [p'|e];
    [|intros [= <- <-]; left; reflexivity].
  cbn [DatabaseManager.and_then].
  destruct (DatabaseManager.bind_real quantity) as [[q|]|e];
    cbn [DatabaseManager.and_then];
    (destruct (DatabaseManager.bind_int unit_price) as [u'|e'];
     [|intros [= <- <-]; left; reflexivity]);
    (destruct (DatabaseManager.bind_int total_price) as [t'|e'];
     [|intros [= <- <-]; left; reflexivity]);
    cbn [DatabaseManager.and_then]; try (intros [= <- <-]; left; reflexivity).
  destruct (DatabaseManager.new_rowid _ _) as [k|e'];
    cbn [DatabaseManager.and_then]; intros [= <- <-]; [|left; reflexivity].
  right.
  exists {| DatabaseManager.ii_id := k; DatabaseManager.ii_invoice_id := invoice_id;
            DatabaseManager.ii_product_id := Some p'; DatabaseManager.ii_name := name;
            DatabaseManager.ii_unit := unit; DatabaseManager.ii_quantity := q;
            DatabaseManager.ii_unit_price := u'; DatabaseManager.ii_total_price := t' |}.
  split; reflexivity.
Qed.

(** Whatever the loop that saves the items does, it adds only rows of the
    invoice named, and leaves the invoices alone. *)
Lemma save_items_outcome (invoice_id : Z) (its : list item) :
  forall (d d' : DatabaseManager.db) (o : DatabaseManager.outcome Datatypes.unit),
    Conversation.save_items invoice_id its d = (o, d') ->
    exists rows,
      DatabaseManager.invoice_items d' = DatabaseManager.invoice_items d ++ rows
      /\ (forall r, In r rows -> DatabaseManager.ii_invoice_id r = invoice_id)
      /\ DatabaseManager.invoices d' = DatabaseManager.invoices d
      /\ DatabaseManager.invoices_seq d' = DatabaseManager.invoices_seq d.
Proof.
  induction its as [|it its IH]; intros d d' o; cbn [Conversation.save_items].
  - intros [= <- <-]. exists []. rewrite app_nil_r. repeat split. intros r [].
  - destruct (DatabaseManager.add_invoice_item _ _ _ _ _ _ _ d) as [[k|e] d1] eqn:Ha.
    + intros Hs. destruct (IH _ _ _ Hs) as (rows & Hrows & Hid & Hi & Hq).
      destruct (add_invoice_item_outcome _ _ _ _ _ _ _ _ _ _ Ha) as [-> | (row & Hr & ->)].
      * exists rows. repeat split; assumption.
      * exists (row :: rows).
        cbn [DatabaseManager.with_invoice_items DatabaseManager.invoice_items
             DatabaseManager.invoices DatabaseManager.invoices_seq] in *.
        split; [rewrite Hrows, <- app_assoc; reflexivity|].
        split; [|split; assumption].
        intros r [<- | Hin]; [exact Hr | apply Hid; exact Hin].
    + intros [= <- <-].
      destruct (add_invoice_item_outcome _ _ _ _ _ _ _ _ _ _ Ha) as [-> | (row & Hr & ->)].
      * exists []. rewrite app_nil_r. repeat split. intros r [].
      * exists [row].
        cbn [DatabaseManager.with_invoice_items DatabaseManager.invoice_items
             DatabaseManager.invoices DatabaseManager.invoices_seq].
        repeat split. intros r [<- | []]. exact Hr.
Qed.

(** The body of the [try] of the confirmation, the only caller of
    [create_invoice] and [add_invoice_item], keeps the invoice tables
    consistent, whether it returns or raises and wherever it raises. *)
Lemma save_and_deliver_keeps_consistent (now : string)
    (deliver : Z -> Conversation.user_data -> invoice ->
               option string * option string * option string ->
               DatabaseManager.outcome Datatypes.unit)
    (ud : Conversation.user_data) (d : DatabaseManager.db) :
  consistent d -> consistent (snd (Conversation.save_and_deliver now deliver ud d)).
Proof.
  intros Hd. unfold Conversation.save_and_deliver.
  destruct (DatabaseManager.and_then _ _) as [[[[[result customer] project] system] n]|e];
    [|exact Hd].
  pose proof (create_invoice_keeps_consistent now customer project system n
                (invoice_total_price result) d Hd) as Hd1.
  destruct (DatabaseManager.create_invoice now customer project system n
              (invoice_total_price result) d) as [[k|e] d1] eqn:Hc;
    cbn [snd] in Hd1; [|exact Hd1].
  assert (Hk : k <= high_water (DatabaseManager.invoices_seq d1)
                      (map DatabaseManager.inv_id (DatabaseManager.invoices d1))).
  { destruct (create_invoice_outcome _ _ _ _ _ _ _ _ _ Hc)
      as [[_ [e He]] | (k' & row & [= <-] & _ & _ & ->)]; [discriminate|].
    cbn [DatabaseManager.with_invoices DatabaseManager.invoices_seq].
    unfold high_water. lia. }
  assert (Hd2 : forall o d2,
            Conversation.save_items k (items result) d1 = (o, d2) -> consistent d2).
  { intros o d2 Hs.
    destruct (save_items_outcome _ _ _ _ _ Hs) as (rows & Hrows & Hid & Hi & Hq).
    destruct Hd1 as [H0 H]. unfold consistent. rewrite Hrows, Hi, Hq.
    split; [exact H0|]. intros r Hr. apply in_app_or in Hr as [Hr | Hr];
      [apply H; exact Hr | rewrite (Hid r Hr); exact Hk]. }
  destruct (Conversation.save_items k (items result) d1) as [[u|e] d2] eqn:Hs;
    [|exact (Hd2 _ _ eq_refl)].
  cbn [DatabaseManager.get_setting fst].
  destruct (deliver _ _ _ _); exact (Hd2 _ _ eq_refl).
Qed.

(** X10: the invoice tables are consistent (the key sequence of
    [invoices] is not negative and no item row refers to an invoice that is
    yet to come) in the empty database that [init_database] creates, and
    [add_product], [update_product_price], [delete_product],
    [set_setting], [create_invoice] and the confirmation step, the only
    caller of [add_invoice_item], keep them consistent.  In a database
    with consistent invoice tables, when the user answers 1 at the
    confirmation, the user data is complete, the ints of the invoice fit
    64 bits, the quantities can be stored and the tables can take the
    rows, an invoice row with a new key is stored with the customer,
    project, system, floor count and total of the calculation, and one item
    row for each item of the calculation, in order, the quantity as the
    float the REAL column gives back; [get_invoice] and
    [get_invoice_items] on the new key return them.  The rows are stored
    before the document is generated and stay stored when generating or
    sending it fails; the conversation ends and the user data is cleared
    either way. *)
Theorem confirmed_invoice_is_saved (strip : string -> string) (now : string)
    (deliver : Z -> Conversation.user_data -> invoice ->
               option string * option string * option string ->
               DatabaseManager.outcome Datatypes.unit)
    (text : string) (ud : Conversation.user_data) (d : DatabaseManager.db)
    (result : invoice) (customer project system : string) (n : Z) :
  (consistent (DatabaseManager.init_database None)
   /\ (consistent d ->
       consistent (DatabaseManager.init_database (Some d))
       /\ (forall code name unit price system type factor base_add name_pattern
                  stops_offset category is_active min_floors max_floors,
             consistent
               (snd (DatabaseManager.add_product code name unit price system type
                       factor base_add name_pattern stops_offset category is_active
                       min_floors max_floors d)))
       /\ (forall k price,
             consistent (snd (DatabaseManager.update_product_price k price d)))
       /\ (forall k, consistent (snd (DatabaseManager.delete_product k d)))
       /\ (forall key value, consistent (snd (DatabaseManager.set_setting key value d)))
       /\ (forall customer project system n total,
             consistent
               (snd (DatabaseManager.create_invoice now customer project system n
                       total d)))
       /\ consistent (snd (Conversation.confirmation strip now deliver text ud d))))
  /\ (strip text = "1" ->
      Conversation.calculation_result ud = Some result ->
      Conversation.customer_name ud = Some customer ->
      Conversation.project_name ud = Some project ->
      Conversation.system_type ud = Some system ->
      Conversation.floors ud = Some n ->
      int64 n -> int64 (invoice_total_price result) ->
      Forall storable (items result) ->
      consistent d ->
      high_water (DatabaseManager.invoices_seq d)
        (map DatabaseManager.inv_id (DatabaseManager.invoices d))
        < DatabaseManager.max_rowid ->
      high_water (DatabaseManager.invoice_items_seq d)
        (map DatabaseManager.ii_id (DatabaseManager.invoice_items d))
        + Z.of_nat (List.length (items result)) <= DatabaseManager.max_rowid ->
      let invoice_id :=
        high_water (DatabaseManager.invoices_seq d)
          (map DatabaseManager.inv_id (DatabaseManager.invoices d)) + 1 in
      let row :=
        {| DatabaseManager.inv_id := invoice_id;
           DatabaseManager.inv_customer_name := customer;
           DatabaseManager.inv_project_name := project;
           DatabaseManager.inv_system := system;
           DatabaseManager.inv_floors := n;
           DatabaseManager.inv_total_price := invoice_total_price result;
           DatabaseManager.inv_created_at := now |} in
      exists d' rows replies,
        Conversation.confirmation strip now deliver text ud d
          = ((Conversation.END, Conversation.cleared, replies), d')
        /\ (replies = [Conversation.Generating; Conversation.Issued invoice_id;
                       Conversation.StartAgain]
            \/ exists e,
                 replies = [Conversation.Generating; Conversation.GenerationError e])
        /\ (forall r, In r (DatabaseManager.invoices d) ->
                       DatabaseManager.inv_id r < invoice_id)
        /\ DatabaseManager.invoices d' = DatabaseManager.invoices d ++ [row]
        /\ DatabaseManager.get_invoice invoice_id d' = (DatabaseManager.Done (Some row), d')
        /\ DatabaseManager.get_invoice_items invoice_id d'
           = (DatabaseManager.Done rows, d')
        /\ DatabaseManager.invoice_items d' = DatabaseManager.invoice_items d ++ rows
        /\ Forall2 (holds invoice_id) (items result) rows
        /\ DatabaseManager.catalog d' = DatabaseManager.catalog d
        /\ DatabaseManager.settings d' = DatabaseManager.settings d
        /\ consistent d').
Proof.
  assert (Hkeep : consistent d ->
                  consistent (snd (Conversation.confirmation strip now deliver text ud d))).
  { intros Hd. unfold Conversation.confirmation.
    destruct (String.eqb (strip text) "0"); [exact Hd|].
    destruct (negb (String.eqb (strip text) "1")); [exact Hd|].
    pose proof (save_and_deliver_keeps_consistent now deliver ud d Hd) as H.
    destruct (Conversation.save_and_deliver now deliver ud d) as [[k|e] d']; exact H. }
  split.
  { split; [split; [vm_compute; discriminate | intros r []]|].
    intros Hd. split; [exact Hd|].
    split; [intros; eapply consistent_same_invoices;
            [apply add_product_same_invoices | exact Hd]|].
    split; [intros; eapply consistent_same_invoices;
            [apply update_product_price_same_invoices | exact Hd]|].
    split; [intros; eapply consistent_same_invoices;
            [apply delete_product_same_invoices | exact Hd]|].
    split; [intros; eapply consistent_same_invoices; [|exact Hd]; repeat split|].
    split; [intros; apply create_invoice_keeps_consistent; exact Hd|].
    exact (Hkeep Hd). }
  intros Hstrip Hres Hcus Hpro Hsys Hfl Hn Ht Hst Hd Hroom Hroom'.
  pose proof Hd as [Hseq Hold].
  cbv zeta.
  set (hw := high_water (DatabaseManager.invoices_seq d)
               (map DatabaseManager.inv_id (DatabaseManager.invoices d))) in *.
  assert (Hhw : 0 <= hw) by (unfold hw, high_water; lia).
  assert (Hid : int64 (hw + 1)).
  { unfold int64. change DatabaseManager.max_rowid with 9223372036854775807 in *. lia. }
  pose proof (create_invoice_adds_row now customer project system n
                (invoice_total_price result) d Hn Ht Hroom) as Hcreate.
  cbv zeta in Hcreate. fold hw in Hcreate.
  set (row := {| DatabaseManager.inv_id := hw + 1;
                 DatabaseManager.inv_customer_name := customer;
                 DatabaseManager.inv_project_name := project;
                 DatabaseManager.inv_system := system;
                 DatabaseManager.inv_floors := n;
                 DatabaseManager.inv_total_price := invoice_total_price result;
                 DatabaseManager.inv_created_at := now |}) in *.
  set (d1 := DatabaseManager.with_invoices d (DatabaseManager.invoices d ++ [row]) (hw + 1))
    in *.
  destruct (save_items_adds_rows (hw + 1) (items result) Hid Hst d1 Hroom')
    as (d2 & rows & Hsave & Hrows & HR & Hc2 & Hi2 & His2 & Hs2).
  assert (Hbody : exists o,
            Conversation.save_and_deliver now deliver ud d = (o, d2)
            /\ (o = DatabaseManager.Done (hw + 1) \/ exists e, o = DatabaseManager.Failed e)).
  { unfold Conversation.save_and_deliver. rewrite Hres, Hcus, Hpro, Hsys, Hfl.
    cbn [Conversation.lookup DatabaseManager.and_then].
    rewrite Hcreate, Hsave. cbn [DatabaseManager.get_setting fst].
    destruct (deliver _ _ _ _) as [u|e]; eexists; (split; [reflexivity|]);
      [left; reflexivity | right; eexists; reflexivity]. }
  destruct Hbody as (o & Hbody & Ho).
  assert (Hlow : forall r, In r (DatabaseManager.invoices d) ->
                           DatabaseManager.inv_id r < hw + 1).
  { intros r Hr. pose proof (below_high_water (DatabaseManager.invoices_seq d) _ _
                               (in_map DatabaseManager.inv_id _ _ Hr)). fold hw in H. lia. }
  assert (Hconf : Conversation.confirmation strip now deliver text ud d
                  = ((Conversation.END, Conversation.cleared,
                      match o with
                      | DatabaseManager.Done k =>
                          [Conversation.Generating; Conversation.Issued k;
                           Conversation.StartAgain]
                      | DatabaseManager.Failed e =>
                          [Conversation.Generating; Conversation.GenerationError e]
                      end), d2)).
  { unfold Conversation.confirmation. rewrite Hstrip.
    change (String.eqb "1" "0") with false. change (String.eqb "1" "1") with true.
    cbn [negb]. rewrite Hbody. destruct o; reflexivity. }
  exists d2, rows.
  exists (match o with
          | DatabaseManager.Done k =>
              [Conversation.Generating; Conversation.Issued k; Conversation.StartAgain]
          | DatabaseManager.Failed e =>
              [Conversation.Generating; Conversation.GenerationError e]
          end).
  split; [|split; [|split; [|split; [|split; [|split; [|split; [|split; [|split;
    [|split]]]]]]]]].
  - exact Hconf.
  - destruct Ho as [-> | [e ->]]; [left; reflexivity | right; eexists; reflexivity].
  - exact Hlow.
  - rewrite Hi2. reflexivity.
  - unfold DatabaseManager.get_invoice. rewrite (bind_int_fits _ Hid), Hi2.
    cbn [d1 DatabaseManager.with_invoices DatabaseManager.invoices].
    rewrite find_app_last. cbn [DatabaseManager.inv_id row]. rewrite Z.eqb_refl.
    destruct (find _ (DatabaseManager.invoices d)) as [r|] eqn:E; [|reflexivity].
    apply find_some in E as [Hin He]. apply Z.eqb_eq in He.
    specialize (Hlow _ Hin). lia.
  - unfold DatabaseManager.get_invoice_items. rewrite (bind_int_fits _ Hid), Hrows.
    cbn [d1 DatabaseManager.with_invoices DatabaseManager.invoice_items].
    rewrite filter_app. f_equal. f_equal.
    replace (filter _ (DatabaseManager.invoice_items d))
      with (@nil DatabaseManager.invoice_item_row).
    + cbn [app]. clear - HR. induction HR as [|it r its rs Hh _ IH]; [reflexivity|].
      cbn [filter]. destruct Hh as (-> & _). rewrite Z.eqb_refl, IH. reflexivity.
    + symmetry. clear - Hold. induction (DatabaseManager.invoice_items d) as [|r l IH];
        [reflexivity|].
      cbn [filter]. specialize (Hold r (or_introl eq_refl)) as Hr.
      replace (DatabaseManager.ii_invoice_id r =? hw + 1) with false
        by (symmetry; apply Z.eqb_neq; lia).
      apply IH. intros r' Hr'. apply Hold. right. exact Hr'.
  - rewrite Hrows. reflexivity.
  - exact HR.
  - rewrite Hc2. reflexivity.
  - rewrite Hs2. reflexivity.
  - replace d2 with (snd (Conversation.confirmation strip now deliver text ud d))
      by (rewrite Hconf; reflexivity).
    exact (Hkeep Hd).
Qed.

Lemma confirmed_invoice_is_saved_witness :
  exists d' rows replies,
    Conversation.confirmation (fun s => s) "2024-05-01T10:00:00"
      (fun _ _ _ _ => DatabaseManager.Failed DatabaseManager.OperationalError)
      "1" (example_user_data example_invoice) example_db
    = ((Conversation.END, Conversation.cleared, replies), d')
    /\ DatabaseManager.get_invoice_items 2 d' = (DatabaseManager.Done rows, d')
    /\ Forall2 (holds 2) (items example_invoice) rows
    /\ consistent d'.
Proof.
  assert (H64 : forall n, - 2 ^ 62 <= n <= 2 ^ 62 -> int64 n).
  { intros n Hn. unfold int64. change DatabaseManager.max_rowid with (2 ^ 63 - 1). lia. }
  destruct (proj2 (confirmed_invoice_is_saved (fun s => s) "2024-05-01T10:00:00"
                     (fun _ _ _ _ => DatabaseManager.Failed DatabaseManager.OperationalError)
                     "1" (example_user_data example_invoice) example_db example_invoice
                     "A. Customer" "Tower 2" "hydraulic" 5))
    as (d' & rows & replies & H1 & _ & _ & _ & _ & H6 & _ & H8 & _ & _ & H11);
    try match goal with
        | |- int64 _ => apply H64; cbn; lia
        | |- Forall storable _ =>
            repeat constructor; try (apply H64; cbn; lia);
            (eexists; vm_compute; reflexivity)
        | |- consistent _ =>
            split; [vm_compute; discriminate
                   | intros r [<- | []]; vm_compute; discriminate]
        | |- _ <= _ => vm_compute; discriminate
        | |- _ < _ => vm_compute; reflexivity
        | |- _ = _ => reflexivity
        end.
  exists d', rows, replies. split; [exact H1|]. split; [exact H6|].
  split; [exact H8 | exact H11].
Defined.

(** X11: the confirmation stores nothing unless the stripped answer is
    1: on 0 the conversation ends with the user data cleared, on any other
    answer the question is repeated with the user data kept, and in both
    cases the database is as it was; on 1 with an entry of the user data
    missing the conversation ends with an error and the database is as it
    was. *)
Theorem unconfirmed_invoice_is_not_saved (strip : string -> string) (now : string)
    (deliver : Z -> Conversation.user_data -> invoice ->
               option string * option string * option string ->
               DatabaseManager.outcome Datatypes.unit)
    (text : string) (ud : Conversation.user_data) (d : DatabaseManager.db) :
  (strip text = "0" ->
   Conversation.confirmation strip now deliver text ud d
   = ((Conversation.END, Conversation.cleared, [Conversation.Cancelled]), d))
  /\ (strip text <> "0" -> strip text <> "1" ->
      Conversation.confirmation strip now deliver text ud d
      = ((Conversation.CONFIRMATION, ud, [Conversation.AnswerOneOrZero]), d))
  /\ (strip text = "1" ->
      Conversation.calculation_result ud = None
      \/ Conversation.customer_name ud = None
      \/ Conversation.project_name ud = None
      \/ Conversation.system_type ud = None
      \/ Conversation.floors ud = None ->
      Conversation.confirmation strip now deliver text ud d
      = ((Conversation.END, Conversation.cleared,
          [Conversation.Generating;
           Conversation.GenerationError (DatabaseManager.Builtin KeyError)]), d)).
Proof.
  unfold Conversation.confirmation. split; [|split].
  - intros ->. reflexivity.
  - intros H0 H1. apply String.eqb_neq in H0, H1. rewrite H0, H1. reflexivity.
  - intros -> Hmiss.
    change (String.eqb "1" "0") with false. change (String.eqb "1" "1") with true.
    cbn [negb]. unfold Conversation.save_and_deliver.
    destruct (Conversation.calculation_result ud); [|reflexivity].
    destruct (Conversation.customer_name ud); [|reflexivity].
    destruct (Conversation.project_name ud); [|reflexivity].
    destruct (Conversation.system_type ud); [|reflexivity].
    destruct (Conversation.floors ud); [|reflexivity].
    destruct Hmiss as [H|[H|[H|[H|H]]]]; discriminate.
Qed.

Lemma unconfirmed_invoice_is_not_saved_witness :
  Conversation.confirmation (fun s => s) "2024-05-01T10:00:00"
    (fun _ _ _ _ => DatabaseManager.Done tt)
    "yes" (example_user_data example_invoice) example_db
  = ((Conversation.CONFIRMATION, example_user_data example_invoice,
      [Conversation.AnswerOneOrZero]), example_db).
Proof.
  apply (proj1 (proj2 (unconfirmed_invoice_is_not_saved (fun s => s)
                         "2024-05-01T10:00:00" (fun _ _ _ _ => DatabaseManager.Done tt)
                         "yes" (example_user_data example_invoice) example_db)));
    discriminate.
Defined.

(** ** Quantities that can be stored *)

Lemma quantity_int_is_zero (p : product) (floors n : Z) :
  _calculate_quantity p floors = Ok (PyInt n) -> n = 0.
Proof.
  unfold _calculate_quantity.
  assert (Hlin : forall q, (x <- mul (or0 (p_factor p)) (PyInt floors) ;;
                            add x (or0 (p_base_add p))) = Ok (PyInt q) -> q = 0).
  { intros q.
    destruct (or0_cases (p_factor p)) as [[-> _] | [-> _]];
      destruct (or0_cases (p_base_add p)) as [[-> _] | [-> _]];
      cbn [mul add to_float bind].
    - intros [= <-]. lia.
    - change (float_of_int (0 * floors)) with (float_of_int (0 * floors)).
      destruct (float_of_int (0 * floors)); cbn [bind]; discriminate.
    - destruct (float_of_int floors); cbn [bind add to_float]; [|discriminate].
      destruct (float_of_int 0); cbn [bind]; discriminate.
    - destruct (float_of_int floors); cbn [bind add to_float]; discriminate. }
  destruct (String.eqb (p_type p) "fixed").
  { destruct (or0_cases (p_factor p)) as [[-> _] | [-> _]]; cbn [gt0].
    - discriminate.
    - destruct (fltb fzero (or_zero (p_factor p))); discriminate. }
  destruct (String.eqb (p_type p) "linear"); [apply Hlin|].
  destruct (String.eqb (p_type p) "dynamic_name"); [|discriminate].
  destruct (gt0 (or0 (p_factor p))); [apply Hlin | discriminate].
Qed.

(** *** Negative zero *)


(** A positive number of [d] binary digits is at least [2 ^ (d - 1)]. *)
Lemma digits2_pos_lower (p : positive) : 2 ^ (Z.pos (digits2_pos p) - 1) <= Z.pos p.
Proof.
  induction p as [p IH|p IH|]; cbn [digits2_pos].
  - rewrite Pos2Z.inj_succ.
    replace (Z.succ (Z.pos (digits2_pos p)) - 1) with (Z.succ (Z.pos (digits2_pos p) - 1))
      by lia.
    rewrite Z.pow_succ_r by lia. lia.
  - rewrite Pos2Z.inj_succ.
    replace (Z.succ (Z.pos (digits2_pos p)) - 1) with (Z.succ (Z.pos (digits2_pos p) - 1))
      by lia.
    rewrite Z.pow_succ_r by lia. lia.
  - cbn. lia.
Qed.

(** A shift to the right by one place halves the number. *)
Lemma shr_1_half (mrs : shr_record) :
  0 <= shr_m mrs -> shr_m (shr_1 mrs) = shr_m mrs / 2.
Proof.
  destruct mrs as [m r t]. cbn [shr_m shr_1].
  destruct m as [|[q|q|]|[q|q|]]; cbn [shr_m]; intros H; try lia.
  - reflexivity.
  - rewrite Pos2Z.inj_xI. apply (Z.div_unique _ _ _ 1); lia.
  - rewrite Pos2Z.inj_xO. apply (Z.div_unique _ _ _ 0); lia.
  - reflexivity.
Qed.

Lemma iter_shr_1_nonneg (n : positive) (mrs : shr_record) :
  0 <= shr_m mrs -> 0 <= shr_m (iter_pos shr_1 n mrs).
Proof. apply (iter_pos_inv shr_1 (fun x => 0 <= shr_m x)). exact shr_1_nonneg. Qed.

(** A shift to the right by [n] places divides by [2 ^ n]. *)
Lemma iter_shr_1_div (n : positive) :
  forall mrs, 0 <= shr_m mrs ->
              shr_m (iter_pos shr_1 n mrs) = shr_m mrs / 2 ^ Z.pos n.
Proof.
  induction n as [n IH|n IH|]; intros mrs H; cbn [iter_pos].
  - rewrite IH by (apply iter_shr_1_nonneg, shr_1_nonneg, H).
    rewrite IH by (apply shr_1_nonneg, H). rewrite shr_1_half by exact H.
    rewrite !Z.div_div by lia.
    f_equal. rewrite Pos2Z.inj_xI.
    replace (2 * Z.pos n + 1) with (1 + Z.pos n + Z.pos n) by lia.
    rewrite !Z.pow_add_r by lia. lia.
  - rewrite IH by (apply iter_shr_1_nonneg, H). rewrite IH by exact H.
    rewrite Z.div_div by lia.
    f_equal. rewrite <- Z.pow_add_r by lia. f_equal. lia.
  - rewrite shr_1_half by exact H. reflexivity.
Qed.

(** Rounding to the format never leaves an exponent below the least one. *)
Lemma shr_fexp_above_emin (m e : Z) (l : location) :
  emin prec emax <= snd (shr_fexp prec emax m e l).
Proof.
  unfold shr_fexp, shr, fexp.
  destruct (Z.max (Zdigits2 m + e - prec) (emin prec emax) - e) as [|q|q] eqn:E;
    cbn [snd]; lia.
Qed.

(** Rounding a positive number whose exponent is not below the least one
    leaves a positive number. *)
Lemma shr_fexp_pos (m e : Z) (l : location) :
  0 < m -> emin prec emax <= e -> 0 < shr_m (fst (shr_fexp prec emax m e l)).
Proof.
  intros Hm He. unfold shr_fexp, shr, fexp.
  assert (H0 : shr_m (shr_record_of_loc m l) = m) by (destruct l as [|[]]; reflexivity).
  destruct (Z.max (Zdigits2 m + e - prec) (emin prec emax) - e) as [|q|q] eqn:E;
    cbn [fst]; try (rewrite H0; exact Hm).
  rewrite iter_shr_1_div by (rewrite H0; lia). rewrite H0.
  destruct m as [|p|p]; try lia. cbn [Zdigits2] in E.
  pose proof (digits2_pos_lower p) as Hd.
  apply Z.div_str_pos. split; [apply Z.pow_pos_nonneg; lia|].
  apply Z.le_trans with (2 ^ (Z.pos (digits2_pos p) - 1)); [|exact Hd].
  apply Z.pow_le_mono_r; [lia|]. unfold emin, prec in *. lia.
Qed.

Lemma round_nearest_even_pos (m : Z) (l : location) :
  0 < m -> 0 < round_nearest_even m l.
Proof.
  intros Hm. unfold round_nearest_even.
  destruct l as [|[]]; try destruct (Z.even m); lia.
Qed.

(** A finite result of rounding has an exponent of the format. *)
Lemma binary_round_aux_above_emin (sx : bool) (mx ex : Z) (lx : location) :
  above_emin (binary_round_aux prec emax sx mx ex lx).
Proof.
  unfold binary_round_aux.
  destruct (shr_fexp prec emax mx ex lx) as [mrs' e'].
  pose proof (shr_fexp_above_emin
                (round_nearest_even (shr_m mrs') (loc_of_shr_record mrs')) e' loc_Exact)
    as H.
  destruct (shr_fexp prec emax _ e' loc_Exact) as [mrs'' e'']. cbn [snd] in H.
  destruct (shr_m mrs'') as [|q|q]; try exact I.
  destruct (e'' <=? emax - prec); [exact H | exact I].
Qed.

(** Rounding a positive number whose exponent is not below the least one
    does not give a zero. *)
Lemma binary_round_aux_not_zero (sx : bool) (mx ex : Z) (lx : location) (s : bool) :
  0 < mx -> emin prec emax <= ex ->
  binary_round_aux prec emax sx mx ex lx <> S754_zero s.
Proof.
  intros Hm He. unfold binary_round_aux.
  pose proof (shr_fexp_pos mx ex lx Hm He) as H1.
  pose proof (shr_fexp_above_emin mx ex lx) as E1.
  destruct (shr_fexp prec emax mx ex lx) as [mrs' e']. cbn [fst snd] in H1, E1.
  pose proof (shr_fexp_pos _ e' loc_Exact
                (round_nearest_even_pos _ (loc_of_shr_record mrs') H1) E1) as H2.
  destruct (shr_fexp prec emax _ e' loc_Exact) as [mrs'' e'']. cbn [fst] in H2.
  destruct (shr_m mrs'') as [|q|q]; try lia.
  destruct (e'' <=? emax - prec); discriminate.
Qed.

(** The sign of a zero that rounding gives is the sign asked for. *)
Lemma binary_round_aux_zero_sign (sx : bool) (mx ex : Z) (lx : location) (s : bool) :
  binary_round_aux prec emax sx mx ex lx = S754_zero s -> s = sx.
Proof.
  unfold binary_round_aux.
  destruct (shr_fexp prec emax mx ex lx) as [mrs' e'].
  destruct (shr_fexp prec emax _ e' loc_Exact) as [mrs'' e''].
  destruct (shr_m mrs'') as [|q|q]; try discriminate.
  - intros [= <-]. reflexivity.
  - destruct (e'' <=? emax - prec); discriminate.
Qed.

Lemma binary_normalize_not_negative_zero (m e : Z) :
  emin prec emax <= e -> binary_normalize prec emax m e false <> S754_zero true.
Proof.
  intros He. unfold binary_normalize, binary_round. destruct m as [|p|p].
  - discriminate.
  - destruct (shl_align _ _ _) as [mz ez]. intros H.
    apply binary_round_aux_zero_sign in H. discriminate.
  - unfold shl_align.
    destruct (fexp prec emax (Z.pos (digits2_pos p) + e) - e) as [|q|q] eqn:E;
      apply binary_round_aux_not_zero; try lia.
    unfold fexp in *. lia.
Qed.

(** A sum is [-0.0] only when both terms are zeros. *)
Lemma fadd_not_negative_zero (x b : float) :
  above_emin x -> above_emin b -> (forall s, b <> S754_zero s) ->
  fadd x b <> S754_zero true.
Proof.
  intros Hx Hb Hnz.
  destruct x as [sx|sx| |sx mx ex]; destruct b as [sb|sb| |sb mb eb];
    try (elim (Hnz sb); reflexivity); unfold fadd; cbn [SFadd]; try discriminate.
  - destruct sx, sb; discriminate.
  - cbn [above_emin] in Hx, Hb. apply binary_normalize_not_negative_zero.
    apply Z.min_glb; assumption.
Qed.

Lemma fmul_above_emin (f n : float) : above_emin (fmul f n).
Proof.
  destruct f as [sx|sx| |sx mx ex]; destruct n as [sy|sy| |sy my ey]; try exact I.
  apply binary_round_aux_above_emin.
Qed.

(** A binary64 float has an exponent of the format. *)
Lemma valid_binary_above_emin (x : float) :
  valid_binary prec emax x = true -> above_emin x.
Proof.
  destruct x as [s|s| |s m e]; try (intros _; exact I).
  cbn [valid_binary above_emin]. unfold bounded, canonical_mantissa, fexp.
  intros H. apply andb_true_iff in H as [H _]. apply Z.eqb_eq in H. lia.
Qed.

Lemma fadd_positive_zero (x : float) : fadd x (S754_zero false) <> S754_zero true.
Proof. destruct x as [[|]|[|]| |s m e]; discriminate. Qed.

(** A calculated quantity is not [-0.0], when the base_add of the rule is
    a binary64 float, as every float that SQLite gives back is. *)
Lemma quantity_not_negative_zero (p : product) (floors : Z) (x : float) :
  (forall b, p_base_add p = Some b -> valid_binary prec emax b = true) ->
  _calculate_quantity p floors = Ok (PyFloat x) -> x <> S754_zero true.
Proof.
  intros Hv. unfold _calculate_quantity.
  assert (Hlin : (y <- mul (or0 (p_factor p)) (PyInt floors) ;;
                  add y (or0 (p_base_add p))) = Ok (PyFloat x) -> x <> S754_zero true).
  { destruct (or0_cases (p_factor p)) as [[-> _] | [-> _]];
      destruct (or0_cases (p_base_add p)) as [[-> _] | [Hb Hnz]]; try rewrite Hb;
      cbn [mul add to_float bind].
    - discriminate.
    - rewrite Z.mul_0_l. change (float_of_int 0) with (Ok (S754_zero false)).
      cbn [bind]. rewrite fadd_zero_l by exact Hnz. intros [= <-]. apply Hnz.
    - destruct (float_of_int floors) as [n|]; cbn [bind add to_float]; [|discriminate].
      change (float_of_int 0) with (Ok (S754_zero false)). cbn [bind].
      intros [= <-]. apply fadd_positive_zero.
    - destruct (float_of_int floors) as [n|]; cbn [bind add to_float]; [|discriminate].
      intros [= <-]. apply fadd_not_negative_zero.
      + apply fmul_above_emin.
      + destruct (p_base_add p) as [b|]; [|exact I].
        apply valid_binary_above_emin. apply Hv. reflexivity.
      + exact Hnz. }
  destruct (String.eqb (p_type p) "fixed").
  { destruct (or0_cases (p_factor p)) as [[-> _] | [-> _]]; cbn [gt0].
    - intros [= <-]. discriminate.
    - destruct (fltb fzero (or_zero (p_factor p))) eqn:Hg; intros [= <-];
        [|discriminate].
      intros E. rewrite E in Hg. discriminate. }
  destruct (String.eqb (p_type p) "linear"); [apply Hlin|].
  destruct (String.eqb (p_type p) "dynamic_name"); [|intros [= <-]; discriminate].
  destruct (gt0 (or0 (p_factor p))); [apply Hlin | intros [= <-]; discriminate].
Qed.

(** X12: in every item that [calculate_invoice] returns the quantity is
    the int 0 or a finite float, never a NaN or an infinity: such a quantity
    is stored in the REAL column of [invoice_items] as the float it is (a
    zero as [0.0]), so saving the item cannot fail on the quantity.  When
    the base_add of every rule is a binary64 float, as every float that
    SQLite gives back is, no quantity is [-0.0], and the float stored is
    the quantity. *)
Theorem calculated_quantities_can_be_stored (floors : Z) (system_type : string)
    (c : Database.state) (inv : invoice) :
  fst (calculate_invoice floors system_type c) = Ok inv ->
  Forall (fun it =>
            (quantity it = PyInt 0
             \/ exists x, quantity it = PyFloat x /\ finite x = true)
            /\ exists q, to_float (quantity it) = Ok q
                         /\ DatabaseManager.bind_real (quantity it)
                            = DatabaseManager.Done (Some (DatabaseManager.real_column q))
                         /\ (q <> S754_zero true ->
                             DatabaseManager.bind_real (quantity it)
                             = DatabaseManager.Done (Some q)))
    (items inv)
  /\ ((forall r b, In r (products c) -> p_base_add r = Some b ->
                   valid_binary prec emax b = true) ->
      Forall (fun it =>
                quantity it <> PyFloat (S754_zero true)
                /\ exists q, to_float (quantity it) = Ok q
                             /\ DatabaseManager.bind_real (quantity it)
                                = DatabaseManager.Done (Some q))
        (items inv)).
Proof.
  intros H.
  assert (Hall : Forall (fun it =>
            (quantity it = PyInt 0
             \/ exists x, quantity it = PyFloat x /\ finite x = true)
            /\ exists q, to_float (quantity it) = Ok q
                         /\ DatabaseManager.bind_real (quantity it)
                            = DatabaseManager.Done (Some (DatabaseManager.real_column q))
                         /\ (q <> S754_zero true ->
                             DatabaseManager.bind_real (quantity it)
                             = DatabaseManager.Done (Some q)))
            (items inv)).
  { destruct (calculate_invoice_items _ _ _ _ H) as [HF _].
    eapply Forall2_right; [|exact HF]. intros p it Hit.
    destruct (make_item_fields _ _ _ Hit) as (Hq & _ & _ & _ & _ & a & Ha & Hi).
    unfold line_amount in Ha. destruct (quantity it) as [n|x].
    - apply quantity_int_is_zero in Hq as ->. split; [left; reflexivity|].
      eexists. split; [vm_compute; reflexivity|].
      split; [vm_compute; reflexivity | intros _; vm_compute; reflexivity].
    - assert (Hfin : finite x = true).
      { cbn [mul to_float bind] in Ha.
        destruct (float_of_int (unit_price it)) as [y|]; [|discriminate].
        cbn [bind] in Ha. injection Ha as <-. cbn [int] in Hi.
        destruct x as [s|s| |s m e]; try reflexivity.
        - destruct y; discriminate.
        - destruct y; discriminate. }
      split; [right; exists x; split; [reflexivity | exact Hfin]|].
      exists x. split; [reflexivity|].
      destruct x as [[|]|s| |s m e]; try discriminate;
        (split; [reflexivity | intros Hz; try reflexivity; congruence]). }
  split; [exact Hall|].
  intros Hv. rewrite Forall_forall in *. intros it Hin.
  destruct (item_has_a_rule _ _ _ _ _ H Hin) as (r & Hr & _ & Hit).
  destruct (make_item_fields _ _ _ Hit) as (Hq & _).
  assert (Hnz : quantity it <> PyFloat (S754_zero true)).
  { intros E. rewrite E in Hq.
    exact (quantity_not_negative_zero r floors _ (fun b Hb => Hv r b Hr Hb) Hq eq_refl). }
  split; [exact Hnz|].
  destruct (Hall it Hin) as (Hkind & q & Hto & _ & Hsame).
  exists q. split; [exact Hto|]. apply Hsame. intros ->.
  destruct Hkind as [E | (x & E & _)]; rewrite E in Hto, Hnz; cbn [to_float] in Hto.
  - vm_compute in Hto. discriminate.
  - injection Hto as ->. apply Hnz. reflexivity.
Qed.

Lemma calculated_quantities_can_be_stored_witness :
  exists inv,
    fst (calculate_invoice 5 "hydraulic" (DatabaseManager.catalog example_db)) = Ok inv
    /\ Forall (fun it =>
                 quantity it <> PyFloat (S754_zero true)
                 /\ exists q, to_float (quantity it) = Ok q
                              /\ DatabaseManager.bind_real (quantity it)
                                 = DatabaseManager.Done (Some q))
         (items inv).
Proof.
  eexists. split; [vm_compute; reflexivity|].
  apply (proj2 (calculated_quantities_can_be_stored 5 "hydraulic"
                  (DatabaseManager.catalog example_db) _ ltac:(vm_compute; reflexivity))).
  intros r b Hin. vm_compute in Hin.
  repeat (destruct Hin as [<- | Hin];
          [intros Hb; vm_compute in Hb; try discriminate;
           injection Hb as <-; vm_compute; reflexivity|]).
  destruct Hin.
Defined.

(** ** The price editor *)

Lemma update_product_price_tables (k price : Z) (d : DatabaseManager.db) :
  exists o d',
    DatabaseManager.update_product_price k price d = (o, d')
    /\ (d' = d
        \/ products (DatabaseManager.catalog d')
           = fst (DatabaseManager.update_where_id k (DatabaseManager.set_price price)
                    (products (DatabaseManager.catalog d)))).
Proof.
  unfold DatabaseManager.update_product_price.
  destruct (DatabaseManager.bind_int price) as [p|] eqn:Hp;
    [|eexists _, _; split; [reflexivity | left; reflexivity]].
  destruct (DatabaseManager.bind_int k) as [k'|] eqn:Hk;
    [|eexists _, _; split; [reflexivity | left; reflexivity]].
  apply bind_int_done in Hp as [-> _]. apply bind_int_done in Hk as [-> _].
  cbn [DatabaseManager.and_then].
  eexists _, _. split; [reflexivity | right; reflexivity].
Qed.

(** X13: the price editor never stores a negative price: a negative
    number is answered with a request to type the price again, with the
    database and the user data as they were, and when no price of the
    catalog is negative before [edit_price_value], whatever is typed, none
    is afterwards.  [edit_price_select] does not change the database, and
    goes on to the price only with a row of the catalog that has the key
    typed. *)
Theorem price_editor_keeps_prices_non_negative (int_of_str : string -> result Z)
    (text : string) (ud : AdminHandlers.user_data) (d : DatabaseManager.db) :
  (Forall (fun r => 0 <= p_price r) (products (DatabaseManager.catalog d)) ->
   Forall (fun r => 0 <= p_price r)
     (products (DatabaseManager.catalog
                  (snd (AdminHandlers.edit_price_value int_of_str text ud d)))))
  /\ (forall n,
        int_of_str (Helpers.remove " " (Helpers.remove "," text)) = Ok n -> n < 0 ->
        AdminHandlers.edit_price_value int_of_str text ud d
        = (DatabaseManager.Done (AdminHandlers.EDIT_PRICE_VALUE, ud,
                                 [AdminHandlers.PriceIsNegative]), d))
  /\ snd (AdminHandlers.edit_price_select int_of_str text ud d) = d
  /\ (forall ud' replies,
        fst (AdminHandlers.edit_price_select int_of_str text ud d)
        = DatabaseManager.Done (AdminHandlers.EDIT_PRICE_VALUE, ud', replies) ->
        exists product k,
          int_of_str text = Ok k /\ ud' = Some product
          /\ In product (products (DatabaseManager.catalog d)) /\ p_id product = k).
Proof.
  split; [|split; [|split]].
  - intros Hnn. unfold AdminHandlers.edit_price_value.
    destruct (int_of_str _) as [n|[]]; try exact Hnn.
    destruct (n <? 0) eqn:Hn; [exact Hnn|]. apply Z.ltb_ge in Hn.
    destruct ud as [product|]; [|exact Hnn].
    destruct (update_product_price_tables (p_id product) n d) as (o & d' & -> & Hd').
    assert (Hgoal : Forall (fun r => 0 <= p_price r) (products (DatabaseManager.catalog d'))).
    { destruct Hd' as [-> | ->]; [exact Hnn|].
      apply Forall_forall. intros r' Hr'.
      destruct (update_rows _ _ _ _ Hr') as (r & Hr & ->).
      rewrite Forall_forall in Hnn. specialize (Hnn _ Hr).
      destruct (p_id r =? p_id product); [exact Hn | exact Hnn]. }
    destruct o; exact Hgoal.
  - intros n Hi Hn. unfold AdminHandlers.edit_price_value. rewrite Hi.
    apply Z.ltb_lt in Hn. rewrite Hn. reflexivity.
  - unfold AdminHandlers.edit_price_select.
    destruct (int_of_str text) as [k|[]]; try reflexivity.
    unfold DatabaseManager.get_product_by_id.
    destruct (DatabaseManager.bind_int k); [|reflexivity].
    destruct (find _ _); reflexivity.
  - intros ud' replies. unfold AdminHandlers.edit_price_select.
    destruct (int_of_str text) as [k|[]]; try discriminate.
    unfold DatabaseManager.get_product_by_id.
    destruct (DatabaseManager.bind_int k) as [k'|] eqn:Hk; [|discriminate].
    apply bind_int_done in Hk as [-> _].
    destruct (find _ _) as [product|] eqn:E; [|discriminate].
    cbn [fst]. intros [= <- _]. apply find_some in E as [Hin He].
    apply Z.eqb_eq in He. exists product, k. repeat split; assumption.
Qed.

Lemma price_editor_keeps_prices_non_negative_witness :
  Forall (fun r => 0 <= p_price r)
    (products (DatabaseManager.catalog
                 (snd (AdminHandlers.edit_price_value decimal_int "1,250"
                         (product_with_id 2 example_db) example_db)))).
Proof.
  apply (proj1 (price_editor_keeps_prices_non_negative decimal_int "1,250"
                  (product_with_id 2 example_db) example_db)).
  repeat constructor; discriminate.
Defined.

Lemma remove_absent (c : ascii) (s : string) :
  (forall a, In a (list_ascii_of_string s) -> a <> c) -> Helpers.remove c s = s.
Proof.
  induction s as [|a s IH]; [reflexivity|]. cbn [list_ascii_of_string Helpers.remove].
  intros H. destruct (Ascii.eqb_spec a c) as [->|_].
  - elim (H c); [left|]; reflexivity.
  - rewrite IH; [reflexivity|]. intros b Hb. apply H. right. exact Hb.
Qed.

Lemma digits_have_no (c : ascii) (s : string) :
  Template.in_range "0" "9" c = false -> all_digits s = true ->
  forall a, In a (list_ascii_of_string s) -> a <> c.
Proof.
  intros Hc. induction s as [|b s IH]; [intros _ a []|].
  cbn [all_digits list_ascii_of_string]. rewrite andb_true_iff. intros [Hb Hs] a [<- | Ha].
  - intros ->. congruence.
  - apply IH; assumption.
Qed.

Lemma str_without_spaces (n : Z) : Helpers.remove " " (Py.str n) = Py.str n.
Proof.
  unfold Py.str. destruct (Z.to_int n) as [u|u]; cbn [NilZero.string_of_int].
  - apply remove_absent. apply digits_have_no; [reflexivity|].
    apply digits_of_uint_nil_zero.
  - cbn [Helpers.remove]. change (Ascii.eqb "-" " ") with false. cbv iota. f_equal.
    apply remove_absent. apply digits_have_no; [reflexivity|].
    apply digits_of_uint_nil_zero.
Qed.

Lemma format_int_without_commas (n : Z) :
  Helpers.remove "," (Helpers.format_int n) = Py.str n.
Proof.
  unfold Helpers.format_int, Py.str.
  destruct (Z.to_int n) as [u|u]; cbn [NilZero.string_of_int Helpers.remove].
  - apply remove_commas, digits_of_uint_nil_zero.
  - change (Ascii.eqb "-" ",") with false. cbv iota.
    f_equal. apply remove_commas, digits_of_uint_nil_zero.
Qed.

(** X14: a price typed into the price editor as [format_price] shows it,
    with its commas, is read as that price: when [int] reads the decimal
    digits of the price back, the price is not negative and the key of the
    chosen product and the price fit 64 bits, [edit_price_value] stores the
    price in the row of the product, reports whether there is such a row,
    and ends the conversation with the user data cleared. *)
Theorem formatted_price_is_typed_back (int_of_str : string -> result Z)
    (price : Z) (product : product) (d : DatabaseManager.db) :
  int_of_str (Py.str price) = Ok price ->
  0 <= price -> int64 price -> int64 (p_id product) ->
  exists d',
    AdminHandlers.edit_price_value int_of_str (Helpers.format_price price)
      (Some product) d
    = (DatabaseManager.Done
         (AdminHandlers.END, None,
          [match product_with_id (p_id product) d with
           | Some _ => AdminHandlers.PriceUpdated product price
           | None => AdminHandlers.UpdateFailed
           end]), d')
    /\ product_with_id (p_id product) d'
       = option_map (DatabaseManager.set_price price) (product_with_id (p_id product) d)
    /\ forall k, k <> p_id product -> product_with_id k d' = product_with_id k d.
Proof.
  intros Hint Hnn Hp Hk. unfold AdminHandlers.edit_price_value, Helpers.format_price.
  rewrite format_int_without_commas, str_without_spaces, Hint.
  replace (price <? 0) with false by (symmetry; apply Z.ltb_ge; exact Hnn).
  unfold DatabaseManager.update_product_price.
  rewrite (bind_int_fits _ Hp), (bind_int_fits _ Hk). cbn [DatabaseManager.and_then].
  destruct (DatabaseManager.update_where_id (p_id product)
              (DatabaseManager.set_price price)
              (products (DatabaseManager.catalog d))) as [rows rowcount] eqn:Hu.
  assert (Hrows : rows = fst (DatabaseManager.update_where_id (p_id product)
              (DatabaseManager.set_price price)
              (products (DatabaseManager.catalog d)))) by (rewrite Hu; reflexivity).
  assert (Hcount : rowcount = snd (DatabaseManager.update_where_id (p_id product)
              (DatabaseManager.set_price price)
              (products (DatabaseManager.catalog d)))) by (rewrite Hu; reflexivity).
  eexists. split; [|split].
  - rewrite Hcount, update_rowcount. unfold product_with_id.
    destruct (find _ _); reflexivity.
  - unfold product_with_id.
    cbn [DatabaseManager.with_catalog DatabaseManager.catalog products].
    rewrite Hrows, update_then_find by reflexivity. rewrite Z.eqb_refl. reflexivity.
  - intros k Hne. unfold product_with_id.
    cbn [DatabaseManager.with_catalog DatabaseManager.catalog products].
    rewrite Hrows, update_then_find by reflexivity.
    replace (k =? p_id product) with false by (symmetry; apply Z.eqb_neq; exact Hne).
    destruct (find _ _); reflexivity.
Qed.

Lemma formatted_price_is_typed_back_witness :
  exists d',
    AdminHandlers.edit_price_value decimal_int "15,000,000"
      (Some (example_rule 2 "gearless" "fixed" None None 3)) example_db
    = (DatabaseManager.Done
         (AdminHandlers.END, None,
          [AdminHandlers.PriceUpdated
             (example_rule 2 "gearless" "fixed" None None 3) 15000000]), d')
    /\ option_map p_price (product_with_id 2 d') = Some 15000000.
Proof.
  assert (H64 : forall n, - 2 ^ 62 <= n <= 2 ^ 62 -> int64 n).
  { intros n Hn. unfold int64. change DatabaseManager.max_rowid with (2 ^ 63 - 1). lia. }
  destruct (formatted_price_is_typed_back decimal_int 15000000
              (example_rule 2 "gearless" "fixed" None None 3) example_db)
    as (d' & He & Hl & _).
  - vm_compute. reflexivity.
  - lia.
  - apply H64. lia.
  - apply H64. cbn. lia.
  - exists d'. split; [exact He|]. cbn [example_rule p_id] in Hl. rewrite Hl. reflexivity.
Defined.

(** ** Numbers and rows of the document *)

Lemma whole_fraction (q : Q) : integral q = true -> Qtrunc q = Qfloor q.
Proof.
  unfold integral, Qtrunc, Qfloor. destruct q as [n d]. cbn [Qnum Qden].
  intros H. apply Z.eqb_eq in H.
  assert (Hd : n = Z.pos d * (n / Z.pos d)) by (apply Z.div_exact; [lia | exact H]).
  assert (Hr : Z.rem n (Z.pos d) = 0).
  { apply Z.rem_divide; [lia|]. apply Z.mod_divide; [lia | exact H]. }
  assert (Hq : n = Z.pos d * (Z.quot n (Z.pos d))) by (apply Z.quot_exact; [lia | exact Hr]).
  nia.
Qed.

Lemma whole_float (x : float) :
  PDFGenerator.is_integer x = true ->
  exists n, int (PyFloat x) = Ok n /\ floor (PyFloat x) = Ok n.
Proof.
  destruct x as [s|s| |s m e]; cbn [PDFGenerator.is_integer]; try discriminate.
  - intros _. exists 0. split; reflexivity.
  - intros H. exists (Qtrunc (frac s m e)). cbn [int floor int_of_float floor_of_float].
    rewrite (whole_fraction _ H). split; reflexivity.
Qed.

Section FormatNumber.

Variable format_float : float -> string.

Lemma format_number_returns (number : num) :
  exists s, PDFGenerator._format_number format_float number = Ok s.
Proof.
  unfold PDFGenerator._format_number. destruct number as [n|x]; [eexists; reflexivity|].
  destruct (PDFGenerator.is_integer x) eqn:Hx; [|eexists; reflexivity].
  destruct (whole_float x Hx) as (n & -> & _). eexists; reflexivity.
Qed.

Lemma format_number_int (n : Z) :
  PDFGenerator._format_number format_float (PyInt n) = Ok (Helpers.format_price n).
Proof. reflexivity. Qed.

Lemma format_loop_rows (items : list item) :
  forall idx acc,
    exists rows,
      PDFGenerator.format_loop format_float idx items acc = Ok (acc ++ rows)
      /\ map PDFGenerator.row rows
         = map (fun i => idx + Z.of_nat i) (seq 0 (List.length items))
      /\ Forall2 (fun it r =>
                    PDFGenerator.fi_name r = name it
                    /\ PDFGenerator.fi_unit r = unit it
                    /\ PDFGenerator._format_number format_float (quantity it)
                       = Ok (PDFGenerator.fi_quantity r)
                    /\ PDFGenerator.fi_unit_price r = Helpers.format_price (unit_price it)
                    /\ PDFGenerator.fi_total_price r
                       = Helpers.format_price (total_price it))
           items rows.
Proof.
  induction items as [|it items IH]; intros idx acc.
  - exists []. cbn [PDFGenerator.format_loop]. rewrite app_nil_r.
    repeat split. constructor.
  - cbn [PDFGenerator.format_loop].
    destruct (format_number_returns (quantity it)) as [q Hq].
    rewrite Hq, !format_number_int. cbn [bind].
    match goal with
    | |- context [PDFGenerator.format_loop format_float (idx + 1) items ?acc'] =>
        destruct (IH (idx + 1) acc') as (rows & Hl & Hrow & HR)
    end.
    rewrite Hl, <- app_assoc. eexists (_ :: rows). split; [reflexivity|]. split.
    + cbn [map List.length seq PDFGenerator.row]. rewrite Hrow, <- seq_shift, map_map.
      f_equal; [lia|]. apply map_ext. intros i. lia.
    + constructor; [|exact HR]. repeat split. exact Hq.
Qed.

End FormatNumber.

(** X15: [_format_number] never raises: an int is printed like
    [format_price] prints it, a float that is a whole number is printed as
    the int it is equal to (its [int] and its floor agree), since
    [is_integer] lets no infinity and no NaN through to [int], and any other
    float is left to the formatting of floats. *)
Theorem format_number_never_raises (format_float : float -> string) (number : num) :
  exists s,
    PDFGenerator._format_number format_float number = Ok s
    /\ (forall n, number = PyInt n -> s = Helpers.format_price n)
    /\ (forall x, number = PyFloat x -> PDFGenerator.is_integer x = true ->
          exists n, int number = Ok n /\ floor number = Ok n
                    /\ s = Helpers.format_price n)
    /\ (forall x, number = PyFloat x -> PDFGenerator.is_integer x = false ->
          s = format_float x)
    /\ (forall x, number = PyFloat x -> finite x = false ->
          s = format_float x).
Proof.
  unfold PDFGenerator._format_number. destruct number as [n|x].
  - eexists. split; [reflexivity|]. repeat split; try discriminate.
    intros n' [= <-]. reflexivity.
  - destruct (PDFGenerator.is_integer x) eqn:Hx.
    + destruct (whole_float x Hx) as (n & Hi & Hf). rewrite Hi. cbn [bind].
      eexists. split; [reflexivity|]. repeat split; try discriminate.
      * intros x' [= <-] _. exists n. repeat split; assumption.
      * intros x' [= <-]. congruence.
      * intros x' [= <-]. destruct x; discriminate.
    + eexists. split; [reflexivity|]. repeat split; try discriminate.
      * intros x' [= <-]. congruence.
      * intros x' [= <-] _. reflexivity.
      * intros x' [= <-] _. reflexivity.
Qed.

Lemma format_number_never_raises_witness :
  exists n, int (PyFloat (dyadic 1250 0)) = Ok n /\ floor (PyFloat (dyadic 1250 0)) = Ok n
            /\ PDFGenerator._format_number (fun _ => "?") (PyFloat (dyadic 1250 0))
               = Ok (Helpers.format_price n).
Proof.
  destruct (format_number_never_raises (fun _ => "?") (PyFloat (dyadic 1250 0)))
    as (s & Hs & _ & Hw & _).
  destruct (Hw (dyadic 1250 0) eq_refl) as (n & Hi & Hf & E); [vm_compute; reflexivity|].
  exists n. rewrite Hs, E. repeat split; assumption.
Defined.

(** X16: [_format_items] never raises and makes one row for each item, in
    order, numbered 1, 2, 3 and so on, with the name and the unit of the
    item, the unit price and the line total printed as [format_price]
    prints them, and the quantity as [_format_number] prints it. *)
Theorem document_rows_follow_the_items (format_float : float -> string)
    (items : list item) :
  exists rows,
    PDFGenerator._format_items format_float items = Ok rows
    /\ map PDFGenerator.row rows
       = map (fun i => 1 + Z.of_nat i) (seq 0 (List.length items))
    /\ Forall2 (fun it r =>
                  PDFGenerator.fi_name r = name it
                  /\ PDFGenerator.fi_unit r = unit it
                  /\ PDFGenerator._format_number format_float (quantity it)
                     = Ok (PDFGenerator.fi_quantity r)
                  /\ PDFGenerator.fi_unit_price r = Helpers.format_price (unit_price it)
                  /\ PDFGenerator.fi_total_price r
                     = Helpers.format_price (total_price it))
         items rows.
Proof.
  unfold PDFGenerator._format_items.
  destruct (format_loop_rows format_float items 1 []) as (rows & H & Hrow & HR).
  exists rows. repeat split; assumption.
Qed.

(** ** Rules that stop the calculation *)


Lemma final_name_returns (p : product) (floors : Z) :
  exists s, _get_final_name p floors = Ok s.
Proof.
  unfold _get_final_name.
  destruct (String.eqb (p_type p) "dynamic_name" && str_truthy (p_name_pattern p));
    [|eexists; reflexivity].
  destruct (p_name_pattern p) as [pat|]; [|eexists; reflexivity].
  unfold Template.safe_substitute.
  destruct (sub_returns [("stops", floors + or0_int (p_stops_offset p));
                         ("floors", floors); ("N", floors)] pat 0%nat) as [s ->].
  eexists; reflexivity.
Qed.

Lemma infinite_fixed_rule_raises (p : product) (floors : Z) :
  p_type p = "fixed" -> p_factor p = Some (S754_infinity false) ->
  exists e, make_item p floors = Raise e /\ (e = OverflowError \/ e = ValueError).
Proof.
  intros Ht Hf. unfold make_item, _calculate_quantity. rewrite Ht, Hf.
  change (String.eqb "fixed" "fixed") with true. cbv iota.
  change (or0 (Some (S754_infinity false))) with (PyFloat (S754_infinity false)).
  change (gt0 (PyFloat (S754_infinity false))) with true. cbv iota. cbn [bind].
  destruct (_get_final_name p floors) as [nm|e] eqn:Hn.
  - cbn [bind mul to_float].
    destruct (float_of_int (p_price p)) as [y|e] eqn:Hy.
    + pose proof (float_of_int_finite _ _ Hy) as Hfin. cbn [bind].
      destruct y as [s|s| |s m e]; try destruct Hfin.
      * exists ValueError. split; [reflexivity | right; reflexivity].
      * exists OverflowError. split; [reflexivity | left; reflexivity].
    + exists e. split; [reflexivity|]. unfold float_of_int in Hy.
      destruct (binary_normalize prec emax (p_price p) 0 false); try discriminate.
      injection Hy as <-. left. reflexivity.
  - destruct (final_name_returns p floors) as [s Hs]. congruence.
Qed.

(** X17: one rule that cannot be evaluated stops the whole calculation:
    when a rule of the catalog is applicable to a request and making its
    item raises, [calculate_invoice] raises and returns no invoice, and the
    step [floors] of the conversation answers with the error, stores no
    result and asks for the floor count again.  A fixed rule whose factor
    is an infinity is such a rule at every floor count: its amount is an
    infinity or a NaN, on which [int] raises. *)
Theorem failing_rule_stops_the_invoice (system_type : string) (floors : Z)
    (c : Database.state) (p : product) :
  system_type <> "" -> In p (products c) -> applicable system_type floors p ->
  ((exists e, make_item p floors = Raise e) ->
   (exists e, fst (calculate_invoice floors system_type c) = Raise e)
   /\ forall int_of_str text ud,
        int_of_str text = Ok floors -> 1 <= floors <= 100 ->
        BotHandlers.ud_system_type ud = Some system_type ->
        exists e ud',
          BotHandlers.floors int_of_str text ud c
          = Ok (BotHandlers.FLOORS, ud',
                [BotHandlers.EvCalculate floors system_type;
                 BotHandlers.EvReply (BotHandlers.CalculationError e)])
          /\ BotHandlers.ud_calculation_result ud'
             = BotHandlers.ud_calculation_result ud)
  /\ (p_type p = "fixed" -> p_factor p = Some (S754_infinity false) ->
      (exists e, make_item p floors = Raise e /\ (e = OverflowError \/ e = ValueError))
      /\ exists e, fst (calculate_invoice floors system_type c) = Raise e).
Proof.
  intros Hne Hin Happ.
  assert (Hcalc : (exists e, make_item p floors = Raise e) ->
                  exists e, fst (calculate_invoice floors system_type c) = Raise e).
  { intros [e He]. destruct (fits_int64_dec floors) as [Hf | Hf];
      [|exists OverflowError; rewrite (calculate_invoice_overflows _ _ _ Hf);
        reflexivity].
    rewrite (calculate_invoice_unfold _ _ _ Hf). cbn [fst].
    apply loop_raises. exists p, e. split; [|exact He].
    rewrite (select_truthy_system _ _ _ Hne). apply filter_In. split; [exact Hin|].
    apply applicable_b_spec. exact Happ. }
  split.
  - intros Hp. split; [exact (Hcalc Hp)|].
    intros int_of_str text ud Hi Hfl Hst. destruct (Hcalc Hp) as [e He].
    unfold BotHandlers.floors. rewrite Hi, validate_floors_int.
    replace (floors <? 1) with false by (symmetry; apply Z.ltb_ge; lia).
    replace (100 <? floors) with false by (symmetry; apply Z.ltb_ge; lia).
    cbn [bind negb]. rewrite Hst, He. eexists _, _. split; reflexivity.
  - intros Ht Hf. destruct (infinite_fixed_rule_raises p floors Ht Hf) as (e & He & Hk).
    split; [exists e; split; assumption|]. apply Hcalc. exists e. exact He.
Qed.

Lemma failing_rule_stops_the_invoice_witness :
  exists e, fst (calculate_invoice 5 "hydraulic" infinite_catalog) = Raise e.
Proof.
  apply (proj2 (failing_rule_stops_the_invoice "hydraulic" 5 infinite_catalog
                  (example_rule 2 "common" "fixed" (Some (S754_infinity false)) None 3)
                  ltac:(discriminate) ltac:(right; left; reflexivity)
                  ltac:(repeat split; try discriminate; right; reflexivity)));
    reflexivity.
Defined.

(** ** Invoices saved in part *)

Lemma save_items_app (invoice_id : Z) (its1 its2 : list item) :
  forall d,
    Conversation.save_items invoice_id (its1 ++ its2) d
    = match Conversation.save_items invoice_id its1 d with
      | (DatabaseManager.Done _, d1) => Conversation.save_items invoice_id its2 d1
      | (DatabaseManager.Failed e, d1) => (DatabaseManager.Failed e, d1)
      end.
Proof.
  induction its1 as [|it its1 IH]; intros d; cbn [app Conversation.save_items].
  - destruct its2; reflexivity.
  - destruct (DatabaseManager.add_invoice_item _ _ _ _ _ _ _ d) as [[k|e] d1];
      [apply IH | reflexivity].
Qed.

Lemma bind_real_outcome (v : num) :
  (exists q, DatabaseManager.bind_real v = DatabaseManager.Done q)
  \/ DatabaseManager.bind_real v = DatabaseManager.Failed (DatabaseManager.Builtin OverflowError).
Proof.
  destruct v as [n|x]; cbn [DatabaseManager.bind_real].
  - destruct (DatabaseManager.bind_int n) as [k|e] eqn:Hk.
    + cbn [DatabaseManager.and_then]. unfold float_of_int.
      destruct (binary_normalize prec emax k 0 false);
        [left; eexists; reflexivity | right; reflexivity
        | left; eexists; reflexivity | left; eexists; reflexivity].
    + right. unfold DatabaseManager.bind_int in Hk.
      destruct (_ && _); [discriminate|]. injection Hk as <-. reflexivity.
  - left. destruct x; eexists; reflexivity.
Qed.

Lemma oversized_item_is_refused (invoice_id : Z) (it : item) (d : DatabaseManager.db) :
  ~ int64 (total_price it) ->
  DatabaseManager.add_invoice_item invoice_id (product_id it) (name it) (unit it)
    (quantity it) (unit_price it) (total_price it) d
  = (DatabaseManager.Failed (DatabaseManager.Builtin OverflowError), d).
Proof.
  intros Ht. unfold DatabaseManager.add_invoice_item.
  assert (Hb : forall n, (exists k, DatabaseManager.bind_int n = DatabaseManager.Done k)
                         \/ DatabaseManager.bind_int n
                            = DatabaseManager.Failed (DatabaseManager.Builtin OverflowError)).
  { intros n. unfold DatabaseManager.bind_int. destruct (_ && _);
      [left; eexists; reflexivity | right; reflexivity]. }
  destruct (Hb invoice_id) as [[k ->] | ->]; [|reflexivity].
  destruct (Hb (product_id it)) as [[k' ->] | ->]; [|reflexivity].
  destruct (bind_real_outcome (quantity it)) as [[q ->] | ->]; [|reflexivity].
  destruct (Hb (unit_price it)) as [[k'' ->] | ->]; [|reflexivity].
  rewrite (bind_int_overflows _ Ht). reflexivity.
Qed.

(** X18: the confirmation saves row by row and takes nothing back.  When
    the total of the invoice does not fit 64 bits, [create_invoice] raises
    [OverflowError] and nothing is stored.  When the total fits and the
    line total of one item does not, the invoice row and the rows of the
    items before that item are stored and stay stored, while the
    conversation ends with the error. *)
Theorem invoice_is_saved_in_part (strip : string -> string) (now : string)
    (deliver : Z -> Conversation.user_data -> invoice ->
               option string * option string * option string ->
               DatabaseManager.outcome Datatypes.unit)
    (text : string) (ud : Conversation.user_data) (d : DatabaseManager.db)
    (result : invoice) (customer project system : string) (n : Z) :
  strip text = "1" ->
  Conversation.calculation_result ud = Some result ->
  Conversation.customer_name ud = Some customer ->
  Conversation.project_name ud = Some project ->
  Conversation.system_type ud = Some system ->
  Conversation.floors ud = Some n ->
  int64 n ->
  (~ int64 (invoice_total_price result) ->
   Conversation.confirmation strip now deliver text ud d
   = ((Conversation.END, Conversation.cleared,
       [Conversation.Generating;
        Conversation.GenerationError (DatabaseManager.Builtin OverflowError)]), d))
  /\ (forall its1 bad its2,
        items result = its1 ++ bad :: its2 ->
        int64 (invoice_total_price result) ->
        Forall storable its1 -> ~ int64 (total_price bad) ->
        0 <= DatabaseManager.invoices_seq d ->
        high_water (DatabaseManager.invoices_seq d)
          (map DatabaseManager.inv_id (DatabaseManager.invoices d))
          < DatabaseManager.max_rowid ->
        high_water (DatabaseManager.invoice_items_seq d)
          (map DatabaseManager.ii_id (DatabaseManager.invoice_items d))
          + Z.of_nat (List.length its1) <= DatabaseManager.max_rowid ->
        let invoice_id :=
          high_water (DatabaseManager.invoices_seq d)
            (map DatabaseManager.inv_id (DatabaseManager.invoices d)) + 1 in
        exists d' rows,
          Conversation.confirmation strip now deliver text ud d
          = ((Conversation.END, Conversation.cleared,
              [Conversation.Generating;
               Conversation.GenerationError (DatabaseManager.Builtin OverflowError)]), d')
          /\ DatabaseManager.invoices d'
             = DatabaseManager.invoices d
               ++ [{| DatabaseManager.inv_id := invoice_id;
                      DatabaseManager.inv_customer_name := customer;
                      DatabaseManager.inv_project_name := project;
                      DatabaseManager.inv_system := system;
                      DatabaseManager.inv_floors := n;
                      DatabaseManager.inv_total_price := invoice_total_price result;
                      DatabaseManager.inv_created_at := now |}]
          /\ DatabaseManager.invoice_items d' = DatabaseManager.invoice_items d ++ rows
          /\ Forall2 (holds invoice_id) its1 rows).
Proof.
  intros Hstrip Hres Hcus Hpro Hsys Hfl Hn.
  assert (Hconf : forall o d',
            Conversation.save_and_deliver now deliver ud d
              = (DatabaseManager.Failed o, d') ->
            Conversation.confirmation strip now deliver text ud d
            = ((Conversation.END, Conversation.cleared,
                [Conversation.Generating; Conversation.GenerationError o]), d')).
  { intros o d' H. unfold Conversation.confirmation. rewrite Hstrip.
    change (String.eqb "1" "0") with false. change (String.eqb "1" "1") with true.
    cbn [negb]. rewrite H. reflexivity. }
  split.
  - intros Ht. apply Hconf. unfold Conversation.save_and_deliver.
    rewrite Hres, Hcus, Hpro, Hsys, Hfl.
    cbn [Conversation.lookup DatabaseManager.and_then].
    unfold DatabaseManager.create_invoice.
    rewrite (bind_int_fits _ Hn), (bind_int_overflows _ Ht). reflexivity.
  - intros its1 bad its2 Hits Ht Hst Hbad Hseq Hroom Hroom'. cbv zeta.
    set (hw := high_water (DatabaseManager.invoices_seq d)
                 (map DatabaseManager.inv_id (DatabaseManager.invoices d))) in *.
    assert (Hhw : 0 <= hw) by (unfold hw, high_water; lia).
    assert (Hid : int64 (hw + 1)).
    { unfold int64. change DatabaseManager.max_rowid with 9223372036854775807 in *. lia. }
    pose proof (create_invoice_adds_row now customer project system n
                  (invoice_total_price result) d Hn Ht Hroom) as Hcreate.
    cbv zeta in Hcreate. fold hw in Hcreate.
    match type of Hcreate with
    | _ = (_, ?d1') => set (d1 := d1') in *
    end.
    destruct (save_items_adds_rows (hw + 1) its1 Hid Hst d1 Hroom')
      as (d2 & rows & Hsave & Hrows & HR & _ & Hi2 & _).
    exists d2, rows. split; [|split; [|split]].
    + apply Hconf. unfold Conversation.save_and_deliver.
      rewrite Hres, Hcus, Hpro, Hsys, Hfl.
      cbn [Conversation.lookup DatabaseManager.and_then].
      rewrite Hcreate, Hits, save_items_app, Hsave.
      cbn [Conversation.save_items]. rewrite (oversized_item_is_refused _ _ _ Hbad).
      reflexivity.
    + rewrite Hi2. reflexivity.
    + exact Hrows.
    + exact HR.
Qed.

Lemma invoice_is_saved_in_part_witness :
  (exists credit cabin,
      fst (calculate_invoice 1 "hydraulic" oversized_catalog)
      = Ok {| items := [credit; cabin]; invoice_total_price := 2 ^ 62 |}
      /\ total_price credit = - 2 ^ 62 /\ total_price cabin = 2 ^ 63
      /\ exists d' row,
           Conversation.confirmation (fun s => s) "2024-05-01T10:00:00"
             (fun _ _ _ _ => DatabaseManager.Done tt) "1"
             (example_user_data
                {| items := [credit; cabin]; invoice_total_price := 2 ^ 62 |})
             example_db
           = ((Conversation.END, Conversation.cleared,
               [Conversation.Generating;
                Conversation.GenerationError (DatabaseManager.Builtin OverflowError)]),
              d')
           /\ map DatabaseManager.inv_total_price (DatabaseManager.invoices d')
              = map DatabaseManager.inv_total_price (DatabaseManager.invoices example_db)
                ++ [2 ^ 62]
           /\ DatabaseManager.invoice_items d'
              = DatabaseManager.invoice_items example_db ++ [row]
           /\ holds 2 credit row)
  /\ Conversation.confirmation (fun s => s) "2024-05-01T10:00:00"
       (fun _ _ _ _ => DatabaseManager.Done tt) "1"
       (example_user_data {| items := []; invoice_total_price := 2 ^ 63 |}) example_db
     = ((Conversation.END, Conversation.cleared,
         [Conversation.Generating;
          Conversation.GenerationError (DatabaseManager.Builtin OverflowError)]),
        example_db).
Proof.
  assert (H64 : forall n, - 2 ^ 62 <= n <= 2 ^ 62 -> int64 n).
  { intros n Hn. unfold int64. change DatabaseManager.max_rowid with (2 ^ 63 - 1). lia. }
  assert (H5 : int64 5) by (apply H64; lia).
  split.
  - set (credit := {| product_id := 1; name := "Cabin"; unit := "pc";
                      quantity := PyFloat (dyadic (-1) 0);
                      unit_price := 2 ^ 62; total_price := - 2 ^ 62 |}).
    set (cabin := {| product_id := 3; name := "Cabin"; unit := "pc";
                     quantity := PyFloat (dyadic 2 0);
                     unit_price := 2 ^ 62; total_price := 2 ^ 63 |}).
    exists credit, cabin.
    split; [vm_compute; reflexivity|]. split; [reflexivity|]. split; [reflexivity|].
    destruct (proj2 (invoice_is_saved_in_part (fun s => s) "2024-05-01T10:00:00"
                       (fun _ _ _ _ => DatabaseManager.Done tt) "1"
                       (example_user_data
                          {| items := [credit; cabin]; invoice_total_price := 2 ^ 62 |})
                       example_db
                       {| items := [credit; cabin]; invoice_total_price := 2 ^ 62 |}
                       "A. Customer" "Tower 2" "hydraulic" 5
                       eq_refl eq_refl eq_refl eq_refl eq_refl eq_refl H5)
                [credit] cabin [])
      as (d' & rows & Hc & Hi & Hrows & HR).
    + reflexivity.
    + apply H64. cbn [invoice_total_price]. lia.
    + constructor; [|constructor]. unfold storable, credit.
      cbn [product_id unit_price total_price quantity].
      split; [apply H64; lia|]. split; [apply H64; lia|]. split; [apply H64; lia|].
      eexists. vm_compute. reflexivity.
    + unfold int64, cabin. change DatabaseManager.max_rowid with (2 ^ 63 - 1).
      cbn [total_price]. lia.
    + vm_compute. discriminate.
    + vm_compute. reflexivity.
    + vm_compute. discriminate.
    + inversion HR as [|it row its rows' Hh HR' E1 E2]; subst.
      inversion HR'; subst.
      exists d', row. split; [exact Hc|]. split; [rewrite Hi, map_app; reflexivity|].
      split; [exact Hrows | exact Hh].
  - apply (proj1 (invoice_is_saved_in_part (fun s => s) "2024-05-01T10:00:00"
                    (fun _ _ _ _ => DatabaseManager.Done tt) "1"
                    (example_user_data {| items := []; invoice_total_price := 2 ^ 63 |})
                    example_db {| items := []; invoice_total_price := 2 ^ 63 |}
                    "A. Customer" "Tower 2" "hydraulic" 5
                    eq_refl eq_refl eq_refl eq_refl eq_refl eq_refl H5)).
    unfold int64. change DatabaseManager.max_rowid with (2 ^ 63 - 1).
    cbn [invoice_total_price]. lia.
Defined.

(** ** The floor count that is accepted *)

(** X19: when the text is a floor count in 1..100, a system type has been
    chosen and the calculation returns, the step [floors] stores the floor
    count and the result of the calculation, and leaves the other entries
    of the user data as they are.  With the customer, the project and the
    text of the system type in the user data it replies with the
    confirmation and moves on to the confirmation; with one of them
    missing the [KeyError] is caught, the reply is the error, and the step
    asks for the floor count again, the result stored all the same.
    Without a system type chosen nothing is calculated and no result is
    stored. *)
Theorem accepted_floors_are_calculated (int_of_str : string -> result Z)
    (text : string) (ud : BotHandlers.user_data) (db : state) (n : Z) :
  int_of_str text = Ok n -> 1 <= n <= 100 ->
  (forall system_type result,
      BotHandlers.ud_system_type ud = Some system_type ->
      fst (calculate_invoice n system_type db) = Ok result ->
      let ud2 :=
        BotHandlers.set_calculation_result (BotHandlers.set_floors ud n) result in
      (forall customer project system_text,
          BotHandlers.ud_customer_name ud = Some customer ->
          BotHandlers.ud_project_name ud = Some project ->
          BotHandlers.ud_system_text ud = Some system_text ->
          BotHandlers.floors int_of_str text ud db
          = Ok (BotHandlers.CONFIRMATION, ud2,
                [BotHandlers.EvCalculate n system_type;
                 BotHandlers.EvReply
                   (BotHandlers.Confirmation customer project system_text n result)]))
      /\ (BotHandlers.ud_customer_name ud = None
          \/ BotHandlers.ud_project_name ud = None
          \/ BotHandlers.ud_system_text ud = None ->
          BotHandlers.floors int_of_str text ud db
          = Ok (BotHandlers.FLOORS, ud2,
                [BotHandlers.EvCalculate n system_type;
                 BotHandlers.EvReply (BotHandlers.CalculationError KeyError)]))
      /\ BotHandlers.ud_floors ud2 = Some n
      /\ BotHandlers.ud_calculation_result ud2 = Some result
      /\ BotHandlers.ud_customer_name ud2 = BotHandlers.ud_customer_name ud
      /\ BotHandlers.ud_project_name ud2 = BotHandlers.ud_project_name ud
      /\ BotHandlers.ud_system_type ud2 = BotHandlers.ud_system_type ud
      /\ BotHandlers.ud_system_text ud2 = BotHandlers.ud_system_text ud)
  /\ (BotHandlers.ud_system_type ud = None ->
      BotHandlers.floors int_of_str text ud db
      = Ok (BotHandlers.FLOORS, BotHandlers.set_floors ud n,
            [BotHandlers.EvReply (BotHandlers.CalculationError KeyError)])
      /\ BotHandlers.ud_calculation_result (BotHandlers.set_floors ud n)
         = BotHandlers.ud_calculation_result ud).
Proof.
  intros Hi Hn.
  assert (Hstep : BotHandlers.floors int_of_str text ud db
                  = match BotHandlers.ud_system_type ud with
                    | None =>
                        Ok (BotHandlers.FLOORS, BotHandlers.set_floors ud n,
                            [BotHandlers.EvReply (BotHandlers.CalculationError KeyError)])
                    | Some system_type =>
                        match fst (calculate_invoice n system_type db) with
                        | Ok result =>
                            match BotHandlers.ud_customer_name ud,
                                  BotHandlers.ud_project_name ud,
                                  BotHandlers.ud_system_text ud with
                            | Some c, Some p, Some s =>
                                Ok (BotHandlers.CONFIRMATION,
                                    BotHandlers.set_calculation_result
                                      (BotHandlers.set_floors ud n) result,
                                    [BotHandlers.EvCalculate n system_type;
                                     BotHandlers.EvReply
                                       (BotHandlers.Confirmation c p s n result)])
                            | _, _, _ =>
                                Ok (BotHandlers.FLOORS,
                                    BotHandlers.set_calculation_result
                                      (BotHandlers.set_floors ud n) result,
                                    [BotHandlers.EvCalculate n system_type;
                                     BotHandlers.EvReply
                                       (BotHandlers.CalculationError KeyError)])
                            end
                        | Raise e =>
                            Ok (BotHandlers.FLOORS, BotHandlers.set_floors ud n,
                                [BotHandlers.EvCalculate n system_type;
                                 BotHandlers.EvReply (BotHandlers.CalculationError e)])
                        end
                    end).
  { unfold BotHandlers.floors. rewrite Hi, validate_floors_int.
    replace (n <? 1) with false by (symmetry; apply Z.ltb_ge; lia).
    replace (100 <? n) with false by (symmetry; apply Z.ltb_ge; lia).
    reflexivity. }
  split.
  - intros system_type result Hst Hc. cbv zeta. rewrite Hstep, Hst, Hc.
    split; [|split; [|repeat split; try reflexivity; exact Hst]].
    + intros customer project system_text -> -> ->. reflexivity.
    + intros Hmiss.
      destruct (BotHandlers.ud_customer_name ud); [|reflexivity].
      destruct (BotHandlers.ud_project_name ud); [|reflexivity].
      destruct (BotHandlers.ud_system_text ud); [|reflexivity].
      destruct Hmiss as [H | [H | H]]; discriminate.
  - intros Hst. rewrite Hstep, Hst. split; reflexivity.
Qed.

Lemma accepted_floors_are_calculated_witness :
  exists result,
    fst (calculate_invoice 9 "hydraulic" mixed_catalog) = Ok result
    /\ map total_price (items result) = [160; 410; 410]
    /\ BotHandlers.floors (fun _ => Ok 9) "9" chosen_hydraulic mixed_catalog
       = Ok (BotHandlers.CONFIRMATION,
             BotHandlers.set_calculation_result
               (BotHandlers.set_floors chosen_hydraulic 9) result,
             [BotHandlers.EvCalculate 9 "hydraulic";
              BotHandlers.EvReply
                (BotHandlers.Confirmation "Sara" "Tower" "هیدرولیک" 9 result)]).
Proof.
  eexists. split; [vm_compute; reflexivity|]. split; [reflexivity|].
  apply (proj1 (proj1 (accepted_floors_are_calculated (fun _ => Ok 9) "9"
                         chosen_hydraulic mixed_catalog 9 eq_refl ltac:(lia))
                  "hydraulic"%string _ eq_refl ltac:(vm_compute; reflexivity)));
    reflexivity.
Defined.
